(** * stock-peso: the join-and-report engine of [streamlit_app.py]

    A shallow embedding of [src/streamlit_app.py]: the functions
    [build_product_lookup] and [get_products_info_for_row], the pallet
    summary, the paginated fetch ([fetch_documents], [fetch_all_products]),
    the search of a document ([get_row_index_by_docnumber],
    [find_document_in_all]) and the TOTAL row; with the properties of the
    specification that hold (or fail) on them, and further properties read
    off the code.

    Values decoded from the remote service are JSON values as Python holds
    them: [None], [bool], unbounded [int], binary64 [float], [str], [list]
    and [dict] with string keys.  A binary64 number is a [spec_float] of the
    standard library's IEEE 754 specification at precision 53 and maximal
    exponent 1024, so that arithmetic, rounding and comparisons are the ones
    the interpreter performs, NaN and the infinities included. *)

From Stdlib Require Import ZArith List String Ascii Bool Lia.
From Stdlib Require Import Floats.SpecFloat.
From Stdlib Require Import Sorting.Permutation Sorting.Sorted OrderedTypeEx.
Import ListNotations.
Open Scope string_scope.
Open Scope list_scope.
Open Scope Z_scope.
Set Warnings "-register-all".

(** ** Exceptions *)

Inductive exn : Type :=
| TypeError
| AttributeError
| OverflowError.

Inductive result (A : Type) : Type :=
| Ok (a : A)
| Raise (e : exn).

Arguments Ok {A} a.
Arguments Raise {A} e.

Definition bind {A B : Type} (c : result A) (k : A -> result B) : result B :=
  match c with
  | Ok a => k a
  | Raise e => Raise e
  end.

Notation "x <- c ;; k" := (bind c (fun x => k))
  (at level 61, c at next level, right associativity).
Notation "' p <- c ;; k" := (bind c (fun p => k))
  (at level 61, p pattern, c at next level, right associativity).

(** [for x in xs: ...] with a body that may raise. *)
Fixpoint mapM {A B : Type} (f : A -> result B) (xs : list A) : result (list B) :=
  match xs with
  | [] => Ok []
  | x :: xs' => y <- f x ;; ys <- mapM f xs' ;; Ok (y :: ys)
  end.

Fixpoint foldM {A S : Type} (f : S -> A -> result S) (xs : list A) (s : S)
  : result S :=
  match xs with
  | [] => Ok s
  | x :: xs' => s' <- f s x ;; foldM f xs' s'
  end.

(** ** Binary64 *)

Module F64.

Definition prec : Z := 53.
Definition emax : Z := 1024.

Definition t : Type := spec_float.

Definition add : t -> t -> t := SFadd prec emax.
Definition sub : t -> t -> t := SFsub prec emax.
Definition mul : t -> t -> t := SFmul prec emax.
Definition div : t -> t -> t := SFdiv prec emax.
Definition abs : t -> t := SFabs.
Definition compare : t -> t -> option comparison := SFcompare.

Definition valid (x : t) : bool := valid_binary prec emax x.

Definition is_nan (x : t) : bool :=
  match x with S754_nan => true | _ => false end.

Definition is_zero (x : t) : bool :=
  match x with S754_zero _ => true | _ => false end.

Definition is_finite (x : t) : bool :=
  match x with S754_zero _ | S754_finite _ _ _ => true | _ => false end.

Definition is_inf (x : t) : bool :=
  match x with S754_infinity _ => true | _ => false end.

(** The nearest binary64 to an integer, ties to even; an infinity when the
    integer is out of range. *)
Definition of_Z (z : Z) : t := binary_normalize prec emax z 0 false.

(** The decimal literal [n]e-[k], as the interpreter reads it: the nearest
    binary64 to [n / 10^k] (for [n] and [10^k] below [2^53]). *)
Definition dec (n : Z) (k : nat) : t := div (of_Z n) (of_Z (10 ^ Z.of_nat k)).

(** [n / d] rounded to the nearest integer, ties to even ([0 <= n], [0 < d]). *)
Definition div_half_even (n d : Z) : Z :=
  let q := n / d in
  let r := n mod d in
  match 2 * r ?= d with
  | Lt => q
  | Eq => if Z.even q then q else q + 1
  | Gt => q + 1
  end.

(** The magnitude [m * 2^e * 10^k] rounded to the nearest integer, ties to
    even. *)
Definition scaled_half_even (m : positive) (e : Z) (k : nat) : Z :=
  let n := Zpos m * 10 ^ Z.of_nat k in
  match e with
  | Zneg p => div_half_even n (2 ^ Zpos p)
  | _ => n * 2 ^ e
  end.

(** [float.__round__(x, k)] for [0 <= k]: the shortest way to say what
    CPython does is "print [x] with [k] decimals, correctly rounded, and
    read the result back".  For [0 <= k] the value read back is never
    larger in magnitude than the next integer, so it cannot overflow. *)
Definition py_round (k : nat) (x : t) : t :=
  match x with
  | S754_finite s m e =>
      match scaled_half_even m e k with
      | Zpos j => div (S754_finite s j 0) (of_Z (10 ^ Z.of_nat k))
      | _ => S754_zero s
      end
  | _ => x
  end.

(** [numpy.rint]: the nearest integral binary64, ties to even. *)
Definition rint (x : t) : t :=
  match x with
  | S754_finite s m (Zneg p) =>
      match div_half_even (Zpos m) (2 ^ Zpos p) with
      | Zpos j => binary_normalize prec emax (cond_Zopp s (Zpos j)) 0 false
      | _ => S754_zero s
      end
  | _ => x
  end.

(** [numpy.float64.__round__(x, k)], that is [ndarray.round]: multiply by
    [10^k], [rint], divide by [10^k]; plain [rint] when [k = 0]. *)
Definition np_round (k : nat) (x : t) : t :=
  match k with
  | O => rint x
  | _ => let f := of_Z (10 ^ Z.of_nat k) in div (rint (mul x f)) f
  end.

(** [numpy.ceil] followed by [int(...)]: the least integer not below [x];
    [None] for NaN and the infinities, where [int] raises. *)
Definition ceil (x : t) : option Z :=
  match x with
  | S754_zero _ => Some 0
  | S754_finite s m e =>
      let v := cond_Zopp s (Zpos m) in
      Some match e with
           | Zneg p => - ((- v) / 2 ^ Zpos p)
           | _ => v * 2 ^ e
           end
  | _ => None
  end.

(** Exact comparison of an integer with a binary64, as the interpreter
    compares an [int] with a [float] (no conversion, no rounding). *)
Definition Zcompare (z : Z) (x : t) : option comparison :=
  match x with
  | S754_nan => None
  | S754_infinity s => Some (if s then Gt else Lt)
  | S754_zero _ => Some (z ?= 0)
  | S754_finite s m e =>
      let v := cond_Zopp s (Zpos m) in
      Some match e with
           | Zneg p => z * 2 ^ Zpos p ?= v
           | _ => z ?= v * 2 ^ e
           end
  end.

End F64.

(** ** Python values *)

Inductive pyval : Type :=
| VNone
| VBool (b : bool)
| VInt (z : Z)
| VFloat (f : F64.t)
| VStr (s : string)
| VList (l : list pyval)
| VDict (d : list (string * pyval)).

(** A JSON object: a [dict] with string keys, in insertion order. *)
Definition dict : Type := list (string * pyval).

Fixpoint get_opt (d : dict) (k : string) : option pyval :=
  match d with
  | [] => None
  | (k', v) :: d' => if String.eqb k' k then Some v else get_opt d' k
  end.

(** [d.get(k, dflt)] and [d.get(k)]. *)
Definition get_default (d : dict) (k : string) (dflt : pyval) : pyval :=
  match get_opt d k with
  | Some v => v
  | None => dflt
  end.

Definition get (d : dict) (k : string) : pyval := get_default d k VNone.

(** Truth value testing: [if x], [not x], [x or y], [x and y]. *)
Definition truthy (v : pyval) : bool :=
  match v with
  | VNone => false
  | VBool b => b
  | VInt z => negb (z =? 0)
  | VFloat f => negb (F64.is_zero f)
  | VStr s => negb (String.eqb s "")
  | VList l => match l with [] => false | _ => true end
  | VDict d => match d with [] => false | _ => true end
  end.

Definition py_or (a b : pyval) : pyval := if truthy a then a else b.

(** [v == "..."] against a string constant. *)
Definition str_eq (v : pyval) (s : string) : bool :=
  match v with
  | VStr s' => String.eqb s' s
  | _ => false
  end.

(** ** Numbers: [int] (with [bool]) and [float] *)

Inductive num : Type :=
| NInt (z : Z)
| NFloat (f : F64.t).

Definition as_num (v : pyval) : option num :=
  match v with
  | VBool b => Some (NInt (Z.b2z b))
  | VInt z => Some (NInt z)
  | VFloat f => Some (NFloat f)
  | _ => None
  end.

Definition of_num (n : num) : pyval :=
  match n with
  | NInt z => VInt z
  | NFloat f => VFloat f
  end.

(** [isinstance(v, (int, float))]; [bool] is a subclass of [int]. *)
Definition isinstance_number (v : pyval) : bool :=
  match as_num v with
  | Some _ => true
  | None => false
  end.

(** [float(z)] for an [int]: [OverflowError] when [z] does not fit. *)
Definition float_of_int (z : Z) : result F64.t :=
  match F64.of_Z z with
  | S754_infinity _ => Raise OverflowError
  | f => Ok f
  end.

Definition to_float (n : num) : result F64.t :=
  match n with
  | NInt z => float_of_int z
  | NFloat f => Ok f
  end.

(** Three-way comparison of two numbers; [None] when a NaN is involved.  An
    [int] and a [float] are compared exactly. *)
Definition num_compare (a b : num) : option comparison :=
  match a, b with
  | NInt x, NInt y => Some (x ?= y)
  | NFloat x, NFloat y => F64.compare x y
  | NInt x, NFloat y => F64.Zcompare x y
  | NFloat x, NInt y => option_map CompOpp (F64.Zcompare y x)
  end.

Definition num_ge (a b : num) : bool :=
  match num_compare a b with
  | Some (Gt | Eq) => true
  | _ => false
  end.

Definition num_lt (a b : num) : bool :=
  match num_compare a b with
  | Some Lt => true
  | _ => false
  end.

Definition num_sub (a b : num) : result num :=
  match a, b with
  | NInt x, NInt y => Ok (NInt (x - y))
  | _, _ => x <- to_float a ;; y <- to_float b ;; Ok (NFloat (F64.sub x y))
  end.

Definition num_mul (a b : num) : result num :=
  match a, b with
  | NInt x, NInt y => Ok (NInt (x * y))
  | _, _ => x <- to_float a ;; y <- to_float b ;; Ok (NFloat (F64.mul x y))
  end.

Definition num_abs (a : num) : num :=
  match a with
  | NInt x => NInt (Z.abs x)
  | NFloat x => NFloat (F64.abs x)
  end.

(** [round(a, k)] of a number, [0 <= k]: an [int] is returned as it is. *)
Definition num_round (k : nat) (a : num) : num :=
  match a with
  | NInt x => NInt x
  | NFloat x => NFloat (F64.py_round k x)
  end.

(** The operators on values, as the code applies them to a left operand
    that is a number.  With an operand that is not a number Python raises
    [TypeError] (for [*], either at once or, where it builds a repeated
    sequence, at the [round] that follows). *)
Definition lift2 {A : Type} (f : num -> num -> result A) (a b : pyval)
  : result A :=
  match as_num a, as_num b with
  | Some x, Some y => f x y
  | _, _ => Raise TypeError
  end.

Definition py_ge : pyval -> pyval -> result bool :=
  lift2 (fun x y => Ok (num_ge x y)).

Definition py_lt : pyval -> pyval -> result bool :=
  lift2 (fun x y => Ok (num_lt x y)).

Definition py_sub : pyval -> pyval -> result pyval :=
  lift2 (fun x y => d <- num_sub x y ;; Ok (of_num d)).

Definition py_mul : pyval -> pyval -> result pyval :=
  lift2 (fun x y => p <- num_mul x y ;; Ok (of_num p)).

Definition py_abs (a : pyval) : result pyval :=
  match as_num a with
  | Some x => Ok (of_num (num_abs x))
  | None => Raise TypeError
  end.

Definition py_round (k : nat) (a : pyval) : result pyval :=
  match as_num a with
  | Some x => Ok (of_num (num_round k x))
  | None => Raise TypeError
  end.

(** ** Dictionaries keyed by values

    [product_lookup] and [grouped] are dicts whose keys are values read from
    the documents.  Python finds a key by [hash] and [==]: [1], [1.0] and
    [True] are one key, a [list] or [dict] is unhashable, and a NaN equals
    nothing (each decoded NaN is an object of its own).  A key is compared
    through its normal form. *)

Inductive key : Type :=
| KNone
| KStr (s : string)
| KInt (z : Z)
| KFloat (s : bool) (m : positive) (e : Z)
| KInf (s : bool).

Definition key_eqb (a b : key) : bool :=
  match a, b with
  | KNone, KNone => true
  | KStr x, KStr y => String.eqb x y
  | KInt x, KInt y => x =? y
  | KFloat s m e, KFloat s' m' e' => Bool.eqb s s' && Pos.eqb m m' && (e =? e')
  | KInf s, KInf s' => Bool.eqb s s'
  | _, _ => false
  end.

(** A float with an integral value is the key of that integer. *)
Definition float_key (f : F64.t) : option key :=
  match f with
  | S754_nan => None
  | S754_zero _ => Some (KInt 0)
  | S754_infinity s => Some (KInf s)
  | S754_finite s m (Zneg p) =>
      if Zpos m mod 2 ^ Zpos p =? 0
      then Some (KInt (cond_Zopp s (Zpos m / 2 ^ Zpos p)))
      else Some (KFloat s m (Zneg p))
  | S754_finite s m e => Some (KInt (cond_Zopp s (Zpos m) * 2 ^ e))
  end.

Definition key_of (v : pyval) : option key :=
  match v with
  | VNone => Some KNone
  | VBool b => Some (KInt (Z.b2z b))
  | VInt z => Some (KInt z)
  | VFloat f => float_key f
  | VStr s => Some (KStr s)
  | VList _ | VDict _ => None
  end.

Definition hashable (v : pyval) : bool :=
  match v with
  | VList _ | VDict _ => false
  | _ => true
  end.

Definition same_key (a b : pyval) : bool :=
  match key_of a, key_of b with
  | Some x, Some y => key_eqb x y
  | _, _ => false
  end.

Section PyDict.
Context {V : Type}.

Definition pydict : Type := list (pyval * V).

Fixpoint lookup (d : pydict) (k : pyval) : option V :=
  match d with
  | [] => None
  | (k', v) :: d' => if same_key k' k then Some v else lookup d' k
  end.

(** [d[k] = v]: an existing key keeps its place (and its first spelling). *)
Fixpoint store (d : pydict) (k : pyval) (v : V) : pydict :=
  match d with
  | [] => [(k, v)]
  | (k', v') :: d' =>
      if same_key k' k then (k', v) :: d' else (k', v') :: store d' k v
  end.

(** [k in d]. *)
Definition contains (d : pydict) (k : pyval) : result bool :=
  if hashable k
  then Ok (match lookup d k with Some _ => true | None => false end)
  else Raise TypeError.

(** [d[k] = v] with the hashability check. *)
Definition setitem (d : pydict) (k : pyval) (v : V) : result pydict :=
  if hashable k then Ok (store d k v) else Raise TypeError.
End PyDict.

Arguments pydict V : clear implicits.

(** ** What the code takes from its libraries

    Four library behaviours are left open.  [float_of_str] is the builtin
    [float] on a [str] ([None] where it raises [ValueError]);
    [to_numeric_str] is how [pandas.to_numeric] reads a string cell ([None]
    where [errors="coerce"] yields NaN); [float_sum] is the float64
    reduction behind [Series.sum], whose order and grouping of the additions
    are the library's (the theorems on sums take it to be a summation of
    its terms, see [summation], and nothing more); [repr] is the text an
    f-string gives a value that is not a [str]. *)

Record pylib : Type := {
  float_of_str : string -> option F64.t;
  to_numeric_str : string -> option num;
  float_sum : list F64.t -> F64.t;
  repr : pyval -> string
}.

(** ** [build_product_lookup] *)

(** [p.get("id") or p.get("productId")] *)
Definition product_id (p : dict) : pyval :=
  py_or (get p "id") (get p "productId").

Definition product_info (p : dict) : dict :=
  [ ("Product", get p "name");
    ("SKU", get p "sku");
    ("Stock Real", get p "stock");
    ("Weight", get p "weight");
    ("Attributes", get p "attributes") ].

Definition build_product_lookup (products : list dict)
  : result (pydict dict) :=
  foldM (fun lookup p => setitem lookup (product_id p) (product_info p))
        products [].

(** ** [get_products_info_for_row]: one line item *)

Definition default_subcat : pyval :=
  VStr "Sin línea de productos".

(** The loop variables [ancho], [alto], [fondo] and [subcat]. *)
Record scan : Type := {
  ancho : option F64.t;
  alto : option F64.t;
  fondo : option F64.t;
  subcat : pyval
}.

Definition scan0 : scan :=
  {| ancho := None; alto := None; fondo := None; subcat := default_subcat |}.

Section Engine.
Variable lib : pylib.

(** [float(raw)] inside [try: ... except: continue]: [None] stands for any
    exception ([TypeError], [ValueError], [OverflowError]). *)
Definition try_float (raw : pyval) : option F64.t :=
  match raw with
  | VBool b => Some (F64.of_Z (Z.b2z b))
  | VInt z => match float_of_int z with Ok f => Some f | Raise _ => None end
  | VFloat f => Some f
  | VStr s => float_of_str lib s
  | VNone | VList _ | VDict _ => None
  end.

(** The body of [for a in attrs]. *)
Definition scan_attr (st : scan) (a : pyval) : result scan :=
  match a with
  | VDict a =>
      let name := get_default a "name" (VStr "") in
      let raw := get a "value" in
      let st :=
        if str_eq name "Product Line" || str_eq name "3. Product Line"
        then {| ancho := ancho st; alto := alto st; fondo := fondo st;
                subcat := raw |}
        else st in
      match try_float raw with
      | None => Ok st
      | Some val =>
          if str_eq name "Ancho [cm]" then
            Ok {| ancho := Some val; alto := alto st; fondo := fondo st;
                  subcat := subcat st |}
          else if str_eq name "Alto [cm]" then
            Ok {| ancho := ancho st; alto := Some val; fondo := fondo st;
                  subcat := subcat st |}
          else if str_eq name "Fondo [cm]" then
            Ok {| ancho := ancho st; alto := alto st; fondo := Some val;
                  subcat := subcat st |}
          else Ok st
      end
  | _ => Raise AttributeError
  end.

(** [for a in attrs], where [attrs] is a truthy value or [[]].  A
    non-empty [str] or [dict] yields [str] elements, and the first
    [a.get] raises; a number is not iterable. *)
Definition scan_attrs (attrs : pyval) : result scan :=
  match attrs with
  | VList l => foldM scan_attr l scan0
  | VStr _ | VDict _ => Raise AttributeError
  | VNone | VBool _ | VInt _ | VFloat _ => Raise TypeError
  end.

(** [volume] *)
Definition volume_of (st : scan) : pyval :=
  match ancho st, alto st, fondo st with
  | Some w, Some h, Some d =>
      VFloat (F64.py_round 5
                (F64.div (F64.mul (F64.mul w h) d) (F64.of_Z 1000000)))
  | _, _, _ => VNone
  end.

(** [insuf], [falta], [extra] *)
Definition shortage (sku stock units : pyval)
  : result (pyval * pyval * pyval) :=
  if negb (truthy sku) || negb (isinstance_number stock) then
    Ok (VStr "", VInt 0, VInt 0)
  else
    ge <- py_ge stock units ;;
    if ge then
      extra <- py_sub stock units ;;
      Ok (VStr "", VInt 0, extra)
    else
      d <- py_sub stock units ;;
      falta <- py_abs d ;;
      Ok (VStr "STOCK INSUFICIENTE", falta, VInt 0).

(** [round(net_w * units, 3) if net_w and units else None] *)
Definition total_weight (net_w units : pyval) : result pyval :=
  if truthy net_w && truthy units then
    p <- py_mul net_w units ;;
    py_round 3 p
  else Ok VNone.

(** [item.get("productId") if item.get("productId") is not None
    else item.get("id")] *)
Definition item_id (item : dict) : pyval :=
  match get item "productId" with
  | VNone => get item "id"
  | v => v
  end.

(** [pid is not None and pid in product_lookup], with the entry found. *)
Definition find_product (product_lookup : pydict dict) (pid : pyval)
  : result (option dict) :=
  match pid with
  | VNone => Ok None
  | _ => b <- contains product_lookup pid ;;
         Ok (if b then lookup product_lookup pid else None)
  end.

(** The fields a branch leaves for the rest of the loop body. *)
Record fields : Type := {
  product_name : pyval;
  f_sku : pyval;
  f_stock : pyval;
  net_w : pyval;
  f_scan : scan
}.

Definition branch_a (info : dict) : result fields :=
  let attrs := py_or (get info "Attributes") (VList []) in
  st <- scan_attrs attrs ;;
  Ok {| product_name := get info "Product";
        f_sku := get info "SKU";
        f_stock := get_default info "Stock Real" (VInt 0);
        net_w := get_default info "Weight" (VInt 0);
        f_scan := st |}.

Definition branch_b (item : dict) : fields :=
  {| product_name := py_or (get item "name") (VStr "");
     f_sku := py_or (get item "sku") (VStr "");
     f_stock := VStr "";
     net_w := py_or (get item "weight") (VFloat (S754_zero false));
     f_scan := scan0 |}.

(** One turn of [for item in items]: the group label and the [data] dict. *)
Definition resolve_item (product_lookup : pydict dict) (item : pyval)
  : result (pyval * dict) :=
  match item with
  | VDict item =>
      let pid := item_id item in
      let units := get_default item "units" (VInt 0) in
      found <- find_product product_lookup pid ;;
      fl <- match found with
            | Some info => branch_a info
            | None => Ok (branch_b item)
            end ;;
      let volume := volume_of (f_scan fl) in
      '(insuf, falta, extra) <- shortage (f_sku fl) (f_stock fl) units ;;
      tw <- total_weight (net_w fl) units ;;
      Ok (subcat (f_scan fl),
          [ ("Product", product_name fl);
            ("SKU", f_sku fl);
            ("Units", units);
            ("Gross Weight (kg)", net_w fl);
            ("Total Weight (kg)", tw);
            ("Volume (m³)", volume);
            ("Stock Real", f_stock fl);
            ("Insuficiente?", insuf);
            ("Falta", falta);
            ("Extra", extra) ])
  | _ => Raise AttributeError
  end.

(** ** Grouping and sorting *)

(** [grouped.setdefault(subcat, []).append(data)] *)
Definition group_add (grouped : pydict (list dict)) (label : pyval)
  (data : dict) : result (pydict (list dict)) :=
  if hashable label then
    Ok (store grouped label
          (match lookup grouped label with
           | Some prods => prods ++ [data]
           | None => [data]
           end))
  else Raise TypeError.

(** [x.get("SKU") or ""] *)
Definition sort_key (x : dict) : pyval := py_or (get x "SKU") (VStr "").

(** [a == b] between two values: numbers by value ([1 == 1.0 == True],
    and a NaN equals nothing), [str] and [None] as they are, lists element
    by element, objects key by key (the keys of a decoded object are
    distinct); values of different kinds are unequal.  Where Python meets
    one object twice it takes it to equal itself without asking; that
    differs from [==] only for a NaN, and is not followed here. *)
Fixpoint py_eq (a b : pyval) : bool :=
  match a, b with
  | VNone, VNone => true
  | VStr x, VStr y => String.eqb x y
  | VList x, VList y =>
      (fix eq_list (x y : list pyval) : bool :=
         match x, y with
         | [], [] => true
         | a :: x', b :: y' => py_eq a b && eq_list x' y'
         | _, _ => false
         end) x y
  | VDict x, VDict y =>
      (Nat.eqb (List.length x) (List.length y)) &&
      (fix sub_dict (x : list (string * pyval)) : bool :=
         match x with
         | [] => true
         | (k, v) :: x' =>
             match get_opt y k with
             | Some w => py_eq v w
             | None => false
             end && sub_dict x'
         end) x
  | _, _ =>
      match as_num a, as_num b with
      | Some x, Some y =>
          match num_compare x y with
          | Some Eq => true
          | _ => false
          end
      | _, _ => false
      end
  end.

(** [a < b] between two sort keys: strings by code point, numbers by
    value, lists by their first unequal elements (or by length when one
    is the beginning of the other); [TypeError] between values that have
    no order, as a string and a number. *)
Fixpoint key_lt (a b : pyval) : result bool :=
  match a, b with
  | VStr x, VStr y => Ok (String.ltb x y)
  | VList x, VList y =>
      (fix lt_list (x y : list pyval) : result bool :=
         match x, y with
         | [], [] => Ok false
         | [], _ :: _ => Ok true
         | _ :: _, [] => Ok false
         | a :: x', b :: y' =>
             if py_eq a b then lt_list x' y' else key_lt a b
         end) x y
  | _, _ => py_lt a b
  end.

(** [sorted(prods, key=...)]: stable, and built from [<] alone.  The
    result is the one of every stable sort when [<] orders the keys; with
    keys it does not order (a NaN among numbers) the order Python leaves is
    that of its own algorithm, which is not followed here. *)
Fixpoint insert_sorted (x : dict) (l : list dict) : result (list dict) :=
  match l with
  | [] => Ok [x]
  | y :: l' =>
      b <- key_lt (sort_key x) (sort_key y) ;;
      if b then Ok (x :: l)
      else r <- insert_sorted x l' ;; Ok (y :: r)
  end.

Definition sorted (l : list dict) : result (list dict) :=
  foldM (fun acc x => insert_sorted x acc) l [].

(** ** Subtotals: [pd.to_numeric(..., errors="coerce")],
    [.sum(min_count=1)], [or 0], [round] *)

(** A column after [to_numeric]: int64 when every cell is an integer that
    fits; uint64 when every cell is an integer from 0 to [2^64 - 1] and
    one of them is beyond int64; float64 (NaN as [None]) otherwise.  An
    integer beyond the binary64 range makes the conversion raise
    [OverflowError] (as it makes [pd.DataFrame(prods)] before it); this is
    not followed here, where such a cell becomes an infinity, and the
    theorems on sums leave such tables out (see [float_range]). *)
Inductive column : Type :=
| IntCol (zs : list Z)
| UIntCol (zs : list Z)
| FloatCol (xs : list (option F64.t)).

Definition cell_num (v : pyval) : option num :=
  match v with
  | VBool b => Some (NInt (Z.b2z b))
  | VInt z => Some (NInt z)
  | VFloat f => if F64.is_nan f then None else Some (NFloat f)
  | VStr s => to_numeric_str lib s
  | VNone | VList _ | VDict _ => None
  end.

Definition in_int64 (z : Z) : bool := (- 2 ^ 63 <=? z) && (z <? 2 ^ 63).

Fixpoint all_int64 (ns : list (option num)) : option (list Z) :=
  match ns with
  | [] => Some []
  | Some (NInt z) :: ns' =>
      if in_int64 z
      then option_map (cons z) (all_int64 ns')
      else None
  | _ => None
  end.

Definition in_uint64 (z : Z) : bool := (0 <=? z) && (z <? 2 ^ 64).

Fixpoint all_uint64 (ns : list (option num)) : option (list Z) :=
  match ns with
  | [] => Some []
  | Some (NInt z) :: ns' =>
      if in_uint64 z
      then option_map (cons z) (all_uint64 ns')
      else None
  | _ => None
  end.

Definition float_cell (n : option num) : option F64.t :=
  match n with
  | Some (NInt z) => Some (F64.of_Z z)
  | Some (NFloat f) => Some f
  | None => None
  end.

Definition to_numeric (cells : list pyval) : column :=
  let ns := map cell_num cells in
  match all_int64 ns with
  | Some zs => IntCol zs
  | None =>
      match all_uint64 ns with
      | Some zs => UIntCol zs
      | None => FloatCol (map float_cell ns)
      end
  end.

(** int64 addition wraps, and so does uint64 addition. *)
Definition wrap64 (z : Z) : Z := (z + 2 ^ 63) mod 2 ^ 64 - 2 ^ 63.

Definition wrapu64 (z : Z) : Z := z mod 2 ^ 64.

Definition is_some {A : Type} (o : option A) : bool :=
  match o with Some _ => true | None => false end.

Definition fill0 (o : option F64.t) : F64.t :=
  match o with Some f => f | None => S754_zero false end.

(** [col.sum(min_count=1)]: NaN cells count as [0.0]; the result is NaN
    ([None]) when no cell holds a number. *)
Definition column_sum (c : column) : option num :=
  match c with
  | IntCol [] | UIntCol [] => None
  | IntCol zs => Some (NInt (wrap64 (fold_left Z.add zs 0)))
  | UIntCol zs => Some (NInt (wrapu64 (fold_left Z.add zs 0)))
  | FloatCol xs =>
      if existsb is_some xs
      then Some (NFloat (float_sum lib (map fill0 xs)))
      else None
  end.

Definition nan : pyval := VFloat S754_nan.

(** [round(col.sum(min_count=1) or 0, k)].  A NaN is truthy, so [or 0]
    leaves it, and it rounds to itself. *)
Definition subtotal (k : nat) (cells : list pyval) : pyval :=
  match column_sum (to_numeric cells) with
  | None => nan
  | Some (NInt z) => VInt z
  | Some (NFloat f) =>
      if F64.is_zero f then VInt 0 else VFloat (F64.np_round k f)
  end.

(** ** The output rows *)

Definition cols : list string :=
  [ "SKU"; "Product"; "Units"; "Subtotal > Units";
    "Gross Weight (kg)"; "Total Weight (kg)"; "Subtotal > Total Weight (kg)";
    "Volume (m³)"; "Subtotal > Volume (m³)";
    "Stock Real"; "Insuficiente?"; "Falta"; "Subtotal > Falta"; "Extra" ].

(** [{subcat}] inside an f-string. *)
Definition fmt (v : pyval) : string :=
  match v with
  | VStr s => s
  | _ => repr lib v
  end.

(** [{k: "" for k in [...]}] with ["Product"] set to the group label. *)
Definition header_row (label : pyval) : dict :=
  map (fun k =>
         (k, VStr (if String.eqb k "Product"
                   then "——— " ++ fmt label ++ " ———"
                   else "")))
      cols.

(** [tmp[c]] for [tmp = pd.DataFrame(prods)]. *)
Definition cells (c : string) (prods : list dict) : list pyval :=
  map (fun d => get d c) prods.

Definition subtotal_row (label : pyval) (prods : list dict) : dict :=
  [ ("SKU", VStr "");
    ("Product", VStr ("                         Subtotal " ++ fmt label));
    ("Units", VStr "");
    ("Subtotal > Units", subtotal 1 (cells "Units" prods));
    ("Gross Weight (kg)", VStr "");
    ("Total Weight (kg)", VStr "");
    ("Subtotal > Total Weight (kg)",
      subtotal 2 (cells "Total Weight (kg)" prods));
    ("Volume (m³)", VStr "");
    ("Subtotal > Volume (m³)", subtotal 5 (cells "Volume (m³)" prods));
    ("Stock Real", VStr "");
    ("Insuficiente?", VStr "");
    ("Falta", VStr "");
    ("Subtotal > Falta", subtotal 0 (cells "Falta" prods));
    ("Extra", VStr "") ].

(** What one turn of [for subcat, prods in grouped.items()] appends. *)
Definition group_block (g : pyval * list dict) : list dict :=
  header_row (fst g) :: snd g ++ [subtotal_row (fst g) (snd g)].

(** ** The table *)

Record frame : Type := {
  columns : list string;
  rows : list dict
}.

(** A row of [pd.DataFrame(output)[cols]]: a key the dict lacks is NaN. *)
Definition frame_row (d : dict) : dict :=
  map (fun c => (c, get_default d c nan)) cols.

Fixpoint contains_sub (pat s : string) : bool :=
  if String.prefix pat s then true
  else match s with
       | EmptyString => false
       | String _ s' => contains_sub pat s'
       end.

(** [df["Product"].str.contains("Subtotal", na=False)] *)
Definition is_subtotal_label (v : pyval) : bool :=
  match v with
  | VStr s => contains_sub "Subtotal" s
  | _ => false
  end.

Definition subtotal_cols : list string :=
  [ "Subtotal > Units"; "Subtotal > Total Weight (kg)";
    "Subtotal > Volume (m³)"; "Subtotal > Falta" ].

Definition isna (v : pyval) : bool :=
  match v with
  | VNone => true
  | VFloat f => F64.is_nan f
  | _ => false
  end.

(** [df.loc[mask, col] = df.loc[mask, col].fillna(0)] for the four
    subtotal columns. *)
Definition fill_row (r : dict) : dict :=
  if is_subtotal_label (get r "Product") then
    map (fun cv =>
           (fst cv,
            if existsb (String.eqb (fst cv)) subtotal_cols && isna (snd cv)
            then VInt 0
            else snd cv))
        r
  else r.

(** [items = df_docs.at[row_idx, "products"] or []] and the type check. *)
Definition line_items (products_cell : pyval) : result (list pyval) :=
  match py_or products_cell (VList []) with
  | VList items => Ok items
  | _ => Raise TypeError
  end.

Definition group_items (product_lookup : pydict dict) (items : list pyval)
  : result (pydict (list dict)) :=
  foldM (fun grouped item =>
           '(label, data) <- resolve_item product_lookup item ;;
           group_add grouped label data)
        items [].

Definition sort_groups (grouped : pydict (list dict))
  : result (pydict (list dict)) :=
  mapM (fun g => prods <- sorted (snd g) ;; Ok (fst g, prods)) grouped.

Definition get_products_info_for_row (products_cell : pyval)
  (product_lookup : pydict dict) : result frame :=
  items <- line_items products_cell ;;
  grouped <- group_items product_lookup items ;;
  grouped <- sort_groups grouped ;;
  let output := flat_map group_block grouped in
  match output with
  | [] => Ok {| columns := cols; rows := [] |}
  | _ => Ok {| columns := cols;
               rows := map (fun d => fill_row (frame_row d)) output |}
  end.

End Engine.

(** ** The pallet summary *)

(** [max(a, b)] of two numbers: the first unless the second is greater. *)
Definition py_max (a b : pyval) : result pyval :=
  gt <- py_lt a b ;;
  Ok (if gt then b else a).

(** [int(np.ceil(v))] *)
Definition int_ceil (v : pyval) : result Z :=
  match v with
  | VInt z => Ok z
  | VFloat f =>
      match F64.ceil f with
      | Some z => Ok z
      | None => Raise OverflowError
      end
  | _ => Raise TypeError
  end.

(** [total = col.sum(min_count=1) or 0], then
    [p = round(total / divisor, 3) if total else 0] and
    [p = 0 if pd.isna(p) else p]. *)
Definition pallets_by (divisor : F64.t) (col_sum : F64.t) : pyval :=
  let total := py_or (VFloat col_sum) (VInt 0) in
  let p :=
    if truthy total
    then VFloat (F64.np_round 3 (F64.div col_sum divisor))
    else VInt 0 in
  if isna p then VInt 0 else p.

Definition weight_per_pallet : F64.t := F64.of_Z 1300.
Definition volume_per_pallet : F64.t := F64.dec 1728 3.

Record pallet_estimate : Type := {
  pallets_by_weight : pyval;
  pallets_by_volume : pyval;
  pallets_needed : Z
}.

Definition pallet_summary (sum_weight sum_volume : F64.t)
  : result pallet_estimate :=
  let pw := pallets_by weight_per_pallet sum_weight in
  let pv := pallets_by volume_per_pallet sum_volume in
  m <- py_max pw pv ;;
  n <- int_ceil m ;;
  Ok {| pallets_by_weight := pw;
        pallets_by_volume := pv;
        pallets_needed := Z.max 1 n |}.

(** ** A reference library, for running the code on examples

    [plain_int] reads an unsigned decimal integer literal; on such strings
    (and on strings without any digit) the instance agrees with the real
    [float] and [to_numeric].  [left_sum] adds from the left, which no
    reduction order can differ from below three terms. *)

Fixpoint digits_val (s : string) (acc : Z) : option Z :=
  match s with
  | EmptyString => Some acc
  | String c s' =>
      let n := Z.of_N (N_of_ascii c) in
      if (48 <=? n) && (n <=? 57)
      then digits_val s' (10 * acc + (n - 48))
      else None
  end.

Definition plain_int (s : string) : option Z :=
  match s with
  | EmptyString => None
  | _ => digits_val s 0
  end.

Definition left_sum (xs : list F64.t) : F64.t :=
  match xs with
  | [] => S754_zero false
  | x :: xs' => fold_left F64.add xs' x
  end.

Definition ref_lib : pylib :=
  {| float_of_str := fun s => option_map F64.of_Z (plain_int s);
     to_numeric_str := fun s => option_map NInt (plain_int s);
     float_sum := left_sum;
     repr := fun _ => "None" |}.

(** ** [fetch_documents] and [fetch_all_products]

    Both functions run the same loop, one request per page, on the address
    they are given.  The remote service is a function of the address and of
    the page number; the loop has no bound of its own, so its embedding
    takes one: [fuel] requests at most. *)

(** How a step of the application ends badly: the request (or its status
    check, or the decoding of its body) raises; a column or a number is
    missing; or the code raises one of the exceptions of the engine. *)
Inductive failure : Type :=
| RequestFailed
| KeyError
| ValueError
| Raised (e : exn).

Inductive outcome (A : Type) : Type :=
| Done (a : A)
| Failed (f : failure).

Arguments Done {A} a.
Arguments Failed {A} f.

Definition PAGE_SIZE : Z := 100.

Definition PRODUCTS_URL : string :=
  "https://api.holded.com/api/invoicing/v1/products".

Definition ENDPOINTS : list (string * string) :=
  [ ("Presupuesto",
     "https://api.holded.com/api/invoicing/v1/documents/estimate");
    ("Proforma",
     "https://api.holded.com/api/invoicing/v1/documents/proform");
    ("Pedido",
     "https://api.holded.com/api/invoicing/v1/documents/salesorder") ].

(** What [requests.get(url, ..., params={"page": page, "limit": PAGE_SIZE})]
    followed by [raise_for_status()] and [json()] gives: the decoded body,
    or nothing when one of the three raises. *)
Definition server : Type := string -> Z -> option pyval.

(** [data.get("data", data) if isinstance(data, dict) else data] *)
Definition chunk_of (data : pyval) : pyval :=
  match data with
  | VDict d => get_default d "data" data
  | _ => data
  end.

(** A byte that continues a UTF-8 sequence. *)
Definition is_continuation (c : ascii) : bool :=
  let n := N_of_ascii c in ((128 <=? n) && (n <? 192))%N.

Definition continues (s : string) : bool :=
  match s with
  | String c _ => is_continuation c
  | EmptyString => false
  end.

(** The characters of a [str]. *)
Fixpoint chars (s : string) : list string :=
  match s with
  | EmptyString => []
  | String c s' =>
      match chars s' with
      | r :: rest =>
          if continues s' then String c r :: rest
          else String c EmptyString :: r :: rest
      | [] => [String c EmptyString]
      end
  end.

(** What [list.extend(chunk)] appends: the elements of a list, the keys of
    a dict, the characters of a [str]; nothing else is iterable. *)
Definition elements (chunk : pyval) : result (list pyval) :=
  match chunk with
  | VList l => Ok l
  | VDict d => Ok (map (fun kv => VStr (fst kv)) d)
  | VStr s => Ok (map VStr (chars s))
  | VNone | VBool _ | VInt _ | VFloat _ => Raise TypeError
  end.

(** The loop [while True], from page [page] on, with the records gathered
    so far; [None] when the loop is still running after [fuel] requests. *)
Fixpoint fetch_pages (get_page : Z -> option pyval) (fuel : nat) (page : Z)
  (all_docs : list pyval) : option (outcome (list pyval)) :=
  match fuel with
  | O => None
  | S fuel' =>
      match get_page page with
      | None => Some (Failed RequestFailed)
      | Some data =>
          let chunk := chunk_of data in
          if negb (truthy chunk) then Some (Done all_docs)
          else
            match elements chunk with
            | Raise e => Some (Failed (Raised e))
            | Ok els =>
                let all_docs := all_docs ++ els in
                if Z.of_nat (List.length els) <? PAGE_SIZE
                then Some (Done all_docs)
                else fetch_pages get_page fuel' (page + 1) all_docs
            end
      end
  end.

(** The records that [fetch_documents] wraps in a frame. *)
Definition fetch_documents (srv : server) (fuel : nat) (url : string)
  : option (outcome (list pyval)) :=
  fetch_pages (srv url) fuel 1 [].

Definition fetch_all_products (srv : server) (fuel : nat)
  : option (outcome (list pyval)) :=
  fetch_pages (srv PRODUCTS_URL) fuel 1 [].

(** ** [get_row_index_by_docnumber] and [find_document_in_all]

    The frame of the documents is the list of its records, a row per
    record; a column exists when some record has the key, and a record
    without the key has NaN in it.  Four behaviours of the libraries are
    left open.  [lower] is [str.lower].  [str_accessor] says whether pandas
    grants [.str] to a column in which no cell is a [str] (it does grant it
    to a column that holds one).  [frame_error] is the exception that ends
    the search when a fetched document is not an object: the one
    [pd.DataFrame] raises, or the one of the lookup of ["docNumber"] in the
    frame it builds.  [stored] is the cell the frame holds for a value that
    a record does have, given the values of its column (pandas may keep
    the value or convert it to the type it infers for the column). *)

Record doclib : Type := {
  lower : string -> string;
  str_accessor : list pyval -> bool;
  frame_error : list pyval -> failure;
  stored : list pyval -> pyval -> pyval
}.

(** The documents as records, when each of them is an object. *)
Fixpoint records (docs : list pyval) : option (list dict) :=
  match docs with
  | [] => Some []
  | VDict d :: docs' => option_map (cons d) (records docs')
  | _ => None
  end.

(** [c in df.columns] *)
Definition has_column (c : string) (df : list dict) : bool :=
  existsb (fun d => is_some (get_opt d c)) df.

Definition is_str (v : pyval) : bool :=
  match v with
  | VStr _ => true
  | _ => false
  end.

(** The position of the first element that satisfies [p], counted from
    [i]. *)
Fixpoint first_index {A : Type} (p : A -> bool) (l : list A) (i : Z)
  : option Z :=
  match l with
  | [] => None
  | x :: l' => if p x then Some i else first_index p l' (i + 1)
  end.

Section Documents.
Variable lib : doclib.

(** One cell of [df['docNumber'].str.lower() == lower_doc]. *)
Definition doc_matches (lower_doc : string) (v : pyval) : bool :=
  match v with
  | VStr s => String.eqb (lower lib s) lower_doc
  | _ => false
  end.

Definition get_row_index_by_docnumber (df : list dict) (doc_number : string)
  : outcome (option Z) :=
  let lower_doc := lower lib doc_number in
  if has_column "docNumber" df then
    let col := map (fun d => get_default d "docNumber" nan) df in
    if existsb is_str col || str_accessor lib col
    then Done (first_index (doc_matches lower_doc) col 0)
    else Failed (Raised AttributeError)
  else Failed KeyError.

(** [pd.DataFrame(all_docs)], as far as the search goes. *)
Definition data_frame (all_docs : list pyval) : outcome (list dict) :=
  match records all_docs with
  | Some df => Done df
  | None => Failed (frame_error lib all_docs)
  end.

(** [for doc_type, url in ENDPOINTS.items()]; [Done None] stands for
    [(None, None, None)]. *)
Fixpoint search (srv : server) (fuel : nat) (doc_number : string)
  (endpoints : list (string * string))
  : option (outcome (option (string * list dict * Z))) :=
  match endpoints with
  | [] => Some (Done None)
  | (doc_type, url) :: rest =>
      match fetch_documents srv fuel url with
      | None => None
      | Some (Failed f) => Some (Failed f)
      | Some (Done all_docs) =>
          match data_frame all_docs with
          | Failed f => Some (Failed f)
          | Done df =>
              match get_row_index_by_docnumber df doc_number with
              | Failed f => Some (Failed f)
              | Done (Some idx) => Some (Done (Some (doc_type, df, idx)))
              | Done None => search srv fuel doc_number rest
              end
          end
      end
  end.

Definition find_document_in_all (srv : server) (fuel : nat)
  (doc_number : string)
  : option (outcome (option (string * list dict * Z))) :=
  search srv fuel doc_number ENDPOINTS.

(** [row = df_docs.loc[row_idx]] and [df_docs.at[row_idx, "products"]],
    the first two lines of [get_products_info_for_row]. *)
Definition products_cell (row_idx : Z) (df_docs : list dict)
  : outcome pyval :=
  if row_idx <? 0 then Failed KeyError
  else
    match nth_error df_docs (Z.to_nat row_idx) with
    | None => Failed KeyError
    | Some d =>
        if has_column "products" df_docs then
          Done match get_opt d "products" with
               | Some v =>
                   stored lib (map (fun r => get_default r "products" nan)
                                   df_docs) v
               | None => nan
               end
        else Failed KeyError
    end.

End Documents.

(** [get_products_info_for_row(row_idx, df_docs, product_lookup)], from
    the frame of the documents. *)
Definition report_of_row (lib : pylib) (dl : doclib) (row_idx : Z)
  (df_docs : list dict) (product_lookup : pydict dict) : outcome frame :=
  match products_cell dl row_idx df_docs with
  | Failed f => Failed f
  | Done cell =>
      match get_products_info_for_row lib cell product_lookup with
      | Ok fr => Done fr
      | Raise e => Failed (Raised e)
      end
  end.

(** ** The TOTAL row and the summary of a report

    What the page does with a report that has rows: it makes ten columns
    numeric, appends the row of the grand totals, makes the columns numeric
    again, and computes the pallet summary from three column sums. *)

(** A column after [pd.to_numeric(..., errors="coerce")], as values. *)
Definition numeric (lib : pylib) (cs : list pyval) : list pyval :=
  match to_numeric lib cs with
  | IntCol zs | UIntCol zs => map VInt zs
  | FloatCol xs =>
      map (fun o => match o with Some f => VFloat f | None => nan end) xs
  end.

(** [df_res[c].sum(min_count=1)] once the column is numeric. *)
Definition column_total (lib : pylib) (c : string) (rows : list dict)
  : pyval :=
  match column_sum lib (to_numeric lib (cells c rows)) with
  | Some n => of_num n
  | None => nan
  end.

(** The dict [totals]; it has no ["Extra"]. *)
Definition totals (lib : pylib) (rows : list dict) : dict :=
  [ ("SKU", VStr "");
    ("Product", VStr "——— TOTAL ———");
    ("Units", VStr "");
    ("Subtotal > Units", column_total lib "Subtotal > Units" rows);
    ("Gross Weight (kg)", VStr "");
    ("Total Weight (kg)", VStr "");
    ("Subtotal > Total Weight (kg)",
      column_total lib "Subtotal > Total Weight (kg)" rows);
    ("Volume (m³)", VStr "");
    ("Subtotal > Volume (m³)", column_total lib "Subtotal > Volume (m³)" rows);
    ("Stock Real", VStr "");
    ("Insuficiente?", VStr "");
    ("Falta", VStr "");
    ("Subtotal > Falta", column_total lib "Subtotal > Falta" rows) ].

(** A numeric column of the table in the end: made numeric, extended by
    [pd.concat] with the cell of the TOTAL row, and made numeric again. *)
Definition final_column (lib : pylib) (c : string) (rows : list dict)
  : column :=
  to_numeric lib
    (numeric lib (cells c rows) ++ [get_default (totals lib rows) c nan]).

(** [df_res[c].sum(min_count=1) or 0] *)
Definition summary_total (lib : pylib) (c : string) (rows : list dict)
  : pyval :=
  match column_sum lib (final_column lib c rows) with
  | Some n => py_or (of_num n) (VInt 0)
  | None => nan
  end.

(** The same sum as the float64 that [pallets_by] divides (NaN when the
    column holds no number). *)
Definition summary_sum (lib : pylib) (c : string) (rows : list dict)
  : F64.t :=
  match column_sum lib (final_column lib c rows) with
  | Some (NInt z) => F64.of_Z z
  | Some (NFloat f) => f
  | None => S754_nan
  end.

(** [int(x)] of a float: towards zero. *)
Definition trunc (x : F64.t) : option Z :=
  match x with
  | S754_zero _ => Some 0
  | S754_finite s m e =>
      Some (cond_Zopp s match e with
                        | Zneg p => Zpos m / 2 ^ Zpos p
                        | _ => Zpos m * 2 ^ e
                        end)
  | _ => None
  end.

(** [int(v)] of a number. *)
Definition int_of (v : pyval) : outcome Z :=
  match v with
  | VBool b => Done (Z.b2z b)
  | VInt z => Done z
  | VFloat f =>
      match trunc f with
      | Some z => Done z
      | None => Failed (if F64.is_nan f then ValueError
                        else Raised OverflowError)
      end
  | _ => Failed (Raised TypeError)
  end.

Record summary : Type := {
  total_units : Z;
  total_weight_text : string;
  total_volume_text : string;
  pallets : pallet_estimate
}.

Section Summary.
Variable lib : pylib.

(** [f"{x:.2f}"] and [f"{x:.3f}"], by the number of decimals. *)
Variable fixed : nat -> pyval -> string.

(** The pallet summary of the report [rows] (the table as
    [get_products_info_for_row] returns it). *)
Definition pallet_summary_of (rows : list dict) : outcome summary :=
  let units := summary_total lib "Units" rows in
  let weight := summary_total lib "Total Weight (kg)" rows in
  let volume := summary_total lib "Volume (m³)" rows in
  match pallet_summary (summary_sum lib "Total Weight (kg)" rows)
                       (summary_sum lib "Volume (m³)" rows) with
  | Raise e => Failed (Raised e)
  | Ok est =>
      match int_of units with
      | Failed f => Failed f
      | Done n =>
          Done {| total_units := n;
                  total_weight_text := fixed 2 weight ++ " kg";
                  total_volume_text := fixed 3 volume ++ " m³";
                  pallets := est |}
      end
  end.

End Summary.

(** A reference for [str.lower], on ASCII letters. *)
Definition lower_ascii (c : ascii) : ascii :=
  let n := N_of_ascii c in
  if ((65 <=? n) && (n <=? 90))%N then ascii_of_N (n + 32) else c.

Fixpoint ascii_lower (s : string) : string :=
  match s with
  | EmptyString => EmptyString
  | String c s' => String (lower_ascii c) (ascii_lower s')
  end.

Definition ref_doclib : doclib :=
  {| lower := ascii_lower;
     str_accessor := fun _ => false;
     frame_error := fun _ => KeyError;
     stored := fun _ v => v |}.

(** * Statements and examples

    The predicates the theorems are stated with, and the records, catalogs
    and line items they are tried on. *)

(** ** Predicates on values *)

(** [isinstance(v, list)] *)
Definition is_list (v : pyval) : bool :=
  match v with
  | VList _ => true
  | _ => false
  end.

(** A float is a genuine binary64: canonical mantissa and exponent, as every
    float the interpreter holds is. *)
Definition valid_value (v : pyval) : bool :=
  match v with
  | VFloat f => F64.valid f
  | _ => true
  end.

Definition valid_num (n : num) : Prop :=
  match n with
  | NInt _ => True
  | NFloat f => F64.valid f = true
  end.

Definition is_nan_value (v : pyval) : bool :=
  match v with
  | VFloat f => F64.is_nan f
  | _ => false
  end.

Definition finite_value (v : pyval) : bool :=
  match v with
  | VInt _ => true
  | VFloat f => F64.is_finite f
  | _ => false
  end.

(** ** The order of binary64 values

    [aligned s m e ez] is the signed mantissa of [m * 2^e] at the smaller
    exponent [ez], as subtraction aligns its operands.  [below x y] says
    that [x] is not above [y], and that they are not two zeros: it is what
    [x < y] gives on values. *)

Definition aligned (s : bool) (m : positive) (e ez : Z) : Z :=
  cond_Zopp s (Zpos (fst (shl_align m e ez))).

Definition below (x y : F64.t) : Prop :=
  match x, y with
  | S754_nan, _ | _, S754_nan => True
  | S754_infinity sx, S754_infinity sy => sx = true \/ sy = false
  | S754_infinity sx, _ => sx = true
  | _, S754_infinity sy => sy = false
  | S754_zero _, S754_zero _ => False
  | S754_zero _, S754_finite sy _ _ => sy = false
  | S754_finite sx _ _, S754_zero _ => sx = true
  | S754_finite sx mx ex, S754_finite sy my ey =>
      aligned sx mx ex (Z.min ex ey) <= aligned sy my ey (Z.min ex ey)
  end.

(** ** Rounding to decimals

    What "rounded to [k] decimals" means, said on the values and without
    the functions of the embedding: the theorems compare the two. *)

(** [n] is the integer nearest to the fraction [p / q] ([0 < q]); of two
    integers equally near, the even one. *)
Definition nearest_even (p q n : Z) : Prop :=
  Z.abs (2 * p - 2 * n * q) <= q /\
  (Z.abs (2 * p - 2 * n * q) = q -> Z.even n = true).

(** [r] is [x] rounded to [k] decimals: the binary64 nearest to
    [n / 10^k], with the sign of [x], where [n] is the integer nearest to
    [|x| * 10^k] (the value [m * 2^e * 10^k], taken exactly), ties to even.
    A zero, an infinity and a NaN are left as they are. *)
Definition rounded_to (k : nat) (x r : F64.t) : Prop :=
  match x with
  | S754_finite s m e =>
      exists n,
        nearest_even (Zpos m * 10 ^ Z.of_nat k * 2 ^ Z.max e 0)
                     (2 ^ Z.max (- e) 0) n /\
        r = match n with
            | Zpos j =>
                F64.div (S754_finite s j 0) (F64.of_Z (10 ^ Z.of_nat k))
            | _ => S754_zero s
            end
  | _ => r = x
  end.

(** [y] is the integral binary64 nearest to [x], ties to even. *)
Definition nearest_integral (x y : F64.t) : Prop :=
  match x with
  | S754_finite s m (Zneg p) =>
      exists n,
        nearest_even (Zpos m) (2 ^ Zpos p) n /\
        y = match n with
            | Zpos j => F64.of_Z (cond_Zopp s (Zpos j))
            | _ => S754_zero s
            end
  | _ => y = x
  end.

(** [r] is [x] scaled to [k] decimals: [x] times [10^k] in binary64, the
    nearest integral binary64 of that product, and its quotient by [10^k]
    in binary64.  The product is rounded before the integer is taken, so
    [r] need not be [x] rounded to [k] decimals. *)
Definition scaled_rounding (k : nat) (x r : F64.t) : Prop :=
  match k with
  | O => nearest_integral x r
  | _ =>
      exists y,
        nearest_integral (F64.mul x (F64.of_Z (10 ^ Z.of_nat k))) y /\
        r = F64.div y (F64.of_Z (10 ^ Z.of_nat k))
  end.

(** ** The order of numbers by value

    A number is [-inf], [+inf] or a finite [n * 2^e]; two finite numbers
    are compared at the smaller of their exponents, exactly. *)

Inductive extent : Type :=
| Lowest
| Dyadic (n e : Z)
| Highest.

Definition extent_of (v : pyval) : option extent :=
  match v with
  | VBool b => Some (Dyadic (Z.b2z b) 0)
  | VInt z => Some (Dyadic z 0)
  | VFloat (S754_zero _) => Some (Dyadic 0 0)
  | VFloat (S754_finite s m e) => Some (Dyadic (cond_Zopp s (Zpos m)) e)
  | VFloat (S754_infinity s) => Some (if s then Lowest else Highest)
  | _ => None
  end.

(** [a <= b], for two numbers neither of which is a NaN. *)
Definition value_le (a b : pyval) : Prop :=
  match extent_of a, extent_of b with
  | Some Lowest, Some _ => True
  | Some _, Some Highest => True
  | Some (Dyadic n e), Some (Dyadic n' e') =>
      n * 2 ^ (e - Z.min e e') <= n' * 2 ^ (e' - Z.min e e')
  | _, _ => False
  end.

(** [n] is the least integer not below the finite number [v]. *)
Definition ceiling_of (n : Z) (v : pyval) : Prop :=
  value_le v (VInt n) /\ ~ value_le v (VInt (n - 1)).

(** [m] is the greater of [a] and [b]. *)
Definition greater_of (a b m : pyval) : Prop :=
  (m = a \/ m = b) /\ value_le a m /\ value_le b m.

(** The quotient the summary shows for the column sum [total] and the
    capacity of a pallet: 0 when the sum is zero or NaN, and otherwise the
    binary64 quotient scaled to 3 decimals. *)
Definition shown_quotient (capacity total : F64.t) (p : pyval) : Prop :=
  if F64.is_zero total || F64.is_nan total then p = VInt 0
  else exists r, scaled_rounding 3 (F64.div total capacity) r /\ p = VFloat r.

(** ** Products of numbers *)

(** The binary64 that a number stands for as an operand of a binary64
    operation; an [int] out of range has none. *)
Definition float_value (n : num) (f : F64.t) : Prop :=
  match n with
  | NInt z => f = F64.of_Z z /\ F64.is_inf f = false
  | NFloat x => f = x
  end.

(** [p] is the product of the numbers [a] and [b]: the exact product of
    two [int]s (a [bool] counting as 0 or 1), and the binary64 product
    otherwise. *)
Definition product_of (a b p : pyval) : Prop :=
  match as_num a, as_num b with
  | Some (NInt x), Some (NInt y) => p = VInt (x * y)
  | Some x, Some y =>
      exists fx fy,
        float_value x fx /\ float_value y fy /\ p = VFloat (F64.mul fx fy)
  | _, _ => False
  end.

(** [r] is the number [p] rounded to [k] decimals; an [int] is left as it
    is. *)
Definition rounded_value (k : nat) (p r : pyval) : Prop :=
  match p with
  | VInt z => r = VInt z
  | VFloat x => exists y, rounded_to k x y /\ r = VFloat y
  | _ => False
  end.

(** ** The catalog index *)

(** [build_product_lookup] started from an index already built. *)
Definition build_from (acc : pydict dict) (products : list dict)
  : result (pydict dict) :=
  foldM (fun lookup p => setitem lookup (product_id p) (product_info p))
        products acc.




(** ** One resolved line *)

Definition item_units (item : dict) : pyval :=
  get_default item "units" (VInt 0).

(** The [data] dict, from the values the loop body has at hand. *)
Definition line_data
  (fl : fields) (units insuf falta extra tw : pyval) : dict :=
  [ ("Product", product_name fl);
    ("SKU", f_sku fl);
    ("Units", units);
    ("Gross Weight (kg)", net_w fl);
    ("Total Weight (kg)", tw);
    ("Volume (m³)", volume_of (f_scan fl));
    ("Stock Real", f_stock fl);
    ("Insuficiente?", insuf);
    ("Falta", falta);
    ("Extra", extra) ].

Definition attr_name (a : dict) : pyval := get_default a "name" (VStr "").

(** The attribute list offers the dimension [nm]: some attribute of that
    name has a value that [float] accepts. *)
Definition has_dim (lib : pylib) (nm : string) (attrs : list pyval) : Prop :=
  exists a v,
    In (VDict a) attrs /\
    str_eq (attr_name a) nm = true /\
    try_float lib (get a "value") = Some v.

(** The value the scan keeps for [nm]: that of the last such attribute. *)
Definition keep_dim (lib : pylib) (nm : string)
  (acc : option F64.t) (a : pyval) : option F64.t :=
  match a with
  | VDict a =>
      if str_eq (attr_name a) nm
      then match try_float lib (get a "value") with
           | Some v => Some v
           | None => acc
           end
      else acc
  | _ => acc
  end.

Definition last_dim (lib : pylib) (nm : string) (attrs : list pyval)
  : option F64.t :=
  fold_left (keep_dim lib nm) attrs None.

(** ** The table *)

(** The report without a row. *)
Definition empty_frame : frame :=
  {| columns :=
       [ "SKU"; "Product"; "Units"; "Subtotal > Units";
         "Gross Weight (kg)"; "Total Weight (kg)";
         "Subtotal > Total Weight (kg)";
         "Volume (m³)"; "Subtotal > Volume (m³)";
         "Stock Real"; "Insuficiente?"; "Falta"; "Subtotal > Falta";
         "Extra" ];
     rows := [] |}.

(** A row as the table shows it. *)
Definition final_row (d : dict) : dict := fill_row (frame_row d).

(** [fillna(0)] on one cell. *)
Definition filled (v : pyval) : pyval := if isna v then VInt 0 else v.

(** The lines gathered in the groups, whatever their group. *)
Definition members (grouped : pydict (list dict)) (d : dict) : Prop :=
  exists label prods, In (label, prods) grouped /\ In d prods.

Definition Zsum (zs : list Z) : Z := fold_left Z.add zs 0.

(** [s] is a float64 sum of the terms [xs]: what adding them all gives, two
    at a time, in some order and in some grouping, zeros added or not.  The
    reduction behind [Series.sum] fixes neither the order nor the
    grouping. *)
Inductive summation : list F64.t -> F64.t -> Prop :=
| sum_nil (s : bool) : summation [] (S754_zero s)
| sum_one (x : F64.t) : summation [x] x
| sum_add (xs ys : list F64.t) (a b : F64.t) :
    summation xs a -> summation ys b ->
    summation (xs ++ ys) (F64.add a b)
| sum_perm (xs ys : list F64.t) (a : F64.t) :
    Permutation xs ys -> summation xs a -> summation ys a.

(** What the theorems on sums take from the library: its float64 reduction
    is a summation of its terms. *)
Definition sums (lib : pylib) : Prop :=
  forall xs, summation xs (float_sum lib xs).

(** No [int] of the table is beyond the binary64 range (there
    [pd.DataFrame] and [pd.to_numeric] raise [OverflowError]). *)
Definition in_float_range (v : pyval) : bool :=
  match v with
  | VInt z => negb (F64.is_inf (F64.of_Z z))
  | _ => true
  end.

Definition float_range (rows : list dict) : bool :=
  forallb (fun r => forallb (fun cv => in_float_range (snd cv)) r) rows.

(** The cells [cs] are the integers [zs]: each is an [int], a [bool] (0 or
    1) or a text that reads as an integer. *)
Definition whole (lib : pylib) (cs : list pyval) (zs : list Z) : Prop :=
  Forall2 (fun c z => cell_num lib c = Some (NInt z)) cs zs.

Definition all_in (range : Z -> bool) (zs : list Z) : Prop :=
  Forall (fun z => range z = true) zs.

(** What a cell counts for in the float64 sum of its column: its number,
    or [0.0] when it holds none. *)
Definition term (lib : pylib) (v : pyval) : F64.t :=
  fill0 (float_cell (cell_num lib v)).

(** The rule a subtotal cell [v] obeys over the cells [cs] it sums, with [k]
    decimals kept.  It is never null.  It is 0 when no cell holds a number.
    When every cell is an integer of int64, it is their sum modulo [2^64]
    in int64, which is their sum when that fits; when every cell is an
    integer of uint64 and one is beyond int64, the same holds in uint64.
    Otherwise it is a float64 sum of the cells, in which a cell without a
    number stands for [0.0], scaled to [k] decimals; and 0 when that sum
    is zero or scales to no number. *)
Definition null_safe_sum (lib : pylib) (k : nat) (cs : list pyval) (v : pyval)
  : Prop :=
  isna v = false /\
  isinstance_number v = true /\
  (Forall (fun c => cell_num lib c = None) cs -> v = VInt 0) /\
  (forall zs,
     whole lib cs zs -> zs <> [] -> all_in in_int64 zs ->
     v = VInt (wrap64 (Zsum zs)) /\
     (in_int64 (Zsum zs) = true -> v = VInt (Zsum zs))) /\
  (forall zs,
     whole lib cs zs -> all_in in_uint64 zs -> ~ all_in in_int64 zs ->
     v = VInt (Zsum zs mod 2 ^ 64) /\
     (in_uint64 (Zsum zs) = true -> v = VInt (Zsum zs))) /\
  ((forall zs, whole lib cs zs ->
               ~ all_in in_int64 zs /\ ~ all_in in_uint64 zs) ->
   Exists (fun c => cell_num lib c <> None) cs ->
   exists s r,
     summation (map (term lib) cs) s /\
     scaled_rounding k s r /\
     v = if F64.is_zero s || F64.is_nan r then VInt 0 else VFloat r).

(** The columns a subtotal row leaves blank. *)
Definition blank_cols : list string :=
  [ "SKU"; "Units"; "Gross Weight (kg)"; "Total Weight (kg)";
    "Volume (m³)"; "Stock Real"; "Insuficiente?"; "Falta"; "Extra" ].

(** ** Example data *)

(** Three product records, two of them with the same identifier, and one
    that has none. *)
Definition rec_old : dict := [("id", VStr "a"); ("name", VStr "old")].
Definition rec_new : dict := [("id", VStr "a"); ("name", VStr "new")].
Definition rec_other : dict := [("id", VStr "b"); ("name", VStr "other")].

(** An index with one product: 3 in stock, 0.125 kg. *)
Definition catalog_a : pydict dict :=
  [ (VStr "a",
     [ ("Product", VStr "Box"); ("SKU", VStr "B-1"); ("Stock Real", VInt 3);
       ("Weight", VFloat (F64.dec 125 3)); ("Attributes", VNone) ]) ].

(** The same product with a stock that is NaN. *)
Definition catalog_nan : pydict dict :=
  [ (VStr "a",
     [ ("Product", VStr "Box"); ("SKU", VStr "B-1");
       ("Stock Real", VFloat S754_nan);
       ("Weight", VNone); ("Attributes", VNone) ]) ].

(** Lines that order 5, 1 and 0 units of it. *)
Definition line_a5 : pyval :=
  VDict [("productId", VStr "a"); ("units", VInt 5)].

Definition line_a1 : pyval :=
  VDict [("productId", VStr "a"); ("units", VInt 1)].

Definition line_a0 : pyval :=
  VDict [("productId", VStr "a"); ("units", VInt 0)].

Definition line_a5_data : dict :=
  [ ("Product", VStr "Box"); ("SKU", VStr "B-1"); ("Units", VInt 5);
    ("Gross Weight (kg)", VFloat (F64.dec 125 3));
    ("Total Weight (kg)", VFloat (F64.dec 625 3));
    ("Volume (m³)", VNone);
    ("Stock Real", VInt 3); ("Insuficiente?", VStr "STOCK INSUFICIENTE");
    ("Falta", VInt 2); ("Extra", VInt 0) ].


(** A product of 40 x 30 x 25 cm, its dimensions given as a string, an
    [int] and a [float], next to an attribute that is no number. *)
Definition dims_attrs : list pyval :=
  [ VDict [("name", VStr "Ancho [cm]"); ("value", VStr "40")];
    VDict [("name", VStr "Color"); ("value", VStr "rojo")];
    VDict [("name", VStr "Alto [cm]"); ("value", VInt 30)];
    VDict [("name", VStr "Fondo [cm]"); ("value", VFloat (F64.of_Z 25))] ].

Definition dims_info : dict :=
  [ ("Product", VStr "Box"); ("SKU", VStr "B-1"); ("Stock Real", VInt 3);
    ("Weight", VFloat (F64.dec 125 3)); ("Attributes", VList dims_attrs) ].

Definition dims_data : dict :=
  [ ("Product", VStr "Box"); ("SKU", VStr "B-1"); ("Units", VInt 5);
    ("Gross Weight (kg)", VFloat (F64.dec 125 3));
    ("Total Weight (kg)", VFloat (F64.dec 625 3));
    ("Volume (m³)", VFloat (F64.dec 3 2));
    ("Stock Real", VInt 3); ("Insuficiente?", VStr "STOCK INSUFICIENTE");
    ("Falta", VInt 2); ("Extra", VInt 0) ].

(** A line of a quarter of a unit. *)
Definition tape : pyval :=
  VDict [("name", VStr "Tape"); ("sku", VStr "T-1");
         ("units", VFloat (F64.dec 25 2))].

(** A line of half a unit; with [tape], a group whose units sum to 0.75. *)
Definition cord : pyval :=
  VDict [("name", VStr "Cord"); ("sku", VStr "C-1");
         ("units", VFloat (F64.dec 5 1))].

Definition tape_data : dict :=
  [ ("Product", VStr "Tape"); ("SKU", VStr "T-1");
    ("Units", VFloat (F64.dec 25 2));
    ("Gross Weight (kg)", VFloat (S754_zero false));
    ("Total Weight (kg)", VNone); ("Volume (m³)", VNone);
    ("Stock Real", VStr ""); ("Insuficiente?", VStr "");
    ("Falta", VInt 0); ("Extra", VInt 0) ].

Definition cord_data : dict :=
  [ ("Product", VStr "Cord"); ("SKU", VStr "C-1");
    ("Units", VFloat (F64.dec 5 1));
    ("Gross Weight (kg)", VFloat (S754_zero false));
    ("Total Weight (kg)", VNone); ("Volume (m³)", VNone);
    ("Stock Real", VStr ""); ("Insuficiente?", VStr "");
    ("Falta", VInt 0); ("Extra", VInt 0) ].

(** A line of [2^63] units, one more than int64 holds. *)
Definition bulk : pyval :=
  VDict [("name", VStr "Bulk"); ("sku", VStr "K-1");
         ("units", VInt (2 ^ 63))].

Definition bulk_data : dict :=
  [ ("Product", VStr "Bulk"); ("SKU", VStr "K-1"); ("Units", VInt (2 ^ 63));
    ("Gross Weight (kg)", VFloat (S754_zero false));
    ("Total Weight (kg)", VNone); ("Volume (m³)", VNone);
    ("Stock Real", VStr ""); ("Insuficiente?", VStr "");
    ("Falta", VInt 0); ("Extra", VInt 0) ].

(** Two lines of one group with a weight: 1.5 kg, and 3 times 0.25 kg. *)
Definition two_weights : pyval :=
  VList
    [ VDict [("name", VStr "Rope"); ("sku", VStr "R-1");
             ("weight", VFloat (F64.dec 15 1)); ("units", VInt 1)];
      VDict [("name", VStr "Hook"); ("sku", VStr "H-1");
             ("weight", VFloat (F64.dec 25 2)); ("units", VInt 3)] ].

(** Two lines of one group, and their rows once sorted by SKU. *)
Definition two_lines : pyval :=
  VList
    [ VDict [("name", VStr "Bolt"); ("sku", VStr "B-2"); ("units", VInt 3)];
      VDict [("name", VStr "Anchor"); ("sku", VStr "A-1");
             ("units", VInt 2)] ].

Definition two_lines_sorted : list dict :=
  [ [ ("Product", VStr "Anchor"); ("SKU", VStr "A-1"); ("Units", VInt 2);
      ("Gross Weight (kg)", VFloat (S754_zero false));
      ("Total Weight (kg)", VNone); ("Volume (m³)", VNone);
      ("Stock Real", VStr ""); ("Insuficiente?", VStr "");
      ("Falta", VInt 0); ("Extra", VInt 0) ];
    [ ("Product", VStr "Bolt"); ("SKU", VStr "B-2"); ("Units", VInt 3);
      ("Gross Weight (kg)", VFloat (S754_zero false));
      ("Total Weight (kg)", VNone); ("Volume (m³)", VNone);
      ("Stock Real", VStr ""); ("Insuficiente?", VStr "");
      ("Falta", VInt 0); ("Extra", VInt 0) ] ].


(** A line of 3 units at 1.2345 kg, which is not in any catalog. *)
Definition wire : pyval :=
  VDict [("name", VStr "Wire"); ("sku", VStr "W-1");
         ("weight", VFloat (F64.dec 12345 4)); ("units", VInt 3)].

(** A product of 7 x 7 x 7 cm, and the line that orders one. *)
Definition cube_attrs : list pyval :=
  [ VDict [("name", VStr "Ancho [cm]"); ("value", VInt 7)];
    VDict [("name", VStr "Alto [cm]"); ("value", VInt 7)];
    VDict [("name", VStr "Fondo [cm]"); ("value", VInt 7)] ].

Definition cube_info : dict :=
  [ ("Product", VStr "Cube"); ("SKU", VStr "C-7"); ("Stock Real", VInt 1);
    ("Weight", VInt 1); ("Attributes", VList cube_attrs) ].

Definition cube_data : dict :=
  [ ("Product", VStr "Cube"); ("SKU", VStr "C-7"); ("Units", VInt 1);
    ("Gross Weight (kg)", VInt 1); ("Total Weight (kg)", VInt 1);
    ("Volume (m³)", VFloat (F64.dec 34 5));
    ("Stock Real", VInt 1); ("Insuficiente?", VStr "");
    ("Falta", VInt 0); ("Extra", VInt 0) ].

(** ** The product line of an attribute list *)

Definition is_product_line (a : pyval) : bool :=
  match a with
  | VDict a =>
      str_eq (attr_name a) "Product Line"
      || str_eq (attr_name a) "3. Product Line"
  | _ => false
  end.

(** The value of the last attribute named so, or the sentinel. *)
Definition product_line (attrs : list pyval) : pyval :=
  match find is_product_line (rev attrs) with
  | Some (VDict a) => get a "value"
  | _ => default_subcat
  end.

(** ** Groups *)

(** The labels in the order of their first occurrence. *)
Fixpoint first_seen (labels : list pyval) : list pyval :=
  match labels with
  | [] => []
  | l :: ls => l :: filter (fun k => negb (same_key l k)) (first_seen ls)
  end.

(** The lines that carry the label [k], in their order. *)
Definition lines_of (k : pyval) (lines : list (pyval * dict)) : list dict :=
  map snd (filter (fun ld => same_key k (fst ld)) lines).

(** [grouped.setdefault(subcat, []).append(data)] over resolved lines. *)
Definition group_lines (lines : list (pyval * dict))
  (acc : pydict (list dict)) : result (pydict (list dict)) :=
  foldM (fun g ld => group_add g (fst ld) (snd ld)) lines acc.

(** No key of [ks] is the key [k]. *)
Definition fresh (ks : list pyval) (k : pyval) : bool :=
  negb (existsb (fun a => same_key a k) ks).

(** What a group holds once more lines are added to it. *)
Definition extended (old : option (list dict)) (new : list dict)
  : option (list dict) :=
  match old, new with
  | None, [] => None
  | None, _ => Some new
  | Some p, _ => Some (p ++ new)
  end.

(** No two labels of the list are one key. *)
Definition distinct_keys (ks : list pyval) : Prop :=
  ForallOrdPairs (fun a b => same_key a b = false) ks.

(** The rows of all groups, block after block. *)
Definition all_members (grouped : pydict (list dict)) : list dict :=
  flat_map snd grouped.

(** [d] is the [data] of some line item. *)
Definition resolved (lib : pylib) (lk : pydict dict) (d : dict) : Prop :=
  exists item label, resolve_item lib lk item = Ok (label, d).

(** ** Sort keys *)

(** The sort key is a [str]: the SKU is a [str], or it is falsy. *)
Definition text_key (x : dict) : bool :=
  match sort_key x with
  | VStr _ => true
  | _ => false
  end.

(** The sort key is a number. *)
Definition number_key (x : dict) : bool := isinstance_number (sort_key x).

(** [x] does not come after [y] in the order of their SKUs (two [str]). *)
Definition sku_leb (x y : dict) : bool :=
  match sort_key x, sort_key y with
  | VStr s, VStr t => String.leb s t
  | _, _ => false
  end.

(** The sort key is the string [s]. *)
Definition has_sku (s : string) (x : dict) : bool := str_eq (sort_key x) s.

Definition same_kind (c : bool) (x : dict) : bool :=
  if c then text_key x else number_key x.

(** ** Columns of the report *)

(** The ten columns a line item fills. *)
Definition data_cols : list string :=
  [ "Product"; "SKU"; "Units"; "Gross Weight (kg)"; "Total Weight (kg)";
    "Volume (m³)"; "Stock Real"; "Insuficiente?"; "Falta"; "Extra" ].

(** The two columns the pallet estimate is computed from. *)
Definition measure_cols : list string :=
  [ "Total Weight (kg)"; "Volume (m³)" ].

Definition zero : F64.t := S754_zero false.

(** The terms that the rows of one block add to the sum of a subtotal
    column: nothing but the subtotal. *)
Definition subtotal_terms (lib : pylib) (c : string) (g : pyval * list dict)
  : list F64.t :=
  zero :: map (fun _ => zero) (snd g)
  ++ [term lib (get (final_row (subtotal_row lib (fst g) (snd g))) c)].

(** The terms that the rows of one block add to the sum of a column of the
    line items: nothing but the cells of the member rows. *)
Definition member_terms (lib : pylib) (c : string) (g : pyval * list dict)
  : list F64.t :=
  zero :: map (fun d => term lib (get d c)) (snd g) ++ [zero].

Definition has_number (lib : pylib) (c : string) (d : dict) : bool :=
  is_some (cell_num lib (get d c)).

Definition opt_value (o : option F64.t) : pyval :=
  match o with
  | Some f => VFloat f
  | None => nan
  end.

(** Making the cell numeric twice is making it numeric once. *)
Definition settled (lib : pylib) (v : pyval) : Prop :=
  float_cell (cell_num lib (opt_value (float_cell (cell_num lib v)))) =
  float_cell (cell_num lib v).

(** ** Pages and documents *)

(** From page [page] on, the service answers with the lists [pages], one
    per request. *)
Fixpoint serves (get_page : Z -> option pyval) (page : Z)
  (pages : list (list pyval)) : Prop :=
  match pages with
  | [] => True
  | p :: ps =>
      (exists data, get_page page = Some data /\ chunk_of data = VList p) /\
      serves get_page (page + 1) ps
  end.

Definition full_page (p : list pyval) : Prop :=
  PAGE_SIZE <= Z.of_nat (List.length p).

Definition short_page (p : list pyval) : Prop :=
  Z.of_nat (List.length p) < PAGE_SIZE.

(** The document carries the number [n], whatever the case of letters. *)
Definition carries (lib : doclib) (n : string) (d : dict) : Prop :=
  exists s, get_opt d "docNumber" = Some (VStr s) /\ lower lib s = lower lib n.

(** ** More example data *)

(** A record with every field, under the identifier of [rec_old]. *)
Definition rec_box : dict :=
  [ ("id", VStr "a"); ("name", VStr "Box"); ("sku", VStr "B-1");
    ("stock", VInt 3); ("weight", VFloat (F64.dec 125 3)) ].

Definition order_a5 : dict := [("productId", VStr "a"); ("units", VInt 5)].

(** A line without a number of units. *)
Definition order_a_none : dict := [("productId", VStr "a"); ("units", VNone)].

(** A product with two product lines and a width that is no number. *)
Definition lines_info : dict :=
  [ ("Product", VStr "Envelope"); ("SKU", VStr "E-1"); ("Stock Real", VInt 9);
    ("Weight", VNone);
    ("Attributes",
     VList
       [ VDict [("name", VStr "Product Line"); ("value", VStr "Cajas")];
         VDict [("name", VStr "Ancho [cm]"); ("value", VStr "ancho")];
         VDict [("name", VStr "3. Product Line"); ("value", VStr "Sobres")] ])
  ].

Definition catalog_lines : pydict dict := [ (VStr "a", lines_info) ].

(** Two products, of the lines B and A, and three lines that order them. *)
Definition catalog_two : pydict dict :=
  [ (VStr "b",
     [ ("Product", VStr "Bolt"); ("SKU", VStr "B-2"); ("Stock Real", VInt 1);
       ("Weight", VInt 2);
       ("Attributes",
        VList [VDict [("name", VStr "Product Line"); ("value", VStr "B")]]) ]);
    (VStr "a",
     [ ("Product", VStr "Anchor"); ("SKU", VStr "A-1"); ("Stock Real", VInt 7);
       ("Weight", VInt 3);
       ("Attributes",
        VList [VDict [("name", VStr "Product Line"); ("value", VStr "A")]]) ])
  ].

Definition three_lines : list pyval :=
  [ VDict [("productId", VStr "b"); ("units", VInt 1)];
    VDict [("productId", VStr "a"); ("units", VInt 2)];
    VDict [("productId", VStr "b"); ("units", VInt 4)] ].

(** Rows to sort: two SKUs out of order, one missing; and a SKU that is a
    number next to one that is text. *)
Definition shelf : list dict :=
  [ [("SKU", VStr "B-2")]; [("SKU", VStr "A-1")]; [("SKU", VNone)] ].

Definition mixed_shelf : list dict :=
  [ [("SKU", VStr "A-1")]; [("SKU", VInt 5)] ].

(** A product whose name holds the word of the subtotal rows. *)
Definition subtotal_box : pyval :=
  VDict [("name", VStr "Subtotal box"); ("units", VInt 1)].

(** A document whose second line is no object. *)
Definition broken_lines : pyval := VList [line_a5; VStr "oops"].

(** A document whose only line has no number of units. *)
Definition loose_lines : pyval :=
  VList [VDict [("name", VStr "Loose"); ("units", VNone)]].

(** A service with 101 records in two pages, one that never runs out of
    full pages, one that is down, and one that goes down. *)
Definition one_record : pyval := VDict [("docNumber", VStr "PRE-001")].

Definition two_page_server : server :=
  fun _ page =>
    if page =? 1 then Some (VList (repeat one_record 100))
    else Some (VDict [("data", VList [one_record])]).

Definition endless_server : server :=
  fun _ _ => Some (VList (repeat one_record 100)).

Definition down_server : server := fun _ _ => None.

(** A service that answers one full page and fails at the second. *)
Definition failing_server : server :=
  fun _ page =>
    if page =? 1 then Some (VList (repeat one_record 100)) else None.

(** Three documents, two of them with the same number in another case. *)
Definition three_docs : list dict :=
  [ [("docNumber", VStr "PRE-001")];
    [("docNumber", VStr "Pre-002")];
    [("docNumber", VStr "PRE-002")] ].

(** Two documents, of which the second has no line items at all. *)
Definition two_docs : list dict :=
  [ [("docNumber", VStr "PRE-001"); ("products", VList [line_a5])];
    [("docNumber", VStr "PRE-002")] ].

(** A service without any estimate, and one whose estimates do not hold the
    number that a proforma has. *)
Definition no_estimates : server := fun _ _ => Some (VList []).

Definition proforma_server : server :=
  fun url _ =>
    if String.eqb url
         "https://api.holded.com/api/invoicing/v1/documents/estimate"
    then Some (VList [VDict [("docNumber", VStr "PRE-001")]])
    else Some (VList [VDict [("docNumber", VStr "PRO-7")]]).

(** * Properties *)

(** ** The error monad *)

Lemma bind_ok {A B : Type} (c : result A) (k : A -> result B) (b : B) :
  bind c k = Ok b -> exists a, c = Ok a /\ k a = Ok b.
Proof.
  destruct c as [a | e]; simpl; intros H.
  - exists a. split; [reflexivity | exact H].
  - discriminate H.
Qed.

Ltac inv_bind H :=
  let a := fresh "a" in
  let Ha := fresh "H" a in
  apply bind_ok in H; destruct H as [a [Ha H]].

Lemma foldM_app {A S : Type} (f : S -> A -> result S) (xs ys : list A) (s : S) :
  foldM f (xs ++ ys) s = (s' <- foldM f xs s ;; foldM f ys s').
Proof.
  revert s. induction xs as [| x xs IH]; intros s; simpl.
  - reflexivity.
  - destruct (f s x) as [s' | e]; simpl; [apply IH | reflexivity].
Qed.

(** ** Dictionaries *)

Lemma key_eqb_sym (a b : key) : key_eqb a b = key_eqb b a.
Proof.
  destruct a, b; simpl; try reflexivity.
  - apply String.eqb_sym.
  - apply Z.eqb_sym.
  - rewrite (Z.eqb_sym e e0), (Pos.eqb_sym m m0).
    destruct s, s0; reflexivity.
  - destruct s, s0; reflexivity.
Qed.

Lemma key_eqb_eq (a b : key) : key_eqb a b = true <-> a = b.
Proof.
  destruct a, b; simpl; split; intros H;
    try discriminate H; try reflexivity.
  - apply String.eqb_eq in H. congruence.
  - injection H as ->. apply String.eqb_refl.
  - apply Z.eqb_eq in H. congruence.
  - injection H as ->. apply Z.eqb_refl.
  - apply andb_true_iff in H. destruct H as [H He].
    apply andb_true_iff in H. destruct H as [Hs Hm].
    apply Z.eqb_eq in He. apply Pos.eqb_eq in Hm.
    apply Bool.eqb_prop in Hs. congruence.
  - injection H as -> -> ->.
    rewrite Bool.eqb_reflx, Pos.eqb_refl, Z.eqb_refl. reflexivity.
  - apply Bool.eqb_prop in H. congruence.
  - injection H as ->. apply Bool.eqb_reflx.
Qed.

Lemma same_key_sym (a b : pyval) : same_key a b = same_key b a.
Proof.
  unfold same_key.
  destruct (key_of a), (key_of b); try reflexivity. apply key_eqb_sym.
Qed.

Lemma same_key_trans (a b c : pyval) :
  same_key a b = true -> same_key b c = true -> same_key a c = true.
Proof.
  unfold same_key.
  destruct (key_of a) as [x |], (key_of b) as [y |], (key_of c) as [z |];
    try discriminate; intros H1 H2.
  apply key_eqb_eq in H1. apply key_eqb_eq in H2.
  apply key_eqb_eq. congruence.
Qed.

Lemma same_key_congr (a b c : pyval) :
  same_key a b = true -> same_key a c = same_key b c.
Proof.
  intros H.
  destruct (same_key a c) eqn:Hac, (same_key b c) eqn:Hbc; try reflexivity.
  - rewrite same_key_sym in H.
    rewrite (same_key_trans _ _ _ H Hac) in Hbc. discriminate Hbc.
  - rewrite (same_key_trans _ _ _ H Hbc) in Hac. discriminate Hac.
Qed.

Lemma lookup_store {V : Type} (d : pydict V) (k k2 : pyval) (v : V) :
  lookup (store d k v) k2 = if same_key k k2 then Some v else lookup d k2.
Proof.
  induction d as [| [k' v'] d IH]; simpl.
  - reflexivity.
  - destruct (same_key k' k) eqn:Hk; simpl.
    + rewrite (same_key_congr _ _ k2 Hk).
      destruct (same_key k k2); reflexivity.
    + rewrite IH.
      destruct (same_key k' k2) eqn:Hk2; [| reflexivity].
      destruct (same_key k k2) eqn:Hkk; [| reflexivity].
      rewrite same_key_sym in Hkk.
      rewrite (same_key_trans _ _ _ Hk2 Hkk) in Hk. discriminate Hk.
Qed.

(** ** [build_product_lookup] *)

Lemma find_append {A : Type} (f : A -> bool) (l l' : list A) :
  find f (l ++ l') =
  match find f l with
  | Some y => Some y
  | None => find f l'
  end.
Proof.
  induction l as [| y l IH]; simpl.
  - reflexivity.
  - destruct (f y); [reflexivity | exact IH].
Qed.

(** The index maps a key to the last record that carries it. *)
Lemma build_from_lookup (products : list dict) (acc L : pydict dict) (k : pyval) :
  build_from acc products = Ok L ->
  lookup L k =
  match find (fun p => same_key (product_id p) k) (rev products) with
  | Some p => Some (product_info p)
  | None => lookup acc k
  end.
Proof.
  unfold build_from. revert acc.
  induction products as [| p ps IH]; intros acc H; simpl in *.
  - injection H as <-. reflexivity.
  - inv_bind H. rewrite (IH _ H), find_append.
    destruct (find _ (rev ps)) as [q |]; [reflexivity |].
    unfold setitem in Ha. destruct (hashable (product_id p)); [| discriminate Ha].
    injection Ha as <-. rewrite lookup_store. simpl.
    destruct (same_key (product_id p) k); reflexivity.
Qed.

Lemma find_none_forall {A : Type} (f : A -> bool) (l : list A) :
  Forall (fun x => f x = false) l -> find f (rev l) = None.
Proof.
  intros H. destruct (find f (rev l)) as [x |] eqn:E; [| reflexivity].
  apply find_some in E. destruct E as [Hin Hx].
  apply in_rev in Hin. rewrite Forall_forall in H.
  rewrite (H _ Hin) in Hx. discriminate Hx.
Qed.



(** C10.  When several records of the product list resolve to the same
    identifier, [build_product_lookup] maps that identifier to the info of
    the last of them in list order: for a record [p] followed only by
    records with other identifiers, [lookup[pid]] is the info of [p],
    whatever came before it. *)
Theorem last_record_wins
  (before after : list dict) (p : dict) (pid : pyval) (L : pydict dict) :
  build_product_lookup (before ++ p :: after) = Ok L ->
  same_key (product_id p) pid = true ->
  Forall (fun q => same_key (product_id q) pid = false) after ->
  lookup L pid = Some (product_info p).
Proof.
  intros HL Hp Hafter.
  rewrite (build_from_lookup _ _ _ pid HL).
  rewrite rev_app_distr. simpl rev. rewrite <- app_assoc.
  rewrite find_append.
  rewrite (find_none_forall _ _ Hafter). simpl.
  rewrite Hp. reflexivity.
Qed.

Lemma last_record_wins_witness :
  exists L,
    build_product_lookup [rec_old; rec_new; rec_other] = Ok L /\
    lookup L (VStr "a") = Some (product_info rec_new).
Proof.
  eexists. split.
  - reflexivity.
  - apply (last_record_wins [rec_old] [rec_other] rec_new (VStr "a")).
    + reflexivity.
    + reflexivity.
    + repeat constructor.
Defined.

Lemma setitem_ok {V : Type} (d : pydict V) (k : pyval) (v : V) :
  hashable k = true -> setitem d k v = Ok (store d k v).
Proof. intros H. unfold setitem. rewrite H. reflexivity. Qed.

Lemma build_from_cons (p : dict) (ps : list dict) (acc : pydict dict) :
  build_from acc (p :: ps) =
  (s <- setitem acc (product_id p) (product_info p) ;; build_from s ps).
Proof. reflexivity. Qed.

Lemma build_from_total (ps : list dict) (acc : pydict dict) :
  Forall (fun p => hashable (product_id p) = true) ps ->
  exists L, build_from acc ps = Ok L.
Proof.
  intros H. revert acc. induction H as [| p ps Hp _ IH]; intros acc.
  - exists acc. reflexivity.
  - rewrite build_from_cons, setitem_ok by exact Hp. apply IH.
Qed.








Lemma absent_ids_resolve_to_none (p : dict) :
  get_opt p "id" = None -> get_opt p "productId" = None ->
  product_id p = VNone.
Proof.
  intros H1 H2. unfold product_id, get, get_default. rewrite H1, H2.
  reflexivity.
Qed.


(** ** The container check and the empty report *)

Lemma no_items_empty_frame (lib : pylib) (cell : pyval) (lk : pydict dict) :
  line_items cell = Ok [] ->
  get_products_info_for_row lib cell lk = Ok empty_frame.
Proof.
  intros H. unfold get_products_info_for_row. rewrite H. reflexivity.
Qed.

(** C9.  A document row with zero line items (an empty list, or no list at
    all) gives a well-formed empty report: no error, zero data rows, and the
    full fixed column set. *)
Theorem empty_report (lib : pylib) (lk : pydict dict) :
  get_products_info_for_row lib (VList []) lk = Ok empty_frame /\
  get_products_info_for_row lib VNone lk = Ok empty_frame /\
  List.length (columns empty_frame) = 14%nat /\
  rows empty_frame = [].
Proof.
  repeat split; apply no_items_empty_frame; reflexivity.
Qed.

(** C7, as stated, fails in both directions.  A ["products"] value that is
    present, is not a list and is falsy (an empty object, an empty string,
    zero, [False]) raises nothing: [or []] turns it into the empty list
    before the type check.  And a list does not guarantee a normal return:
    a line whose ["units"] is null makes [stock >= units] raise
    [TypeError]. *)
Lemma falsy_container_is_accepted :
  (is_list (VDict []) = false /\
   get_products_info_for_row ref_lib (VDict []) catalog_a = Ok empty_frame) /\
  (is_list (VStr "") = false /\
   get_products_info_for_row ref_lib (VStr "") catalog_a = Ok empty_frame) /\
  (is_list (VInt 0) = false /\
   get_products_info_for_row ref_lib (VInt 0) catalog_a = Ok empty_frame) /\
  get_products_info_for_row ref_lib
    (VList [VDict [("productId", VStr "a"); ("units", VNone)]]) catalog_a
  = Raise TypeError.
Proof. repeat split; reflexivity. Qed.

Lemma line_items_falsy (cell : pyval) :
  truthy cell = false -> line_items cell = Ok [].
Proof.
  intros H. unfold line_items, py_or. rewrite H. reflexivity.
Qed.

Lemma line_items_truthy (cell : pyval) :
  truthy cell = true ->
  line_items cell =
  match cell with VList items => Ok items | _ => Raise TypeError end.
Proof.
  intros H. unfold line_items, py_or. rewrite H. reflexivity.
Qed.

(** C7, amended.  The type check of [get_products_info_for_row] raises
    [TypeError] if and only if the ["products"] value is truthy and not a
    list, and the error reaches the caller.  A falsy value of any type is
    taken for the empty list, and with no line item the function returns
    the empty report.  A list always passes the check (what the lines then
    do is another matter). *)
Theorem container_type_check
  (lib : pylib) (lk : pydict dict) (cell : pyval) :
  (line_items cell = Raise TypeError <->
   truthy cell = true /\ is_list cell = false) /\
  (truthy cell = true -> is_list cell = false ->
   get_products_info_for_row lib cell lk = Raise TypeError) /\
  (truthy cell = false ->
   get_products_info_for_row lib cell lk = Ok empty_frame) /\
  (forall items, cell = VList items -> line_items cell = Ok items).
Proof.
  repeat split.
  - destruct (truthy cell) eqn:T; [reflexivity |].
    rewrite (line_items_falsy _ T) in H. discriminate H.
  - destruct (truthy cell) eqn:T.
    + rewrite (line_items_truthy _ T) in H.
      destruct cell; try reflexivity. discriminate H.
    + rewrite (line_items_falsy _ T) in H. discriminate H.
  - intros [T Hl]. rewrite (line_items_truthy _ T).
    destruct cell; try reflexivity. discriminate Hl.
  - intros T Hl. unfold get_products_info_for_row.
    rewrite (line_items_truthy _ T).
    destruct cell; try reflexivity. discriminate Hl.
  - intros T. apply no_items_empty_frame, line_items_falsy, T.
  - intros items ->. unfold line_items, py_or.
    destruct items; reflexivity.
Qed.

Lemma container_type_check_witness :
  truthy (VStr "oops") = true /\ is_list (VStr "oops") = false /\
  get_products_info_for_row ref_lib (VStr "oops") catalog_a = Raise TypeError.
Proof.
  split; [reflexivity |]. split; [reflexivity |].
  apply (container_type_check ref_lib catalog_a (VStr "oops")); reflexivity.
Defined.

(** ** Rounding to decimals *)

Lemma div_half_even_nearest (p q : Z) :
  0 < q -> nearest_even p q (F64.div_half_even p q).
Proof.
  intros Hq. unfold nearest_even, F64.div_half_even.
  pose proof (Z.div_mod p q ltac:(lia)) as E.
  pose proof (Z.mod_pos_bound p q Hq) as B.
  set (d := p / q) in *. set (r := p mod q) in *.
  destruct (Z.compare_spec (2 * r) q) as [C | C | C].
  - destruct (Z.even d) eqn:Ev.
    + split; [nia | intros _; exact Ev].
    + split; [nia |]. intros _.
      rewrite Z.even_add, Ev. reflexivity.
  - split; [nia | intros H; exfalso; nia].
  - split; [nia | intros H; exfalso; nia].
Qed.

(** The nearest integer, ties to even, is one integer. *)
Lemma nearest_even_unique (p q n n' : Z) :
  0 < q -> nearest_even p q n -> nearest_even p q n' -> n = n'.
Proof.
  intros Hq [B T] [B' T'].
  assert (D : n' = n \/ n' = n + 1 \/ n = n' + 1 \/ n' < n - 1 \/ n + 1 < n')
    by lia.
  destruct D as [-> | [-> | [-> | [L | L]]]]; [reflexivity | | | nia | nia].
  - assert (E1 : Z.abs (2 * p - 2 * n * q) = q) by nia.
    assert (E2 : Z.abs (2 * p - 2 * (n + 1) * q) = q) by nia.
    specialize (T E1). specialize (T' E2).
    rewrite Z.even_add, T in T'. discriminate T'.
  - assert (E1 : Z.abs (2 * p - 2 * n' * q) = q) by nia.
    assert (E2 : Z.abs (2 * p - 2 * (n' + 1) * q) = q) by nia.
    specialize (T E2). specialize (T' E1).
    rewrite Z.even_add, T' in T. discriminate T.
Qed.

(** The builtin [round] rounds to [k] decimals. *)
Lemma py_round_rounded (k : nat) (x : F64.t) :
  rounded_to k x (F64.py_round k x).
Proof.
  destruct x as [s | s | | s m e]; try reflexivity.
  unfold rounded_to, F64.py_round, F64.scaled_half_even.
  destruct e as [| p | p].
  - exists (Zpos m * 10 ^ Z.of_nat k * 2 ^ 0). split; [| reflexivity].
    cbn [Z.max Z.opp Z.compare]. change (2 ^ 0) with 1.
    set (P := Zpos m * 10 ^ Z.of_nat k * 1).
    split; [lia | intros H; exfalso; lia].
  - exists (Zpos m * 10 ^ Z.of_nat k * 2 ^ Zpos p). split; [| reflexivity].
    cbn [Z.max Z.opp Z.compare]. change (2 ^ 0) with 1.
    set (P := Zpos m * 10 ^ Z.of_nat k * 2 ^ Zpos p).
    split; [lia | intros H; exfalso; lia].
  - exists (F64.div_half_even (Zpos m * 10 ^ Z.of_nat k) (2 ^ Zpos p)).
    split; [| reflexivity].
    cbn [Z.max Z.opp Z.compare]. change (2 ^ 0) with 1. rewrite Z.mul_1_r.
    apply div_half_even_nearest. apply Z.pow_pos_nonneg; lia.
Qed.

(** Rounding to [k] decimals has one result. *)
Lemma rounded_to_unique (k : nat) (x r r' : F64.t) :
  rounded_to k x r -> rounded_to k x r' -> r = r'.
Proof.
  destruct x as [s | s | | s m e]; cbn [rounded_to];
    try (intros -> ->; reflexivity).
  intros (n & Hn & ->) (n' & Hn' & ->).
  assert (Hq : 0 < 2 ^ Z.max (- e) 0) by (apply Z.pow_pos_nonneg; lia).
  rewrite (nearest_even_unique _ _ n n' Hq Hn Hn'). reflexivity.
Qed.

Lemma rint_nearest (x : F64.t) : nearest_integral x (F64.rint x).
Proof.
  destruct x as [s | s | | s m e]; try reflexivity.
  destruct e as [| p | p]; try reflexivity.
  cbn [nearest_integral F64.rint].
  exists (F64.div_half_even (Zpos m) (2 ^ Zpos p)). split.
  - apply div_half_even_nearest. apply Z.pow_pos_nonneg; lia.
  - reflexivity.
Qed.

(** [numpy]'s [round] scales to [k] decimals. *)
Lemma np_round_scaled (k : nat) (x : F64.t) :
  scaled_rounding k x (F64.np_round k x).
Proof.
  destruct k as [| k]; cbn [scaled_rounding F64.np_round].
  - apply rint_nearest.
  - eexists. split; [apply rint_nearest | reflexivity].
Qed.

Lemma nearest_integral_unique (x y y' : F64.t) :
  nearest_integral x y -> nearest_integral x y' -> y = y'.
Proof.
  destruct x as [s | s | | s m e]; cbn [nearest_integral];
    try (intros -> ->; reflexivity).
  destruct e as [| p | p]; try (intros -> ->; reflexivity).
  intros (n & Hn & ->) (n' & Hn' & ->).
  assert (Hq : 0 < 2 ^ Zpos p) by (apply Z.pow_pos_nonneg; lia).
  rewrite (nearest_even_unique _ _ n n' Hq Hn Hn'). reflexivity.
Qed.

(** Scaling to [k] decimals has one result. *)
Lemma scaled_rounding_unique (k : nat) (x r r' : F64.t) :
  scaled_rounding k x r -> scaled_rounding k x r' -> r = r'.
Proof.
  destruct k as [| k]; cbn [scaled_rounding].
  - apply nearest_integral_unique.
  - intros (y & Hy & ->) (y' & Hy' & ->).
    rewrite (nearest_integral_unique _ _ _ Hy Hy'). reflexivity.
Qed.

(** ** One resolved line *)

Lemma resolve_item_inv
  (lib : pylib) (lk : pydict dict) (item : pyval) (label : pyval) (data : dict) :
  resolve_item lib lk item = Ok (label, data) ->
  exists it found fl insuf falta extra tw,
    item = VDict it /\
    find_product lk (item_id it) = Ok found /\
    match found with
    | Some info => branch_a lib info
    | None => Ok (branch_b it)
    end = Ok fl /\
    shortage (f_sku fl) (f_stock fl) (item_units it) = Ok (insuf, falta, extra) /\
    total_weight (net_w fl) (item_units it) = Ok tw /\
    label = subcat (f_scan fl) /\
    data = line_data fl (item_units it) insuf falta extra tw.
Proof.
  intros H. destruct item as [| | | | | | it]; try discriminate H.
  unfold resolve_item in H.
  apply bind_ok in H. destruct H as [found [Hfound H]].
  apply bind_ok in H. destruct H as [fl [Hfl H]].
  apply bind_ok in H. destruct H as [[[insuf falta] extra] [Hsh H]].
  apply bind_ok in H. destruct H as [tw [Htw H]].
  injection H as <- <-.
  exists it, found, fl, insuf, falta, extra, tw.
  repeat split; assumption.
Qed.




Lemma to_float_value (n : num) (f : F64.t) :
  to_float n = Ok f -> float_value n f.
Proof.
  destruct n as [z | x]; cbn [to_float float_value].
  - unfold float_of_int. destruct (F64.of_Z z) eqn:E; intros H;
      try discriminate H; injection H as <-; split; reflexivity.
  - intros H. injection H as <-. reflexivity.
Qed.

Lemma py_mul_product (a b p : pyval) :
  py_mul a b = Ok p -> product_of a b p /\ exists n, p = of_num n.
Proof.
  unfold py_mul, lift2, product_of.
  destruct (as_num a) as [x |]; [| discriminate].
  destruct (as_num b) as [y |]; [| destruct x; discriminate].
  intros H. apply bind_ok in H. destruct H as [n [Hn H]].
  injection H as <-. split; [| exists n; reflexivity].
  destruct x as [x | x], y as [y | y]; cbn [num_mul] in Hn;
    try (injection Hn as <-; reflexivity);
    apply bind_ok in Hn; destruct Hn as [fx [Hx Hn]];
    apply bind_ok in Hn; destruct Hn as [fy [Hy Hn]];
    injection Hn as <-; exists fx, fy;
    (split; [apply to_float_value, Hx |]);
    (split; [apply to_float_value, Hy | reflexivity]).
Qed.

Lemma py_round_value (k : nat) (n : num) (r : pyval) :
  py_round k (of_num n) = Ok r -> rounded_value k (of_num n) r.
Proof.
  destruct n as [z | x]; cbn [of_num py_round as_num num_round rounded_value];
    intros H; injection H as <-.
  - reflexivity.
  - eexists. split; [apply py_round_rounded | reflexivity].
Qed.

(** C4.  On every resolved line, Total Weight (kg) is the unit weight times
    the units, rounded to 3 decimals, when both are truthy; when either is
    falsy (zero, null, absent, which defaults to zero) it is [None], the
    explicit unknown, and so never a zero.  The product is the exact one of
    two [int]s, which rounding leaves alone, and the binary64 product
    otherwise. *)
Theorem total_weight_field
  (lib : pylib) (lk : pydict dict) (item label : pyval) (data : dict) :
  resolve_item lib lk item = Ok (label, data) ->
  let w := get data "Gross Weight (kg)" in
  let u := get data "Units" in
  let tw := get data "Total Weight (kg)" in
  (truthy w = true -> truthy u = true ->
   exists p, product_of w u p /\ rounded_value 3 p tw) /\
  (truthy w = false \/ truthy u = false ->
   tw = VNone /\ tw <> VInt 0 /\ forall s, tw <> VFloat (S754_zero s)).
Proof.
  intros H.
  apply resolve_item_inv in H.
  destruct H as (it & found & fl & insuf & falta & extra & tw' &
                 -> & _ & _ & _ & Htw & _ & ->).
  change (get (line_data fl (item_units it) insuf falta extra tw')
              "Gross Weight (kg)") with (net_w fl).
  change (get (line_data fl (item_units it) insuf falta extra tw') "Units")
    with (item_units it).
  change (get (line_data fl (item_units it) insuf falta extra tw')
              "Total Weight (kg)") with tw'.
  cbv zeta. unfold total_weight in Htw. split.
  - intros Hw Hu. rewrite Hw, Hu in Htw. simpl in Htw.
    apply bind_ok in Htw. destruct Htw as [p [Hp Hr]].
    apply py_mul_product in Hp. destruct Hp as [Hp [n ->]].
    exists (of_num n). split; [exact Hp | apply py_round_value, Hr].
  - intros Hf.
    assert (E : truthy (net_w fl) && truthy (item_units it) = false).
    { destruct Hf as [-> | ->]; [reflexivity | apply andb_false_r]. }
    rewrite E in Htw. injection Htw as <-.
    repeat split; try discriminate.
Qed.

Lemma total_weight_field_witness :
  (exists label data,
     resolve_item ref_lib [] wire = Ok (label, data) /\
     get data "Gross Weight (kg)" = VFloat (F64.dec 12345 4) /\
     get data "Units" = VInt 3 /\
     get data "Total Weight (kg)" = VFloat (F64.dec 3704 3) /\
     exists p,
       product_of (VFloat (F64.dec 12345 4)) (VInt 3) p /\
       rounded_value 3 p (VFloat (F64.dec 3704 3)) /\
       p <> VFloat (F64.dec 3704 3)) /\
  (exists label data,
     resolve_item ref_lib catalog_a line_a0 = Ok (label, data) /\
     get data "Total Weight (kg)" = VNone).
Proof.
  split.
  - destruct (resolve_item ref_lib [] wire) as [[label data] | e] eqn:HR;
      [| vm_compute in HR; discriminate HR].
    exists label, data. split; [reflexivity |].
    destruct (total_weight_field ref_lib [] wire label data HR) as [H _].
    vm_compute in HR. injection HR as <- <-.
    split; [vm_compute; reflexivity |].
    split; [reflexivity |].
    split; [vm_compute; reflexivity |].
    destruct (H eq_refl eq_refl) as (p & Hp & Hr).
    exists p. split; [exact Hp |]. split; [exact Hr |].
    destruct Hp as (fx & fy & Hx & [Hy _] & ->).
    cbn [float_value] in Hx. subst fx fy.
    vm_compute. discriminate.
  - eexists. eexists. split; [reflexivity |].
    destruct (total_weight_field ref_lib catalog_a line_a0 _ _ eq_refl)
      as [_ H].
    exact (proj1 (H (or_intror eq_refl))).
Defined.

(** ** The attribute scan *)

Lemma scan_attr_dims (lib : pylib) (st st' : scan) (a : pyval) :
  scan_attr lib st a = Ok st' ->
  ancho st' = keep_dim lib "Ancho [cm]" (ancho st) a /\
  alto st' = keep_dim lib "Alto [cm]" (alto st) a /\
  fondo st' = keep_dim lib "Fondo [cm]" (fondo st) a.
Proof.
  destruct a as [| | | | | | a]; try discriminate.
  unfold scan_attr, keep_dim. fold (attr_name a).
  destruct (attr_name a) as [| | | | nm | |];
    try (simpl; destruct (try_float lib (get a "value"));
         intros H; injection H as <-; repeat split; reflexivity).
  unfold str_eq.
  destruct (try_float lib (get a "value")) as [v |].
  - destruct (String.eqb_spec nm "Ancho [cm]") as [-> | _];
      [simpl; intros H; injection H as <-; repeat split; reflexivity |].
    destruct (String.eqb_spec nm "Alto [cm]") as [-> | _];
      [simpl; intros H; injection H as <-; repeat split; reflexivity |].
    destruct (String.eqb_spec nm "Fondo [cm]") as [-> | _];
      [simpl; intros H; injection H as <-; repeat split; reflexivity |].
    destruct (_ || _); intros H; injection H as <-; repeat split; reflexivity.
  - destruct (_ || _); intros H; injection H as <-;
      repeat split; simpl;
      match goal with |- _ = if ?c then _ else _ => destruct c end;
      reflexivity.
Qed.

Lemma scan_dims (lib : pylib) (attrs : list pyval) (st st' : scan) :
  foldM (scan_attr lib) attrs st = Ok st' ->
  ancho st' = fold_left (keep_dim lib "Ancho [cm]") attrs (ancho st) /\
  alto st' = fold_left (keep_dim lib "Alto [cm]") attrs (alto st) /\
  fondo st' = fold_left (keep_dim lib "Fondo [cm]") attrs (fondo st).
Proof.
  revert st. induction attrs as [| a attrs IH]; intros st H; simpl in *.
  - injection H as <-. repeat split; reflexivity.
  - apply bind_ok in H. destruct H as [st1 [Ha H]].
    apply scan_attr_dims in Ha. destruct Ha as (E1 & E2 & E3).
    rewrite <- E1, <- E2, <- E3. apply IH, H.
Qed.

Lemma keep_dim_some (lib : pylib) (nm : string) (attrs : list pyval)
  (acc : option F64.t) :
  fold_left (keep_dim lib nm) attrs acc <> None <->
  acc <> None \/ has_dim lib nm attrs.
Proof.
  revert acc. induction attrs as [| a attrs IH]; intros acc; simpl.
  - split; [intros H; left; exact H |].
    intros [H | (a & v & [] & _)]. exact H.
  - rewrite IH. split.
    + intros [H | (b & v & Hin & Hb)].
      * destruct a as [| | | | | | a]; simpl in H; try (left; exact H).
        destruct (str_eq (attr_name a) nm) eqn:En; [| left; exact H].
        destruct (try_float lib (get a "value")) as [v |] eqn:Ev;
          [| left; exact H].
        right. exists a, v. repeat split; try assumption. left; reflexivity.
      * right. exists b, v. split; [right; exact Hin | exact Hb].
    + intros [H | (b & v & [-> | Hin] & Hn & Hv)].
      * left. destruct a as [| | | | | | a]; simpl; try exact H.
        destruct (str_eq (attr_name a) nm); [| exact H].
        destruct (try_float lib (get a "value")); [discriminate | exact H].
      * left. simpl. rewrite Hn, Hv. discriminate.
      * right. exists b, v. repeat split; assumption.
Qed.

Lemma last_dim_some (lib : pylib) (nm : string) (attrs : list pyval) :
  last_dim lib nm attrs <> None <-> has_dim lib nm attrs.
Proof.
  unfold last_dim. rewrite keep_dim_some. split.
  - intros [H | H]; [contradiction H; reflexivity | exact H].
  - intros H. right. exact H.
Qed.

(** A list of attribute objects is scanned without error, whatever the
    values are. *)
Lemma scan_never_raises (lib : pylib) (attrs : list pyval) (st : scan) :
  Forall (fun a => exists d, a = VDict d) attrs ->
  exists st', foldM (scan_attr lib) attrs st = Ok st'.
Proof.
  intros H. revert st. induction H as [| a attrs [d ->] _ IH]; intros st.
  - exists st. reflexivity.
  - assert (E : exists st1, scan_attr lib st (VDict d) = Ok st1).
    { unfold scan_attr.
      destruct (try_float lib (get d "value")); [| eexists; reflexivity].
      destruct (str_eq _ "Ancho [cm]"); [eexists; reflexivity |].
      destruct (str_eq _ "Alto [cm]"); [eexists; reflexivity |].
      destruct (str_eq _ "Fondo [cm]"); eexists; reflexivity. }
    destruct E as [st1 E]. destruct (IH st1) as [st' Hst'].
    exists st'.
    change (foldM (scan_attr lib) (VDict d :: attrs) st)
      with (bind (scan_attr lib st (VDict d))
                 (fun s => foldM (scan_attr lib) attrs s)).
    rewrite E. exact Hst'.
Qed.

Lemma branch_a_inv (lib : pylib) (info : dict) (fl : fields) :
  branch_a lib info = Ok fl ->
  exists attrs,
    py_or (get info "Attributes") (VList []) = VList attrs /\
    ancho (f_scan fl) = last_dim lib "Ancho [cm]" attrs /\
    alto (f_scan fl) = last_dim lib "Alto [cm]" attrs /\
    fondo (f_scan fl) = last_dim lib "Fondo [cm]" attrs.
Proof.
  unfold branch_a. intros H.
  apply bind_ok in H. destruct H as [st [Hst H]]. injection H as <-.
  destruct (py_or (get info "Attributes") (VList [])) as [| | | | | attrs |];
    try discriminate Hst.
  exists attrs. split; [reflexivity |].
  apply scan_dims in Hst. exact Hst.
Qed.

(** C3.  On a line resolved through the catalog, Volume is non-null if and
    only if each of "Ancho [cm]", "Alto [cm]" and "Fondo [cm]" occurs in the
    product's attribute list with a value that [float] accepts; it is then
    width * height * depth / 1,000,000, computed in binary64 on the last
    such value of each, and rounded to 5 decimals.  A value that [float]
    rejects changes nothing and raises nothing: a list of attribute objects
    is always scanned to the end. *)
Theorem volume_field
  (lib : pylib) (lk : pydict dict) (item info : dict)
  (label : pyval) (data : dict) :
  find_product lk (item_id item) = Ok (Some info) ->
  resolve_item lib lk (VDict item) = Ok (label, data) ->
  exists attrs,
    py_or (get info "Attributes") (VList []) = VList attrs /\
    (get data "Volume (m³)" <> VNone <->
     has_dim lib "Ancho [cm]" attrs /\
     has_dim lib "Alto [cm]" attrs /\
     has_dim lib "Fondo [cm]" attrs) /\
    (get data "Volume (m³)" <> VNone ->
     exists w h d r,
       last_dim lib "Ancho [cm]" attrs = Some w /\
       last_dim lib "Alto [cm]" attrs = Some h /\
       last_dim lib "Fondo [cm]" attrs = Some d /\
       rounded_to 5 (F64.div (F64.mul (F64.mul w h) d) (F64.of_Z 1000000))
                  r /\
       get data "Volume (m³)" = VFloat r) /\
    (forall others st,
       Forall (fun a => exists d, a = VDict d) others ->
       exists st', foldM (scan_attr lib) others st = Ok st').
Proof.
  intros Hfind H.
  apply resolve_item_inv in H.
  destruct H as (it & found & fl & insuf & falta & extra & tw &
                 Hit & Hfound & Hfl & _ & _ & _ & ->).
  injection Hit as <-. rewrite Hfind in Hfound. injection Hfound as <-.
  apply branch_a_inv in Hfl.
  destruct Hfl as (attrs & Hattrs & Ew & Eh & Ed).
  exists attrs. split; [exact Hattrs |].
  change (get (line_data fl (item_units item) insuf falta extra tw)
              "Volume (m³)") with (volume_of (f_scan fl)).
  unfold volume_of. rewrite Ew, Eh, Ed.
  rewrite <- !last_dim_some.
  destruct (last_dim lib "Ancho [cm]" attrs) as [w |];
    destruct (last_dim lib "Alto [cm]" attrs) as [h |];
    destruct (last_dim lib "Fondo [cm]" attrs) as [d |];
    (split; [| split]);
    try (intros others st; apply scan_never_raises);
    try (split; [intros _; repeat split; discriminate | discriminate]);
    try (split; [intros C; contradiction C; reflexivity
                | intros (C1 & C2 & C3);
                  first [contradiction C1; reflexivity
                        | contradiction C2; reflexivity
                        | contradiction C3; reflexivity]]);
    try (intros C; contradiction C; reflexivity).
  intros _. exists w, h, d. eexists.
  split; [reflexivity |]. split; [reflexivity |]. split; [reflexivity |].
  split; [apply py_round_rounded | reflexivity].
Qed.

Lemma volume_field_witness :
  (find_product [(VStr "a", dims_info)]
     (item_id [("productId", VStr "a"); ("units", VInt 5)])
   = Ok (Some dims_info) /\
   resolve_item ref_lib [(VStr "a", dims_info)]
     (VDict [("productId", VStr "a"); ("units", VInt 5)])
   = Ok (default_subcat, dims_data) /\
   get dims_data "Volume (m³)" = VFloat (F64.dec 3 2) /\
   (get dims_data "Volume (m³)" <> VNone <->
    has_dim ref_lib "Ancho [cm]" dims_attrs /\
    has_dim ref_lib "Alto [cm]" dims_attrs /\
    has_dim ref_lib "Fondo [cm]" dims_attrs)) /\
  (resolve_item ref_lib [(VStr "c", cube_info)]
     (VDict [("productId", VStr "c"); ("units", VInt 1)])
   = Ok (default_subcat, cube_data) /\
   get cube_data "Volume (m³)" = VFloat (F64.dec 34 5) /\
   rounded_to 5
     (F64.div (F64.mul (F64.mul (F64.of_Z 7) (F64.of_Z 7)) (F64.of_Z 7))
              (F64.of_Z 1000000))
     (F64.dec 34 5) /\
   F64.div (F64.mul (F64.mul (F64.of_Z 7) (F64.of_Z 7)) (F64.of_Z 7))
           (F64.of_Z 1000000) = F64.dec 343 6).
Proof.
  split.
  - assert (Hf : find_product [(VStr "a", dims_info)]
                   (item_id [("productId", VStr "a"); ("units", VInt 5)])
                 = Ok (Some dims_info))
      by (vm_compute; reflexivity).
    assert (Hr : resolve_item ref_lib [(VStr "a", dims_info)]
                   (VDict [("productId", VStr "a"); ("units", VInt 5)])
                 = Ok (default_subcat, dims_data))
      by (vm_compute; reflexivity).
    split; [exact Hf |]. split; [exact Hr |]. split; [reflexivity |].
    destruct (volume_field ref_lib _ _ _ _ _ Hf Hr) as (attrs & E & Hiff & _).
    injection E as <-. exact Hiff.
  - assert (Hf : find_product [(VStr "c", cube_info)]
                   (item_id [("productId", VStr "c"); ("units", VInt 1)])
                 = Ok (Some cube_info))
      by (vm_compute; reflexivity).
    assert (Hr : resolve_item ref_lib [(VStr "c", cube_info)]
                   (VDict [("productId", VStr "c"); ("units", VInt 1)])
                 = Ok (default_subcat, cube_data))
      by (vm_compute; reflexivity).
    split; [exact Hr |]. split; [reflexivity |].
    destruct (volume_field ref_lib _ _ _ _ _ Hf Hr)
      as (attrs & E & _ & Hvol & _).
    injection E as <-.
    change (get cube_data "Volume (m³)") with (VFloat (F64.dec 34 5)) in Hvol.
    destruct (Hvol ltac:(discriminate))
      as (w & h & d & r & Ew & Eh & Ed & Hrd & Er).
    assert (Xw : last_dim ref_lib "Ancho [cm]" cube_attrs = Some (F64.of_Z 7))
      by (vm_compute; reflexivity).
    assert (Xh : last_dim ref_lib "Alto [cm]" cube_attrs = Some (F64.of_Z 7))
      by (vm_compute; reflexivity).
    assert (Xd : last_dim ref_lib "Fondo [cm]" cube_attrs = Some (F64.of_Z 7))
      by (vm_compute; reflexivity).
    rewrite Xw in Ew. rewrite Xh in Eh. rewrite Xd in Ed.
    injection Ew as <-. injection Eh as <-. injection Ed as <-.
    injection Er as <-.
    split; [exact Hrd | vm_compute; reflexivity].
Defined.

(** ** Binary64: the model on known values

    [0.03] is [0x1.eb851eb851eb8p-6].  The two roundings differ where the
    library documents that they do: [round(56294995342131.5, 3)] is
    [56294995342131.5] for the builtin and [56294995342131.51] for
    [numpy]; and [round(2.675, 2)] is [2.67] for the builtin. *)

Example dec_0_03_bits :
  F64.dec 3 2 = S754_finite false 8646911284551352 (-58).
Proof. vm_compute. reflexivity. Qed.

Example py_round_is_exact :
  F64.py_round 3 (F64.dec 562949953421315 1) = F64.dec 562949953421315 1 /\
  F64.py_round 2 (F64.dec 2675 3) = F64.dec 267 2.
Proof. split; vm_compute; reflexivity. Qed.

Example np_round_scales :
  F64.np_round 3 (F64.dec 562949953421315 1) = F64.dec 5629499534213151 2.
Proof. vm_compute. reflexivity. Qed.

(** ** Binary64: rounding keeps the sign and yields no NaN *)

Lemma shr_1_m (r : shr_record) :
  0 <= shr_m r -> shr_m (shr_1 r) = shr_m r / 2.
Proof.
  destruct r as [m rb sb]. simpl. intros H.
  destruct m as [| p | p]; [reflexivity | | lia].
  destruct p as [p | p |]; simpl.
  - rewrite Pos2Z.inj_xI. apply (Z.div_unique _ _ _ 1); lia.
  - rewrite Pos2Z.inj_xO. apply (Z.div_unique _ _ _ 0); lia.
  - reflexivity.
Qed.

Lemma iter_shr_1_m (n : positive) (r : shr_record) :
  0 <= shr_m r -> shr_m (iter_pos shr_1 n r) = shr_m r / 2 ^ Zpos n.
Proof.
  revert r. induction n as [n IH | n IH |]; intros r H; simpl iter_pos.
  - assert (H1 : 0 <= shr_m (shr_1 r)).
    { rewrite shr_1_m by exact H. apply Z.div_pos; lia. }
    assert (H2 : 0 <= shr_m (iter_pos shr_1 n (shr_1 r))).
    { rewrite IH by exact H1. apply Z.div_pos; lia. }
    rewrite IH by exact H2. rewrite IH by exact H1. rewrite shr_1_m by exact H.
    rewrite !Z.div_div by lia.
    f_equal. rewrite Pos2Z.inj_xI, Z.pow_add_r, Z.pow_mul_r by lia.
    change (2 ^ 2) with 4. rewrite Z.pow_1_r.
    replace (4 ^ Zpos n) with (2 ^ Zpos n * 2 ^ Zpos n).
    + ring.
    + rewrite <- Z.pow_add_r by lia. 
      replace (Zpos n + Zpos n) with (2 * Zpos n) by lia.
      rewrite Z.pow_mul_r by lia. reflexivity.
  - assert (H2 : 0 <= shr_m (iter_pos shr_1 n r)).
    { rewrite IH by exact H. apply Z.div_pos; lia. }
    rewrite IH by exact H2. rewrite IH by exact H.
    rewrite Z.div_div by lia. f_equal.
    rewrite Pos2Z.inj_xO.
    rewrite <- Z.pow_add_r by lia. f_equal. lia.
  - rewrite shr_1_m by exact H. reflexivity.
Qed.

Section Rounding.
Variables prec emax : Z.

Lemma shr_m_nonneg (r : shr_record) (e n : Z) :
  0 <= shr_m r -> 0 <= shr_m (fst (shr r e n)).
Proof.
  intros H. destruct n as [| p | p]; simpl; try exact H.
  rewrite iter_shr_1_m by exact H. apply Z.div_pos; lia.
Qed.

Lemma shr_record_of_loc_m (m : Z) (l : location) :
  shr_m (shr_record_of_loc m l) = m.
Proof. destruct l as [| []]; reflexivity. Qed.

Lemma shr_fexp_nonneg (m e : Z) (l : location) :
  0 <= m -> 0 <= shr_m (fst (shr_fexp prec emax m e l)).
Proof.
  intros H. unfold shr_fexp. apply shr_m_nonneg.
  rewrite shr_record_of_loc_m. exact H.
Qed.

Lemma round_nearest_even_bounds (m : Z) (l : location) :
  m <= round_nearest_even m l <= m + 1.
Proof.
  destruct l as [| []]; simpl; try lia.
  destruct (Z.even m); lia.
Qed.

(** Rounding keeps the sign and never yields a NaN. *)
Lemma binary_round_aux_shape (s : bool) (m e : Z) (l : location) :
  0 <= m ->
  binary_round_aux prec emax s m e l = S754_zero s \/
  binary_round_aux prec emax s m e l = S754_infinity s \/
  exists m' e', binary_round_aux prec emax s m e l = S754_finite s m' e'.
Proof.
  intros H. unfold binary_round_aux.
  pose proof (shr_fexp_nonneg m e l H) as H1.
  destruct (shr_fexp prec emax m e l) as [r1 e1]. simpl in H1.
  pose proof (round_nearest_even_bounds (shr_m r1) (loc_of_shr_record r1)) as Hb.
  assert (H2 : 0 <= round_nearest_even (shr_m r1) (loc_of_shr_record r1)) by lia.
  pose proof (shr_fexp_nonneg _ e1 loc_Exact H2) as H3.
  destruct (shr_fexp prec emax _ e1 loc_Exact) as [r2 e2]. simpl in H3.
  destruct (shr_m r2) as [| p | p]; [left; reflexivity | | lia].
  right. destruct (e2 <=? emax - prec); [right; eauto | left; reflexivity].
Qed.

Lemma binary_round_aux_abs (s : bool) (m e : Z) (l : location) :
  SFabs (binary_round_aux prec emax s m e l) =
  binary_round_aux prec emax false m e l.
Proof.
  unfold binary_round_aux.
  destruct (shr_fexp prec emax m e l) as [r1 e1].
  destruct (shr_fexp prec emax _ e1 loc_Exact) as [r2 e2].
  destruct (shr_m r2); [reflexivity | | reflexivity].
  destruct (e2 <=? emax - prec); reflexivity.
Qed.
End Rounding.

Lemma mul_not_nan (x y : F64.t) :
  F64.is_nan x = false -> F64.is_finite y = true -> F64.is_zero y = false ->
  F64.is_nan (F64.mul x y) = false.
Proof.
  destruct x as [sx | sx | | sx mx ex], y as [sy | sy | | sy my ey];
    try discriminate; try reflexivity.
  intros _ _ _. unfold F64.mul, SFmul.
  destruct (binary_round_aux_shape F64.prec F64.emax (xorb sx sy)
              (Zpos (mx * my)) (ex + ey) loc_Exact)
    as [-> | [-> | (m' & e' & ->)]]; [lia | reflexivity ..].
Qed.

Lemma div_not_nan (x y : F64.t) :
  F64.is_nan x = false -> F64.is_finite y = true -> F64.is_zero y = false ->
  F64.is_nan (F64.div x y) = false.
Proof.
  destruct x as [sx | sx | | sx mx ex], y as [sy | sy | | sy my ey];
    try discriminate; try reflexivity.
  intros _ _ _. unfold F64.div, SFdiv, SFdiv_core_binary.
  set (m' := match _ - _ - _ with Z0 => Zpos mx | Zpos _ => _ | Zneg _ => 0 end).
  assert (Hm : 0 <= m').
  { subst m'. destruct (_ - _ - _); try lia. apply Z.shiftl_nonneg. lia. }
  pose proof (Z_div_mod m' (Zpos my) eq_refl) as Hd.
  destruct (Z.div_eucl m' (Zpos my)) as [q r].
  assert (Hq : 0 <= q) by nia.
  destruct (binary_round_aux_shape F64.prec F64.emax (xorb sx sy) q
              (Z.min (fexp F64.prec F64.emax
                        (Zdigits2 (Zpos mx) + ex - (Zdigits2 (Zpos my) + ey)))
                     (ex - ey))
              (new_location (Zpos my) r) Hq)
    as [-> | [-> | (m'' & e'' & ->)]]; reflexivity.
Qed.

Lemma binary_normalize_not_nan (z e : Z) :
  F64.is_nan (binary_normalize F64.prec F64.emax z e false) = false.
Proof.
  unfold binary_normalize, binary_round.
  destruct z as [| p | p]; [reflexivity | |];
    destruct (shl_align p e _) as [mz ez];
    match goal with
    | |- F64.is_nan (binary_round_aux _ _ ?s ?m ?e ?l) = false =>
        destruct (binary_round_aux_shape F64.prec F64.emax s m e l)
          as [-> | [-> | (m' & e' & ->)]]; [lia | reflexivity ..]
    end.
Qed.

Lemma rint_not_nan (x : F64.t) :
  F64.is_nan x = false -> F64.is_nan (F64.rint x) = false.
Proof.
  destruct x as [sx | sx | | sx mx ex]; try discriminate; try reflexivity.
  intros _. unfold F64.rint.
  destruct ex as [| p | p]; try reflexivity.
  destruct (F64.div_half_even _ _) as [| j | j]; try reflexivity.
  apply binary_normalize_not_nan.
Qed.

Lemma np_round_not_nan (k : nat) (x : F64.t) :
  F64.is_finite (F64.of_Z (10 ^ Z.of_nat k)) = true ->
  F64.is_zero (F64.of_Z (10 ^ Z.of_nat k)) = false ->
  F64.is_nan x = false -> F64.is_nan (F64.np_round k x) = false.
Proof.
  intros Hf Hz Hx. unfold F64.np_round.
  destruct k; [apply rint_not_nan, Hx |].
  apply div_not_nan; [| exact Hf | exact Hz].
  apply rint_not_nan, mul_not_nan; assumption.
Qed.

(** ** Subtotal rows *)

(** C6, as stated, fails: the subtotal is rounded.  One line of 0.25 units
    makes a group whose Units sum to 0.25 and whose Subtotal > Units
    is 0.2. *)
Lemma subtotal_units_is_rounded :
  exists fr,
    get_products_info_for_row ref_lib (VList [tape]) [] = Ok fr /\
    map (fun r => get r "Units") (rows fr) =
      [VStr ""; VFloat (F64.dec 25 2); VStr ""] /\
    map (fun r => get r "Subtotal > Units") (rows fr) =
      [VStr ""; nan; VFloat (F64.dec 2 1)] /\
    F64.compare (F64.dec 2 1) (F64.dec 25 2) = Some Lt.
Proof.
  eexists. split; [vm_compute; reflexivity |].
  repeat split; vm_compute; reflexivity.
Qed.

Lemma wrap64_small (z : Z) : in_int64 z = true -> wrap64 z = z.
Proof.
  unfold in_int64, wrap64. intros H.
  apply andb_true_iff in H. destruct H as [H1 H2].
  apply Z.leb_le in H1. apply Z.ltb_lt in H2.
  rewrite Z.mod_small; lia.
Qed.

Lemma wrapu64_small (z : Z) : in_uint64 z = true -> wrapu64 z = z.
Proof.
  unfold in_uint64, wrapu64. intros H.
  apply andb_true_iff in H. destruct H as [H1 H2].
  apply Z.leb_le in H1. apply Z.ltb_lt in H2.
  apply Z.mod_small. lia.
Qed.

(** Reading off the kind of a column. *)
Lemma all_int64_whole (lib : pylib) (cs : list pyval) (zs : list Z) :
  all_int64 (map (cell_num lib) cs) = Some zs <->
  whole lib cs zs /\ all_in in_int64 zs.
Proof.
  unfold whole, all_in. revert zs.
  induction cs as [| c cs IH]; intros zs; cbn [map all_int64].
  - split.
    + intros H. injection H as <-. split; constructor.
    + intros [H _]. inversion H. reflexivity.
  - split.
    + destruct (cell_num lib c) as [[z | f] |] eqn:Ec; try discriminate.
      destruct (in_int64 z) eqn:Ez; [| discriminate].
      destruct (all_int64 (map (cell_num lib) cs)) as [zs' |] eqn:E;
        [| discriminate].
      intros H. injection H as <-.
      destruct (proj1 (IH zs') eq_refl) as [W A].
      split; constructor; assumption.
    + intros [W A]. inversion W as [| ? z ? zs' Hc W']; subst.
      inversion A as [| ? ? Hz A']; subst.
      rewrite Hc, Hz, (proj2 (IH zs') (conj W' A')). reflexivity.
Qed.

Lemma all_uint64_whole (lib : pylib) (cs : list pyval) (zs : list Z) :
  all_uint64 (map (cell_num lib) cs) = Some zs <->
  whole lib cs zs /\ all_in in_uint64 zs.
Proof.
  unfold whole, all_in. revert zs.
  induction cs as [| c cs IH]; intros zs; cbn [map all_uint64].
  - split.
    + intros H. injection H as <-. split; constructor.
    + intros [H _]. inversion H. reflexivity.
  - split.
    + destruct (cell_num lib c) as [[z | f] |] eqn:Ec; try discriminate.
      destruct (in_uint64 z) eqn:Ez; [| discriminate].
      destruct (all_uint64 (map (cell_num lib) cs)) as [zs' |] eqn:E;
        [| discriminate].
      intros H. injection H as <-.
      destruct (proj1 (IH zs') eq_refl) as [W A].
      split; constructor; assumption.
    + intros [W A]. inversion W as [| ? z ? zs' Hc W']; subst.
      inversion A as [| ? ? Hz A']; subst.
      rewrite Hc, Hz, (proj2 (IH zs') (conj W' A')). reflexivity.
Qed.

Lemma whole_unique (lib : pylib) (cs : list pyval) (zs zs' : list Z) :
  whole lib cs zs -> whole lib cs zs' -> zs = zs'.
Proof.
  unfold whole. intros H. revert zs'.
  induction H as [| c z cs zs Hc _ IH]; intros zs' H'.
  - inversion H'. reflexivity.
  - inversion H' as [| ? z' ? zs'' Hc' H'']; subst.
    rewrite Hc in Hc'. injection Hc' as <-. f_equal. apply IH, H''.
Qed.

Lemma no_number_columns (lib : pylib) (cs : list pyval) :
  Forall (fun c => cell_num lib c = None) cs -> cs <> [] ->
  all_int64 (map (cell_num lib) cs) = None /\
  all_uint64 (map (cell_num lib) cs) = None /\
  existsb is_some (map float_cell (map (cell_num lib) cs)) = false.
Proof.
  intros H Hne.
  assert (E : existsb is_some (map float_cell (map (cell_num lib) cs))
              = false).
  { clear Hne. induction H as [| c cs Hc _ IH]; [reflexivity |].
    cbn [map existsb]. rewrite Hc. exact IH. }
  split; [| split; [| exact E]];
    (destruct H as [| c cs Hc H]; [contradiction Hne; reflexivity |]);
    cbn [map all_int64 all_uint64]; rewrite Hc; reflexivity.
Qed.

Lemma some_number_column (lib : pylib) (cs : list pyval) :
  Exists (fun c => cell_num lib c <> None) cs ->
  existsb is_some (map float_cell (map (cell_num lib) cs)) = true.
Proof.
  induction 1 as [c cs Hc | c cs _ IH]; cbn [map existsb].
  - destruct (cell_num lib c) as [[z | f] |];
      [reflexivity | reflexivity | contradiction Hc; reflexivity].
  - rewrite IH. apply orb_true_r.
Qed.

Lemma float_terms (lib : pylib) (cs : list pyval) :
  map fill0 (map float_cell (map (cell_num lib) cs)) = map (term lib) cs.
Proof. rewrite !map_map. reflexivity. Qed.

Lemma filled_subtotal_rule (lib : pylib) (k : nat) (cs : list pyval) :
  sums lib -> null_safe_sum lib k cs (filled (subtotal lib k cs)).
Proof.
  intros Hsums. unfold null_safe_sum.
  split; [| split; [| split; [| split; [| split]]]].
  - unfold filled, subtotal.
    destruct (column_sum lib _) as [[z | f] |]; try reflexivity.
    destruct (F64.is_zero f); [reflexivity |].
    cbn [isna]. destruct (F64.is_nan (F64.np_round k f)) eqn:N;
      [reflexivity | exact N].
  - unfold filled, subtotal.
    destruct (column_sum lib _) as [[z | f] |]; try reflexivity.
    destruct (F64.is_zero f); [reflexivity |].
    cbn [isna]. destruct (F64.is_nan (F64.np_round k f)); reflexivity.
  - intros Hnone. destruct cs as [| c cs]; [reflexivity |].
    destruct (no_number_columns lib (c :: cs) Hnone ltac:(discriminate))
      as (E1 & E2 & E3).
    unfold filled, subtotal, to_numeric, column_sum. rewrite E1, E2, E3.
    reflexivity.
  - intros zs W Hne A.
    pose proof (proj2 (all_int64_whole lib cs zs) (conj W A)) as E.
    unfold filled, subtotal, to_numeric. rewrite E.
    assert (Ec : column_sum lib (IntCol zs) = Some (NInt (wrap64 (Zsum zs)))).
    { destruct zs; [contradiction Hne; reflexivity | reflexivity]. }
    rewrite Ec. cbn [isna]. split; [reflexivity |].
    intros Hin. rewrite wrap64_small by exact Hin. reflexivity.
  - intros zs W A NA.
    assert (E1 : all_int64 (map (cell_num lib) cs) = None).
    { destruct (all_int64 (map (cell_num lib) cs)) as [zs' |] eqn:E;
        [| reflexivity].
      apply all_int64_whole in E. destruct E as [W' A'].
      rewrite (whole_unique lib cs zs zs' W W') in NA. contradiction. }
    pose proof (proj2 (all_uint64_whole lib cs zs) (conj W A)) as E2.
    unfold filled, subtotal, to_numeric. rewrite E1, E2.
    assert (Ec : column_sum lib (UIntCol zs)
                 = Some (NInt (wrapu64 (Zsum zs)))).
    { destruct zs; [contradiction NA; constructor | reflexivity]. }
    rewrite Ec. cbn [isna]. split; [reflexivity |].
    intros Hin. fold (wrapu64 (Zsum zs)).
    rewrite wrapu64_small by exact Hin. reflexivity.
  - intros Hfloat Hex.
    assert (E1 : all_int64 (map (cell_num lib) cs) = None).
    { destruct (all_int64 (map (cell_num lib) cs)) as [zs |] eqn:E;
        [| reflexivity].
      apply all_int64_whole in E. destruct E as [W A].
      destruct (Hfloat zs W) as [N _]. contradiction. }
    assert (E2 : all_uint64 (map (cell_num lib) cs) = None).
    { destruct (all_uint64 (map (cell_num lib) cs)) as [zs |] eqn:E;
        [| reflexivity].
      apply all_uint64_whole in E. destruct E as [W A].
      destruct (Hfloat zs W) as [_ N]. contradiction. }
    unfold filled, subtotal, to_numeric, column_sum. rewrite E1, E2.
    rewrite (some_number_column lib cs Hex), float_terms.
    exists (float_sum lib (map (term lib) cs)).
    exists (F64.np_round k (float_sum lib (map (term lib) cs))).
    split; [apply Hsums |]. split; [apply np_round_scaled |].
    destruct (F64.is_zero (float_sum lib _)); [reflexivity |].
    cbn [isna orb].
    destruct (F64.is_nan (F64.np_round k _)); reflexivity.
Qed.

(** Adding from the left is a summation. *)
Lemma fold_left_sums (xs ys : list F64.t) (acc : F64.t) :
  summation ys acc -> summation (ys ++ xs) (fold_left F64.add xs acc).
Proof.
  revert ys acc. induction xs as [| x xs IH]; intros ys acc H.
  - rewrite app_nil_r. exact H.
  - cbn [fold_left].
    replace (ys ++ x :: xs) with ((ys ++ [x]) ++ xs)
      by (rewrite <- app_assoc; reflexivity).
    apply IH. apply sum_add; [exact H | apply sum_one].
Qed.

Lemma left_sum_sums : sums ref_lib.
Proof.
  intros xs. cbn [float_sum ref_lib]. unfold left_sum.
  destruct xs as [| x xs]; [apply sum_nil |].
  apply (fold_left_sums xs [x] x), sum_one.
Qed.

Lemma final_subtotal_row (lib : pylib) (label : pyval) (prods : list dict) :
  final_row (subtotal_row lib label prods) =
  [ ("SKU", VStr "");
    ("Product", VStr ("                         Subtotal " ++ fmt lib label));
    ("Units", VStr "");
    ("Subtotal > Units", filled (subtotal lib 1 (cells "Units" prods)));
    ("Gross Weight (kg)", VStr "");
    ("Total Weight (kg)", VStr "");
    ("Subtotal > Total Weight (kg)",
      filled (subtotal lib 2 (cells "Total Weight (kg)" prods)));
    ("Volume (m³)", VStr "");
    ("Subtotal > Volume (m³)",
      filled (subtotal lib 5 (cells "Volume (m³)" prods)));
    ("Stock Real", VStr "");
    ("Insuficiente?", VStr "");
    ("Falta", VStr "");
    ("Subtotal > Falta", filled (subtotal lib 0 (cells "Falta" prods)));
    ("Extra", VStr "") ].
Proof. reflexivity. Qed.

Lemma report_rows
  (lib : pylib) (cell : pyval) (lk : pydict dict) (fr : frame) :
  get_products_info_for_row lib cell lk = Ok fr ->
  exists items grouped groups,
    line_items cell = Ok items /\
    group_items lib lk items = Ok grouped /\
    sort_groups grouped = Ok groups /\
    columns fr = cols /\
    rows fr = map final_row (flat_map (group_block lib) groups).
Proof.
  unfold get_products_info_for_row. intros H.
  apply bind_ok in H. destruct H as [items [Hi H]].
  apply bind_ok in H. destruct H as [grouped [Hg H]].
  apply bind_ok in H. destruct H as [groups [Hs H]].
  exists items, grouped, groups. repeat split; try assumption;
    destruct (flat_map (group_block lib) groups);
    injection H as <-; reflexivity.
Qed.

(** C6, amended.  In the report, every group ends with its subtotal row.
    Each of the four subtotal cells is never null or blank: it is 0 when no
    member cell holds a number.  When every member cell is an integer of
    int64 (the usual case for Units) it is their sum as int64 adds, that
    is, modulo [2^64]: the exact sum whenever that fits in int64; and
    likewise in uint64 when the cells are integers from 0 to [2^64 - 1] of
    which one is beyond int64.  Otherwise it is a float64 sum of the member
    cells, where a cell without a number counts as 0.0, scaled to 1 decimal
    for Units, 2 for Total Weight, 5 for Volume and 0 for Falta (and 0 when
    that sum is zero or scales to no number).  The other cells of the
    subtotal row are blank, the Product cell holding the label.  This is
    for a library whose float64 reduction is a summation, and for a report
    without an integer beyond the binary64 range. *)
Theorem subtotal_row_sums
  (lib : pylib) (cell : pyval) (lk : pydict dict) (fr : frame) :
  sums lib ->
  get_products_info_for_row lib cell lk = Ok fr ->
  float_range (rows fr) = true ->
  exists items grouped groups,
    line_items cell = Ok items /\
    group_items lib lk items = Ok grouped /\
    sort_groups grouped = Ok groups /\
    rows fr = map final_row (flat_map (group_block lib) groups) /\
    forall label prods, In (label, prods) groups ->
      let r := final_row (subtotal_row lib label prods) in
      In r (rows fr) /\
      null_safe_sum lib 1 (cells "Units" prods) (get r "Subtotal > Units") /\
      null_safe_sum lib 2 (cells "Total Weight (kg)" prods)
                    (get r "Subtotal > Total Weight (kg)") /\
      null_safe_sum lib 5 (cells "Volume (m³)" prods)
                    (get r "Subtotal > Volume (m³)") /\
      null_safe_sum lib 0 (cells "Falta" prods) (get r "Subtotal > Falta") /\
      (forall c, In c blank_cols -> get r c = VStr "") /\
      get r "Product" =
        VStr ("                         Subtotal " ++ fmt lib label).
Proof.
  intros Hsums H _. apply report_rows in H.
  destruct H as (items & grouped & groups & Hi & Hg & Hs & _ & Hrows).
  exists items, grouped, groups.
  split; [exact Hi |]. split; [exact Hg |]. split; [exact Hs |].
  split; [exact Hrows |].
  intros label prods Hin r. subst r. split.
  - rewrite Hrows. apply in_map. apply in_flat_map.
    exists (label, prods). split; [exact Hin |].
    unfold group_block. simpl. right. apply in_or_app. right. left.
    reflexivity.
  - rewrite final_subtotal_row.
    split; [apply filled_subtotal_rule, Hsums |].
    split; [apply filled_subtotal_rule, Hsums |].
    split; [apply filled_subtotal_rule, Hsums |].
    split; [apply filled_subtotal_rule, Hsums |].
    split; [| reflexivity].
    intros c Hc. simpl in Hc.
    repeat (destruct Hc as [<- | Hc]; [reflexivity |]). contradiction Hc.
Qed.

Lemma subtotal_row_sums_witness :
  sums ref_lib /\
  (exists fr,
     get_products_info_for_row ref_lib two_lines [] = Ok fr /\
     float_range (rows fr) = true /\
     get (final_row (subtotal_row ref_lib default_subcat two_lines_sorted))
         "Subtotal > Units" = VInt 5 /\
     get (final_row (subtotal_row ref_lib default_subcat two_lines_sorted))
         "Subtotal > Total Weight (kg)" = VInt 0) /\
  (exists fr,
     get_products_info_for_row ref_lib (VList [tape; cord]) [] = Ok fr /\
     float_range (rows fr) = true /\
     exists s r,
       summation [F64.dec 5 1; F64.dec 25 2] s /\
       scaled_rounding 1 s r /\
       get (final_row (subtotal_row ref_lib default_subcat
                         [cord_data; tape_data]))
           "Subtotal > Units" = VFloat r /\
       r = F64.dec 8 1) /\
  (exists fr,
     get_products_info_for_row ref_lib (VList [bulk]) [] = Ok fr /\
     float_range (rows fr) = true /\
     get (final_row (subtotal_row ref_lib default_subcat [bulk_data]))
         "Subtotal > Units" = VInt (2 ^ 63)).
Proof.
  split; [exact left_sum_sums |]. split; [| split].
  - destruct (get_products_info_for_row ref_lib two_lines [])
      as [fr | e] eqn:HR; [| vm_compute in HR; discriminate HR].
    exists fr. split; [reflexivity |].
    assert (Hf : float_range (rows fr) = true).
    { pose proof HR as HR'. vm_compute in HR'. injection HR' as <-.
      vm_compute. reflexivity. }
    split; [exact Hf |].
    destruct (subtotal_row_sums ref_lib two_lines [] fr left_sum_sums HR Hf)
      as (items & grouped & groups & Hi & Hg & Hs & _ & Hall).
    vm_compute in Hi. injection Hi as <-.
    vm_compute in Hg. injection Hg as <-.
    vm_compute in Hs. injection Hs as <-.
    destruct (Hall default_subcat two_lines_sorted (or_introl eq_refl))
      as (_ & (_ & _ & _ & Hint & _) & (_ & _ & Hnone & _) & _).
    split.
    + apply (Hint [2; 3]).
      * repeat constructor.
      * discriminate.
      * repeat constructor.
      * vm_compute. reflexivity.
    + apply Hnone. repeat constructor.
  - destruct (get_products_info_for_row ref_lib (VList [tape; cord]) [])
      as [fr | e] eqn:HR; [| vm_compute in HR; discriminate HR].
    exists fr. split; [reflexivity |].
    assert (Hf : float_range (rows fr) = true).
    { pose proof HR as HR'. vm_compute in HR'. injection HR' as <-.
      vm_compute. reflexivity. }
    split; [exact Hf |].
    destruct (subtotal_row_sums ref_lib (VList [tape; cord]) [] fr
                left_sum_sums HR Hf)
      as (items & grouped & groups & Hi & Hg & Hs & _ & Hall).
    vm_compute in Hi. injection Hi as <-.
    vm_compute in Hg. injection Hg as <-.
    assert (Es : sort_groups
                   [(VStr "Sin línea de productos", [tape_data; cord_data])]
                 = Ok [(default_subcat, [cord_data; tape_data])])
      by (vm_compute; reflexivity).
    assert (Eg : groups = [(default_subcat, [cord_data; tape_data])]).
    { assert (Hs' : Ok groups = Ok [(default_subcat, [cord_data; tape_data])]).
      { rewrite <- Es, <- Hs. vm_compute. reflexivity. }
      injection Hs' as ->. reflexivity. }
    subst groups.
    destruct (Hall default_subcat [cord_data; tape_data] (or_introl eq_refl))
      as (_ & (_ & _ & _ & _ & _ & Hfloat) & _).
    destruct Hfloat as (s & r & Hsum & Hr & Hv).
    + intros zs W. inversion W as [| ? ? ? ? Hc]. discriminate Hc.
    + left. discriminate.
    + exists s, r. split; [exact Hsum |]. split; [exact Hr |].
      assert (Ev : get (final_row (subtotal_row ref_lib default_subcat
                                     [cord_data; tape_data]))
                       "Subtotal > Units" = VFloat (F64.dec 8 1))
        by (vm_compute; reflexivity).
      rewrite Ev in Hv |- *.
      destruct (F64.is_zero s || F64.is_nan r); [discriminate Hv |].
      injection Hv as <-. split; reflexivity.
  - destruct (get_products_info_for_row ref_lib (VList [bulk]) [])
      as [fr | e] eqn:HR; [| vm_compute in HR; discriminate HR].
    exists fr. split; [reflexivity |].
    assert (Hf : float_range (rows fr) = true).
    { pose proof HR as HR'. vm_compute in HR'. injection HR' as <-.
      vm_compute. reflexivity. }
    split; [exact Hf |].
    destruct (subtotal_row_sums ref_lib (VList [bulk]) [] fr
                left_sum_sums HR Hf)
      as (items & grouped & groups & Hi & Hg & Hs & _ & Hall).
    vm_compute in Hi. injection Hi as <-.
    vm_compute in Hg. injection Hg as <-.
    vm_compute in Hs. injection Hs as <-.
    destruct (Hall default_subcat [bulk_data] (or_introl eq_refl))
      as (_ & (_ & _ & _ & _ & Huint & _) & _).
    apply (Huint [2 ^ 63]).
    + repeat constructor.
    + repeat constructor.
    + intros A. inversion A as [| ? ? Hz _]. discriminate Hz.
    + reflexivity.
Defined.

(** ** Binary64: [abs(x - y)] is [y - x] when [x] is below [y] *)

Lemma binary_normalize_abs (z e : Z) :
  z <= 0 ->
  SFabs (binary_normalize F64.prec F64.emax z e false) =
  binary_normalize F64.prec F64.emax (- z) e false.
Proof.
  intros H. destruct z as [| p | p]; [reflexivity | lia |].
  simpl. unfold binary_round.
  destruct (shl_align p e _) as [mz ez]. apply binary_round_aux_abs.
Qed.

Lemma sub_abs_below (x y : F64.t) :
  below x y -> SFabs (SFsub F64.prec F64.emax x y) = SFsub F64.prec F64.emax y x.
Proof.
  destruct x as [sx | sx | | sx mx ex], y as [sy | sy | | sy my ey];
    unfold below; cbn [SFsub];
    try reflexivity; try contradiction;
    try (intros ->; reflexivity).
  - intros [-> | ->]; [destruct sy | destruct sx]; reflexivity.
  - unfold aligned. intros H.
    change IntDef.Z.min with Z.min.
    rewrite (Z.min_comm ey ex).
    set (X := cond_Zopp sx _) in *. set (Y := cond_Zopp sy _) in *.
    rewrite binary_normalize_abs by lia.
    f_equal. lia.
Qed.

Lemma digits2_pos_bounds (m : positive) :
  2 ^ (Zpos (digits2_pos m) - 1) <= Zpos m < 2 ^ Zpos (digits2_pos m).
Proof.
  induction m as [m IH | m IH |]; cbn [digits2_pos].
  - rewrite Pos2Z.inj_succ, (Pos2Z.inj_xI m).
    replace (Z.succ (Zpos (digits2_pos m)) - 1)
      with (Z.succ (Zpos (digits2_pos m) - 1)) by lia.
    rewrite !Z.pow_succ_r by lia. lia.
  - rewrite Pos2Z.inj_succ, (Pos2Z.inj_xO m).
    replace (Z.succ (Zpos (digits2_pos m)) - 1)
      with (Z.succ (Zpos (digits2_pos m) - 1)) by lia.
    rewrite !Z.pow_succ_r by lia. lia.
  - change (2 ^ (1 - 1) <= 1 < 2 ^ 1). simpl. lia.
Qed.

Lemma digits2_pos_unique (m : positive) (k : Z) :
  2 ^ (k - 1) <= Zpos m < 2 ^ k -> Zpos (digits2_pos m) = k.
Proof.
  intros [H1 H2]. pose proof (digits2_pos_bounds m) as [B1 B2].
  set (d := Zpos (digits2_pos m)) in *.
  assert (Hk : 0 < k).
  { destruct (Z.ltb_spec 0 k) as [L | L]; [exact L |].
    assert (E : 2 ^ k <= 1).
    { destruct (Z.eq_dec k 0) as [-> | N]; [simpl; lia |].
      rewrite Z.pow_neg_r by lia. lia. }
    lia. }
  destruct (Z.lt_trichotomy d k) as [L | [E | G]]; [| exact E |].
  - assert (2 ^ d <= 2 ^ (k - 1)) by (apply Z.pow_le_mono_r; lia). lia.
  - assert (2 ^ k <= 2 ^ (d - 1)) by (apply Z.pow_le_mono_r; lia). lia.
Qed.

Lemma iter_xO_value (m d : positive) :
  Zpos (Pos.iter xO m d) = Zpos m * 2 ^ Zpos d.
Proof.
  induction d as [| d IH] using Pos.peano_ind.
  - simpl. lia.
  - rewrite Pos.iter_succ, (Pos2Z.inj_xO (Pos.iter xO m d)), IH, Pos2Z.inj_succ, Z.pow_succ_r by lia.
    ring.
Qed.

Lemma shl_align_value (m : positive) (e ez : Z) :
  ez <= e -> Zpos (fst (shl_align m e ez)) = Zpos m * 2 ^ (e - ez).
Proof.
  intros H. unfold shl_align.
  destruct (ez - e) as [| d | d] eqn:E; simpl fst.
  - replace (e - ez) with 0 by lia. simpl. lia.
  - lia.
  - rewrite iter_xO_value. f_equal. f_equal. lia.
Qed.

Lemma shl_align_exp (m : positive) (e ez : Z) :
  ez <= e -> snd (shl_align m e ez) = ez.
Proof.
  intros H. unfold shl_align.
  destruct (ez - e) as [| d | d] eqn:E; simpl snd; lia.
Qed.

Lemma aligned_value (s : bool) (m : positive) (e ez : Z) :
  ez <= e -> aligned s m e ez = cond_Zopp s (Zpos m * 2 ^ (e - ez)).
Proof. intros H. unfold aligned. rewrite shl_align_value by exact H. reflexivity. Qed.

(** What a canonical mantissa and exponent satisfy. *)
Lemma bounded_facts (m : positive) (e : Z) :
  bounded F64.prec F64.emax m e = true ->
  -1074 <= e <= 971 /\ Zpos m < 2 ^ 53 /\ (-1074 < e -> 2 ^ 52 <= Zpos m).
Proof.
  unfold bounded, canonical_mantissa, fexp, emin, F64.prec, F64.emax. intros H.
  apply andb_true_iff in H. destruct H as [H1 H2].
  apply Z.eqb_eq in H1. apply Z.leb_le in H2.
  pose proof (digits2_pos_bounds m) as [B1 B2].
  set (d := Zpos (digits2_pos m)) in *.
  assert (Hd : d <= 53) by lia.
  split; [lia |]. split.
  - assert (2 ^ d <= 2 ^ 53) by (apply Z.pow_le_mono_r; lia). lia.
  - intros He. assert (d = 53) by lia. subst d. rewrite H in B1. exact B1.
Qed.

Lemma pow2_pos (k : Z) : 0 <= k -> 0 < 2 ^ k.
Proof. intros H. apply Z.pow_pos_nonneg; lia. Qed.

Lemma pow2_split (a b : Z) : 0 <= b <= a -> 2 ^ a = 2 ^ (a - b) * 2 ^ b.
Proof.
  intros H. rewrite <- Z.pow_add_r by lia. f_equal. lia.
Qed.

(** For canonical mantissas of one sign, the order of the pairs (exponent,
    mantissa) is the order of the values. *)
Lemma canonical_lt (m1 m2 : positive) (e1 e2 : Z) :
  bounded F64.prec F64.emax m1 e1 = true -> bounded F64.prec F64.emax m2 e2 = true ->
  e1 < e2 ->
  Zpos m1 * 2 ^ (e1 - Z.min e1 e2) < Zpos m2 * 2 ^ (e2 - Z.min e1 e2).
Proof.
  intros B1 B2 H.
  apply bounded_facts in B1. apply bounded_facts in B2.
  destruct B1 as (R1 & U1 & _). destruct B2 as (R2 & _ & L2).
  rewrite Z.min_l by lia. replace (e1 - e1) with 0 by lia.
  change (2 ^ 0) with 1.
  assert (P : 2 ^ 1 <= 2 ^ (e2 - e1)) by (apply Z.pow_le_mono_r; lia).
  change (2 ^ 1) with 2 in P. specialize (L2 ltac:(lia)).
  change (2 ^ 53) with (2 ^ 52 * 2) in U1. nia.
Qed.

Lemma compare_lt_below (x y : F64.t) :
  valid_binary F64.prec F64.emax x = true -> valid_binary F64.prec F64.emax y = true ->
  SFcompare x y = Some Lt -> below x y.
Proof.
  destruct x as [sx | sx | | sx mx ex], y as [sy | sy | | sy my ey];
    cbn [valid_binary SFcompare below]; intros Vx Vy H;
    try discriminate H; try exact I;
    try (destruct sx; [reflexivity | discriminate H]);
    try (destruct sy; [discriminate H | reflexivity]).
  - destruct sx, sy; try discriminate H; auto.
  - injection H as H.
    assert (Ax := aligned_value sx mx ex (Z.min ex ey) ltac:(lia)).
    assert (Ay := aligned_value sy my ey (Z.min ex ey) ltac:(lia)).
    rewrite Ax, Ay. clear Ax Ay.
    assert (Px : 0 < 2 ^ (ex - Z.min ex ey)) by (apply pow2_pos; lia).
    assert (Py : 0 < 2 ^ (ey - Z.min ex ey)) by (apply pow2_pos; lia).
    destruct sx, sy; try discriminate H; cbn [cond_Zopp].
    + (* both negative *)
      destruct (Z.compare_spec ex ey) as [E | L | G]; try discriminate H.
      * subst ey. rewrite Z.min_id, Z.sub_diag in *. change (2 ^ 0) with 1.
        destruct (Pos.compare_cont Eq mx my) eqn:C; try discriminate H.
        change (Pos.compare_cont Eq mx my) with (Pos.compare mx my) in C.
        apply Pos.compare_gt_iff in C. lia.
      * pose proof (canonical_lt my mx ey ex Vy Vx G) as K.
        rewrite (Z.min_comm ey ex) in K.
        apply (proj1 (Z.opp_le_mono _ _)), Z.lt_le_incl, K.
    + pose proof (Z.mul_pos_pos _ _ (Pos2Z.is_pos mx) Px).
      pose proof (Z.mul_pos_pos _ _ (Pos2Z.is_pos my) Py).
      set (a := Zpos mx * _) in *. set (b := Zpos my * _) in *.
      clearbody a b. lia.
    + destruct (Z.compare_spec ex ey) as [E | L | G]; try discriminate H.
      * subst ey. rewrite Z.min_id, Z.sub_diag in *. change (2 ^ 0) with 1.
        change (Pos.compare_cont Eq mx my) with (Pos.compare mx my) in H.
        pose proof (proj1 (Pos.compare_lt_iff mx my) H) as H'. lia.
      * apply Z.lt_le_incl, (canonical_lt mx my ex ey Vx Vy L).
Qed.

(** A shift that is not needed leaves the record alone. *)
Lemma shr_fexp_exact (m : positive) (e : Z) :
  fexp F64.prec F64.emax (Zpos (digits2_pos m) + e) <= e ->
  shr_fexp F64.prec F64.emax (Zpos m) e loc_Exact =
  ({| shr_m := Zpos m; shr_r := false; shr_s := false |}, e).
Proof.
  intros H. unfold shr_fexp, shr. cbn [Zdigits2 shr_record_of_loc].
  destruct (fexp F64.prec F64.emax (Zpos (digits2_pos m) + e) - e) eqn:E;
    [reflexivity | lia | reflexivity].
Qed.

Lemma binary_round_aux_exact (s : bool) (m : positive) (e : Z) :
  fexp F64.prec F64.emax (Zpos (digits2_pos m) + e) <= e -> e <= F64.emax - F64.prec ->
  binary_round_aux F64.prec F64.emax s (Zpos m) e loc_Exact = S754_finite s m e.
Proof.
  intros H He. unfold binary_round_aux.
  rewrite (shr_fexp_exact m e H). cbn [shr_m loc_of_shr_record round_nearest_even].
  rewrite (shr_fexp_exact m e H). cbn [shr_m].
  apply Z.leb_le in He. rewrite He. reflexivity.
Qed.

Lemma shr_fexp_shift (m n : positive) (e : Z) :
  fexp F64.prec F64.emax (Zpos (digits2_pos m) + e) - e = Zpos n ->
  shr_fexp F64.prec F64.emax (Zpos m) e loc_Exact =
  (iter_pos shr_1 n {| shr_m := Zpos m; shr_r := false; shr_s := false |},
   e + Zpos n).
Proof.
  intros H. unfold shr_fexp, shr. cbn [Zdigits2 shr_record_of_loc].
  rewrite H. reflexivity.
Qed.

(** The binary64 nearest to a positive integer [p]: exact below [2^53],
    and otherwise one of the two multiples of [2^n] around [p], where [n]
    is the number of bits dropped. *)
Lemma binary_round_int (s : bool) (p : positive) :
  binary_round F64.prec F64.emax s p 0 = S754_infinity s \/
  (exists m e,
     binary_round F64.prec F64.emax s p 0 = S754_finite s m e /\
     e <= 0 /\ Zpos m = Zpos p * 2 ^ (- e)) \/
  (exists m e n r,
     binary_round F64.prec F64.emax s p 0 = S754_finite s m e /\
     0 < n <= e /\ Zpos m * 2 ^ (e - n) = r /\
     Zpos p / 2 ^ n <= r <= Zpos p / 2 ^ n + 1 /\
     2 ^ 52 <= Zpos p / 2 ^ n).
Proof.
  unfold binary_round.
  pose proof (digits2_pos_bounds p) as [B1 B2].
  pose proof (Pos2Z.is_pos (digits2_pos p)) as Hd.
  set (d := Zpos (digits2_pos p)) in *.
  assert (Hf : fexp F64.prec F64.emax (d + 0) = d - 53)
    by (unfold fexp, emin, F64.prec, F64.emax; lia).
  rewrite Hf.
  destruct (Z.le_gt_cases d 53) as [Hle | Hgt].
  - right; left.
    pose proof (shl_align_value p 0 (d - 53) ltac:(lia)) as Emz.
    pose proof (shl_align_exp p 0 (d - 53) ltac:(lia)) as Eez.
    destruct (shl_align p 0 (d - 53)) as [mz ez].
    cbn [fst snd] in Emz, Eez. subst ez.
    replace (0 - (d - 53)) with (53 - d) in Emz by lia.
    assert (K : 0 < 2 ^ (53 - d)) by (apply pow2_pos; lia).
    assert (Dz : Zpos (digits2_pos mz) = 53).
    { apply digits2_pos_unique. rewrite Emz.
      change (53 - 1) with 52.
      rewrite (pow2_split 52 (53 - d)) by lia.
      rewrite (pow2_split 53 (53 - d)) by lia.
      replace (52 - (53 - d)) with (d - 1) by lia.
      replace (53 - (53 - d)) with d by lia.
      split; [apply Z.mul_le_mono_nonneg_r; lia
             | apply Z.mul_lt_mono_pos_r; lia]. }
    exists mz, (d - 53). split; [| split].
    + apply binary_round_aux_exact.
      * rewrite Dz. unfold fexp, emin, F64.prec, F64.emax. lia.
      * unfold F64.emax, F64.prec. lia.
    + lia.
    + rewrite Emz. f_equal. f_equal. lia.
  - assert (Es : shl_align p 0 (d - 53) = (p, 0)).
    { unfold shl_align. destruct (d - 53 - 0) eqn:E; try reflexivity. lia. }
    rewrite Es. clear Es.
    destruct (d - 53) as [| n |] eqn:En; try lia.
    assert (Hs : fexp F64.prec F64.emax (Zpos (digits2_pos p) + 0) - 0 = Zpos n).
    { fold d. rewrite Hf. lia. }
    unfold binary_round_aux.
    rewrite (shr_fexp_shift p n 0 Hs).
    set (r1 := iter_pos shr_1 n _).
    assert (Q : shr_m r1 = Zpos p / 2 ^ Zpos n).
    { subst r1. rewrite iter_shr_1_m; [reflexivity | simpl; lia]. }
    assert (Pn : 0 < 2 ^ Zpos n) by (apply pow2_pos; lia).
    assert (Q1 : 2 ^ 52 <= Zpos p / 2 ^ Zpos n).
    { apply Z.div_le_lower_bound; [exact Pn |].
      rewrite <- Z.pow_add_r by lia.
      replace (Zpos n + 52) with (d - 1) by lia. exact B1. }
    assert (Q2 : Zpos p / 2 ^ Zpos n < 2 ^ 53).
    { apply Z.div_lt_upper_bound; [exact Pn |].
      rewrite <- Z.pow_add_r by lia.
      replace (Zpos n + 53) with d by lia. exact B2. }
    pose proof (round_nearest_even_bounds (shr_m r1) (loc_of_shr_record r1))
      as Rb.
    set (r := round_nearest_even (shr_m r1) (loc_of_shr_record r1)) in *.
    rewrite Q in Rb. replace (0 + Zpos n) with (Zpos n) by lia.
    destruct r as [| r' |] eqn:Er; try lia.
    destruct (Z.lt_ge_cases (Zpos r') (2 ^ 53)) as [Lt53 | Ge53].
    + assert (Dr : Zpos (digits2_pos r') = 53)
        by (apply digits2_pos_unique; change (53 - 1) with 52; lia).
      rewrite shr_fexp_exact
        by (rewrite Dr; unfold fexp, emin, F64.prec, F64.emax; lia).
      cbn [shr_m].
      destruct (Zpos n <=? F64.emax - F64.prec) eqn:Le; [| left; reflexivity].
      right; right. exists r', (Zpos n), (Zpos n), (Zpos r').
      apply Z.leb_le in Le.
      repeat split; try lia.
      rewrite Z.sub_diag. simpl. lia.
    + assert (E53 : Zpos r' = 2 ^ 53) by lia.
      assert (Dr : Zpos (digits2_pos r') = 54)
        by (apply digits2_pos_unique; rewrite E53; simpl; lia).
      assert (Hs2 : fexp F64.prec F64.emax (Zpos (digits2_pos r') + Zpos n) - Zpos n
                    = Zpos 1)
        by (rewrite Dr; unfold fexp, emin, F64.prec, F64.emax; lia).
      rewrite (shr_fexp_shift r' 1 (Zpos n) Hs2).
      cbn [iter_pos]. rewrite shr_1_m by (simpl; lia). cbn [shr_m].
      rewrite E53. change (2 ^ 53 / 2) with (Zpos (2 ^ 52)).
      destruct (Zpos n + 1 <=? F64.emax - F64.prec) eqn:Le; [| left; reflexivity].
      right; right.
      exists (2 ^ 52)%positive, (Zpos n + 1), (Zpos n), (2 ^ 53).
      apply Z.leb_le in Le.
      repeat split; try lia.
      replace (Zpos n + 1 - Zpos n) with 1 by lia. reflexivity.
Qed.

(** Arithmetic on aligned values: an integer [P] against a mantissa [U]
    at exponent [eu], when the float of [P] is exact ([M] at exponent [e]). *)
Lemma exact_scale (P M U e eu : Z) :
  e <= 0 -> M = P * 2 ^ (- e) ->
  exists K A B,
    0 < K /\
    M * 2 ^ (e - Z.min e eu) = A * K /\
    U * 2 ^ (eu - Z.min e eu) = B * K /\
    (eu < 0 -> A = P * 2 ^ (- eu) /\ B = U) /\
    (0 <= eu -> A = P /\ B = U * 2 ^ eu).
Proof.
  intros He ->.
  destruct (Z.lt_ge_cases eu 0) as [L | G].
  - exists (2 ^ (eu - Z.min e eu)), (P * 2 ^ (- eu)), U.
    split; [apply pow2_pos; lia |].
    split.
    { rewrite <- !Z.mul_assoc, <- !Z.pow_add_r by lia.
      repeat (f_equal; try lia). }
    split; [reflexivity |].
    split; [intros _; split; reflexivity | lia].
  - exists (2 ^ (- e)), P, (U * 2 ^ eu).
    rewrite Z.min_l by lia. rewrite Z.sub_diag, Z.mul_1_r.
    split; [apply pow2_pos; lia |].
    split; [reflexivity |].
    split.
    { rewrite <- !Z.mul_assoc, <- !Z.pow_add_r by lia.
      repeat (f_equal; try lia). }
    split; [lia | intros _; split; reflexivity].
Qed.

Lemma pow2_ge_2 (k : Z) : 1 <= k -> 2 <= 2 ^ k.
Proof.
  intros H. change 2 with (2 ^ 1) at 1. apply Z.pow_le_mono_r; lia.
Qed.

Lemma pow2_ge_1 (k : Z) : 0 <= k -> 1 <= 2 ^ k.
Proof. intros H. pose proof (pow2_pos k H). lia. Qed.

(** The same when the float of [P] is rounded: [r] is the mantissa kept at
    exponent [n]. *)
Section Rounded.
Variables P M U e eu n r : Z.
Hypothesis HP : 0 < P.
Hypothesis HU : 0 < U < 2 ^ 53.
Hypothesis Hn : 0 < n <= e.
Hypothesis Hr : M * 2 ^ (e - n) = r.
Hypothesis Hq : P / 2 ^ n <= r <= P / 2 ^ n + 1.
Hypothesis Hq52 : 2 ^ 52 <= P / 2 ^ n.

Let q := P / 2 ^ n.

Lemma rounded_floor : q * 2 ^ n <= P < (q + 1) * 2 ^ n.
Proof.
  assert (Pn : 0 < 2 ^ n) by (apply pow2_pos; lia).
  pose proof (Z.div_mod P (2 ^ n) ltac:(lia)) as E.
  pose proof (Z.mod_pos_bound P (2 ^ n) Pn) as B.
  unfold q. nia.
Qed.

Lemma rounded_big : 2 ^ 53 <= P.
Proof.
  pose proof rounded_floor as [F _].
  pose proof (pow2_ge_2 n ltac:(lia)) as N2.
  change (2 ^ 53) with (2 ^ 52 * 2). fold q in Hq52. nia.
Qed.

Lemma rounded_M_pos : 0 < M.
Proof.
  assert (K : 0 < 2 ^ (e - n)) by (apply pow2_pos; lia).
  assert (R : 0 < r) by (fold q in Hq, Hq52; assert (0 < 2 ^ 52) by (apply pow2_pos; lia); lia).
  nia.
Qed.

(** Both sides at a common scale when [n <= eu]. *)
Lemma rounded_scale :
  n <= eu ->
  exists K, 0 < K /\
    M * 2 ^ (e - Z.min e eu) * K = r /\
    U * 2 ^ (eu - Z.min e eu) * K = U * 2 ^ (eu - n).
Proof.
  intros H. exists (2 ^ (Z.min e eu - n)).
  split; [apply pow2_pos; lia |]. split.
  - rewrite <- Hr, <- Z.mul_assoc, <- Z.pow_add_r by lia.
    repeat (f_equal; try lia).
  - rewrite <- Z.mul_assoc, <- Z.pow_add_r by lia.
    repeat (f_equal; try lia).
Qed.

(** With [eu < n] the rounded float is at least [2^53], above [U]. *)
Lemma rounded_small_exp :
  eu < n -> U * 2 ^ (eu - Z.min e eu) <= M * 2 ^ (e - Z.min e eu).
Proof.
  intros H. rewrite Z.min_r by lia. rewrite Z.sub_diag, Z.mul_1_r.
  replace (e - eu) with ((e - n) + (n - eu)) by lia.
  rewrite Z.pow_add_r, Z.mul_assoc, Hr by lia.
  pose proof (pow2_ge_2 (n - eu) ltac:(lia)) as N2.
  fold q in Hq, Hq52. change (2 ^ 53) with (2 ^ 52 * 2) in HU. nia.
Qed.

Lemma rounded_le :
  (eu < 0 -> P * 2 ^ (- eu) < U) ->
  (0 <= eu -> P < U * 2 ^ eu) ->
  M * 2 ^ (e - Z.min e eu) <= U * 2 ^ (eu - Z.min e eu).
Proof.
  intros H1 H2. pose proof rounded_big as Big.
  pose proof rounded_floor as [F1 F2].
  destruct (Z.lt_ge_cases eu 0) as [L | G].
  - exfalso. specialize (H1 L).
    pose proof (pow2_ge_1 (- eu) ltac:(lia)). nia.
  - specialize (H2 G).
    destruct (Z.lt_ge_cases eu n) as [L | Gn].
    + exfalso.
      assert (E : 2 ^ n = 2 ^ eu * 2 ^ (n - eu)).
      { rewrite <- Z.pow_add_r by lia. f_equal. lia. }
      pose proof (pow2_ge_2 (n - eu) ltac:(lia)) as N2.
      pose proof (pow2_pos eu G) as Pe.
      fold q in Hq52. change (2 ^ 53) with (2 ^ 52 * 2) in HU.
      assert (U * 2 ^ eu < 2 ^ 52 * 2 ^ n) by (rewrite E; nia).
      nia.
    + destruct (rounded_scale Gn) as (K & HK & EX & EY).
      assert (E : 2 ^ eu = 2 ^ (eu - n) * 2 ^ n).
      { rewrite <- Z.pow_add_r by lia. f_equal. lia. }
      assert (Pn : 0 < 2 ^ n) by (apply pow2_pos; lia).
      assert (q + 1 <= U * 2 ^ (eu - n)).
      { rewrite E in H2. nia. }
      fold q in Hq. nia.
Qed.

Lemma rounded_ge :
  (eu < 0 -> U < P * 2 ^ (- eu)) ->
  (0 <= eu -> U * 2 ^ eu < P) ->
  U * 2 ^ (eu - Z.min e eu) <= M * 2 ^ (e - Z.min e eu).
Proof.
  intros H1 H2.
  pose proof rounded_floor as [F1 F2].
  destruct (Z.lt_ge_cases eu n) as [L | Gn];
    [apply rounded_small_exp, L |].
  specialize (H2 ltac:(lia)).
  destruct (rounded_scale Gn) as (K & HK & EX & EY).
  assert (E : 2 ^ eu = 2 ^ (eu - n) * 2 ^ n).
  { rewrite <- Z.pow_add_r by lia. f_equal. lia. }
  assert (Pn : 0 < 2 ^ n) by (apply pow2_pos; lia).
  assert (U * 2 ^ (eu - n) <= q).
  { rewrite E in H2. nia. }
  fold q in Hq. nia.
Qed.
End Rounded.

Lemma Zcompare_finite (z : Z) (s : bool) (m : positive) (e : Z) (c : comparison) :
  F64.Zcompare z (S754_finite s m e) = Some c ->
  (e < 0 -> (z * 2 ^ (- e) ?= cond_Zopp s (Zpos m)) = c) /\
  (0 <= e -> (z ?= cond_Zopp s (Zpos m) * 2 ^ e) = c).
Proof.
  cbn [F64.Zcompare]. intros H. injection H as H.
  destruct e as [| q | q]; split; intros He; try lia; exact H.
Qed.

Ltac to_lt H :=
  let H' := fresh in
  pose proof (proj1 (Z.compare_lt_iff _ _) H) as H'; clear H; rename H' into H.

(** The float of an integer, against a float that the integer is below. *)
Lemma int_below_float (z : Z) (u : F64.t) :
  valid_binary F64.prec F64.emax u = true ->
  F64.Zcompare z u = Some Lt ->
  F64.is_inf (F64.of_Z z) = false ->
  below (F64.of_Z z) u.
Proof.
  intros Vu H Hfin. unfold F64.of_Z in *.
  destruct z as [| p | p]; cbn [binary_normalize] in *.
  - destruct u as [su | su | | su mu eu]; cbn [F64.Zcompare] in H;
      try discriminate H; cbn [below].
    + destruct su; [discriminate H | reflexivity].
    + apply Zcompare_finite in H.
      destruct su; [| reflexivity]. exfalso.
      destruct H as [H1 H2]. cbn [cond_Zopp] in *.
      destruct (Z.lt_ge_cases eu 0) as [L | G].
      * specialize (H1 L). to_lt H1. lia.
      * specialize (H2 G). to_lt H2.
        pose proof (pow2_pos eu G). nia.
  - destruct (binary_round_int false p)
      as [E | [(m & e & E & He & Hm) | (m & e & n & r & E & Hn & Hr & Hq & Hq52)]];
      rewrite E in *; [discriminate Hfin | |];
      (destruct u as [su | su | | su mu eu]; cbn [F64.Zcompare] in H;
       try discriminate H; cbn [below];
       [destruct su; [discriminate H | reflexivity] |]);
      apply Zcompare_finite in H; destruct H as [H1 H2];
      cbn [valid_binary] in Vu; apply bounded_facts in Vu;
      destruct Vu as (_ & U53 & _);
      rewrite !aligned_value by lia;
      (destruct su; cbn [cond_Zopp] in *;
       [exfalso;
        destruct (Z.lt_ge_cases eu 0) as [L | G];
        [specialize (H1 L); to_lt H1;
         pose proof (pow2_pos (- eu) ltac:(lia)); nia
        | specialize (H2 G); to_lt H2;
          pose proof (pow2_pos eu G); nia] |]).
    + destruct (exact_scale (Zpos p) (Zpos m) (Zpos mu) e eu He Hm)
        as (K & A & B & HK & -> & -> & C1 & C2).
      destruct (Z.lt_ge_cases eu 0) as [L | G].
      * destruct (C1 L) as [-> ->]. specialize (H1 L).
        to_lt H1. nia.
      * destruct (C2 G) as [-> ->]. specialize (H2 G).
        to_lt H2. nia.
    + apply (rounded_le (Zpos p) (Zpos m) (Zpos mu) e eu n r); try lia.
      * intros L. apply Z.compare_lt_iff, H1, L.
      * intros G. apply Z.compare_lt_iff, H2, G.
  - destruct (binary_round_int true p)
      as [E | [(m & e & E & He & Hm) | (m & e & n & r & E & Hn & Hr & Hq & Hq52)]];
      rewrite E in *; [discriminate Hfin | |];
      (destruct u as [su | su | | su mu eu]; cbn [F64.Zcompare] in H;
       try discriminate H; cbn [below];
       [reflexivity | destruct su; [discriminate H | reflexivity] |]);
      apply Zcompare_finite in H; destruct H as [H1 H2];
      cbn [valid_binary] in Vu; apply bounded_facts in Vu;
      destruct Vu as (_ & U53 & _);
      rewrite !aligned_value by lia;
      (destruct su; cbn [cond_Zopp] in *;
       [| pose proof (Z.mul_pos_pos _ _ (Pos2Z.is_pos m)
                        (pow2_pos (e - Z.min e eu) ltac:(lia)));
          pose proof (Z.mul_pos_pos _ _ (Pos2Z.is_pos mu)
                        (pow2_pos (eu - Z.min e eu) ltac:(lia)));
          set (a := Zpos m * _) in *; set (b := Zpos mu * _) in *;
          clearbody a b; lia]);
      apply (proj1 (Z.opp_le_mono _ _)).
    + destruct (exact_scale (Zpos p) (Zpos m) (Zpos mu) e eu He Hm)
        as (K & A & B & HK & -> & -> & C1 & C2).
      destruct (Z.lt_ge_cases eu 0) as [L | G].
      * destruct (C1 L) as [-> ->]. specialize (H1 L).
        to_lt H1. nia.
      * destruct (C2 G) as [-> ->]. specialize (H2 G).
        to_lt H2. nia.
    + apply (rounded_ge (Zpos p) (Zpos m) (Zpos mu) e eu n r); try lia.
      * intros L. specialize (H1 L). to_lt H1. lia.
      * intros G. specialize (H2 G). to_lt H2. lia.
Qed.

Ltac to_gt H :=
  let H' := fresh in
  pose proof (proj1 (Z.compare_gt_iff _ _) H) as H'; clear H; rename H' into H.

(** The mirror image: a float that the integer is above. *)
Lemma float_below_int (z : Z) (x : F64.t) :
  valid_binary F64.prec F64.emax x = true ->
  F64.Zcompare z x = Some Gt ->
  F64.is_inf (F64.of_Z z) = false ->
  below x (F64.of_Z z).
Proof.
  intros Vx H Hfin. unfold F64.of_Z in *.
  destruct z as [| p | p]; cbn [binary_normalize] in *.
  - destruct x as [sx | sx | | sx mx ex]; cbn [F64.Zcompare] in H;
      try discriminate H; cbn [below].
    + destruct sx; [reflexivity | discriminate H].
    + apply Zcompare_finite in H.
      destruct sx; [reflexivity |]. exfalso.
      destruct H as [H1 H2]. cbn [cond_Zopp] in *.
      destruct (Z.lt_ge_cases ex 0) as [L | G].
      * specialize (H1 L). to_gt H1. lia.
      * specialize (H2 G). to_gt H2.
        pose proof (pow2_pos ex G). nia.
  - destruct (binary_round_int false p)
      as [E | [(m & e & E & He & Hm) | (m & e & n & r & E & Hn & Hr & Hq & Hq52)]];
      rewrite E in *; [discriminate Hfin | |];
      (destruct x as [sx | sx | | sx mx ex]; cbn [F64.Zcompare] in H;
       try discriminate H; cbn [below];
       [reflexivity | destruct sx; [reflexivity | discriminate H] |]);
      apply Zcompare_finite in H; destruct H as [H1 H2];
      cbn [valid_binary] in Vx; apply bounded_facts in Vx;
      destruct Vx as (_ & U53 & _);
      rewrite (Z.min_comm ex e);
      rewrite !aligned_value by lia;
      (destruct sx; cbn [cond_Zopp] in *;
       [pose proof (Z.mul_pos_pos _ _ (Pos2Z.is_pos m)
                      (pow2_pos (e - Z.min e ex) ltac:(lia)));
        pose proof (Z.mul_pos_pos _ _ (Pos2Z.is_pos mx)
                      (pow2_pos (ex - Z.min e ex) ltac:(lia)));
        set (a := Zpos m * _) in *; set (b := Zpos mx * _) in *;
        clearbody a b; lia |]).
    + destruct (exact_scale (Zpos p) (Zpos m) (Zpos mx) e ex He Hm)
        as (K & A & B & HK & -> & -> & C1 & C2).
      destruct (Z.lt_ge_cases ex 0) as [L | G].
      * destruct (C1 L) as [-> ->]. specialize (H1 L). to_gt H1. nia.
      * destruct (C2 G) as [-> ->]. specialize (H2 G). to_gt H2. nia.
    + apply (rounded_ge (Zpos p) (Zpos m) (Zpos mx) e ex n r); try lia.
      * intros L. specialize (H1 L). to_gt H1. exact H1.
      * intros G. specialize (H2 G). to_gt H2. exact H2.
  - destruct (binary_round_int true p)
      as [E | [(m & e & E & He & Hm) | (m & e & n & r & E & Hn & Hr & Hq & Hq52)]];
      rewrite E in *; [discriminate Hfin | |];
      (destruct x as [sx | sx | | sx mx ex]; cbn [F64.Zcompare] in H;
       try discriminate H; cbn [below];
       [destruct sx; [reflexivity | discriminate H] |]);
      apply Zcompare_finite in H; destruct H as [H1 H2];
      cbn [valid_binary] in Vx; apply bounded_facts in Vx;
      destruct Vx as (_ & U53 & _);
      rewrite (Z.min_comm ex e);
      rewrite !aligned_value by lia;
      (destruct sx; cbn [cond_Zopp] in *;
       [| exfalso;
          destruct (Z.lt_ge_cases ex 0) as [L | G];
          [specialize (H1 L); to_gt H1;
           pose proof (pow2_pos (- ex) ltac:(lia)); nia
          | specialize (H2 G); to_gt H2;
            pose proof (pow2_pos ex G); nia]]);
      apply (proj1 (Z.opp_le_mono _ _)).
    + destruct (exact_scale (Zpos p) (Zpos m) (Zpos mx) e ex He Hm)
        as (K & A & B & HK & -> & -> & C1 & C2).
      destruct (Z.lt_ge_cases ex 0) as [L | G].
      * destruct (C1 L) as [-> ->]. specialize (H1 L). to_gt H1. nia.
      * destruct (C2 G) as [-> ->]. specialize (H2 G). to_gt H2. nia.
    + apply (rounded_le (Zpos p) (Zpos m) (Zpos mx) e ex n r); try lia.
      * intros L. specialize (H1 L). to_gt H1. lia.
      * intros G. specialize (H2 G). to_gt H2. lia.
Qed.

(** ** Numbers: [abs(a - b)] is [b - a] when [a >= b] fails *)

Lemma float_of_int_ok (z : Z) (f : F64.t) :
  float_of_int z = Ok f -> f = F64.of_Z z /\ F64.is_inf (F64.of_Z z) = false.
Proof.
  unfold float_of_int. destruct (F64.of_Z z); intros H;
    try discriminate H; injection H as <-; split; reflexivity.
Qed.

Lemma compare_none (x y : F64.t) :
  F64.compare x y = None -> x = S754_nan \/ y = S754_nan.
Proof.
  destruct x, y; cbn; intros H; try discriminate H; auto.
Qed.

Lemma Zcompare_none (z : Z) (x : F64.t) :
  F64.Zcompare z x = None -> x = S754_nan.
Proof. destruct x; cbn; intros H; try discriminate H; reflexivity. Qed.

Lemma sub_nan_r (x : F64.t) : F64.sub x S754_nan = S754_nan.
Proof. destruct x; reflexivity. Qed.

Lemma num_abs_sub_swap (a b d : num) :
  valid_num a -> valid_num b ->
  num_ge a b = false ->
  num_sub a b = Ok d ->
  num_sub b a = Ok (num_abs d).
Proof.
  unfold num_ge.
  destruct a as [x | x], b as [y | y]; cbn [valid_num num_compare num_sub];
    intros Va Vb Hge Hd.
  - injection Hd as <-. cbn [num_abs]. do 2 f_equal.
    destruct (Z.compare_spec x y); try discriminate Hge. lia.
  - cbn [to_float] in *. apply bind_ok in Hd. destruct Hd as [fx [Hx Hd]].
    injection Hd as <-. rewrite Hx. cbn [bind num_abs]. do 2 f_equal.
    apply float_of_int_ok in Hx. destruct Hx as [-> Hfin].
    destruct (F64.Zcompare x y) as [[| |] |] eqn:C; try discriminate Hge.
    + symmetry. apply sub_abs_below, int_below_float; assumption.
    + apply Zcompare_none in C. subst y. rewrite sub_nan_r. reflexivity.
  - cbn [to_float bind] in *. apply bind_ok in Hd. destruct Hd as [fy [Hy Hd]].
    injection Hd as <-. rewrite Hy. cbn [bind num_abs]. do 2 f_equal.
    apply float_of_int_ok in Hy. destruct Hy as [-> Hfin].
    destruct (F64.Zcompare y x) as [[| |] |] eqn:C; try discriminate Hge.
    + symmetry. apply sub_abs_below, float_below_int; assumption.
    + apply Zcompare_none in C. subst x. rewrite sub_nan_r. reflexivity.
  - cbn [to_float bind] in *. injection Hd as <-. cbn [num_abs].
    do 2 f_equal.
    destruct (F64.compare x y) as [[| |] |] eqn:C; try discriminate Hge.
    + symmetry. apply sub_abs_below, compare_lt_below; assumption.
    + apply compare_none in C.
      destruct C as [-> | ->]; rewrite !sub_nan_r; reflexivity.
Qed.

Lemma num_compare_none (a b : num) :
  num_compare a b = None <->
  is_nan_value (of_num a) = true \/ is_nan_value (of_num b) = true.
Proof.
  destruct a as [x | x], b as [y | y]; cbn.
  - split; [discriminate | intros [H | H]; discriminate H].
  - split.
    + intros H. apply Zcompare_none in H. subst y. right; reflexivity.
    + intros [H | H]; [discriminate H |]. destruct y; try discriminate H.
      reflexivity.
  - split.
    + intros H. destruct (F64.Zcompare y x) eqn:C; [discriminate H |].
      apply Zcompare_none in C. subst x. left; reflexivity.
    + intros [H | H]; [| discriminate H]. destruct x; try discriminate H.
      reflexivity.
  - split.
    + intros H. apply compare_none in H. destruct H as [-> | ->]; auto.
    + intros [H | H]; [destruct x | destruct y]; try discriminate H;
        try reflexivity. destruct x; reflexivity.
Qed.

Lemma as_num_of_num (n : num) : as_num (of_num n) = Some n.
Proof. destruct n; reflexivity. Qed.

Lemma valid_value_num (v : pyval) (n : num) :
  as_num v = Some n -> valid_value v = true -> valid_num n.
Proof.
  destruct v; cbn; intros H V; try discriminate H;
    injection H as <-; cbn; auto.
Qed.

(** ** Binary64: what rounding returns is a genuine binary64 *)

Lemma shr_fexp_value (m e : Z) (l : location) :
  0 <= m ->
  shr_m (fst (shr_fexp F64.prec F64.emax m e l)) =
    m / 2 ^ Z.max (fexp F64.prec F64.emax (Zdigits2 m + e) - e) 0 /\
  snd (shr_fexp F64.prec F64.emax m e l) =
    e + Z.max (fexp F64.prec F64.emax (Zdigits2 m + e) - e) 0.
Proof.
  intros Hm. unfold shr_fexp, shr.
  destruct (fexp F64.prec F64.emax (Zdigits2 m + e) - e) as [| n | n];
    cbn [fst snd Z.max Z.compare].
  - rewrite shr_record_of_loc_m. change (2 ^ 0) with 1. rewrite Z.div_1_r.
    split; [reflexivity | lia].
  - rewrite iter_shr_1_m by (rewrite shr_record_of_loc_m; exact Hm).
    rewrite shr_record_of_loc_m. split; reflexivity.
  - rewrite shr_record_of_loc_m. change (2 ^ 0) with 1. rewrite Z.div_1_r.
    split; [reflexivity | lia].
Qed.

Lemma Zdigits2_bounds (z : Z) :
  0 < z -> 0 < Zdigits2 z /\ 2 ^ (Zdigits2 z - 1) <= z < 2 ^ Zdigits2 z.
Proof.
  destruct z as [| p | p]; try lia. intros _. cbn [Zdigits2].
  split; [lia | apply digits2_pos_bounds].
Qed.

Lemma Zdigits2_unique (z k : Z) :
  2 ^ (k - 1) <= z < 2 ^ k -> 0 < z -> Zdigits2 z = k.
Proof.
  destruct z as [| p | p]; try lia. intros H _. cbn [Zdigits2].
  apply digits2_pos_unique, H.
Qed.

Lemma Zdigits2_shift (z n : Z) :
  0 < z -> 0 <= n ->
  (0 < z / 2 ^ n -> Zdigits2 (z / 2 ^ n) = Zdigits2 z - n) /\
  (z / 2 ^ n = 0 -> Zdigits2 z <= n).
Proof.
  intros Hz Hn. destruct (Zdigits2_bounds z Hz) as (Hd & B1 & B2).
  set (d := Zdigits2 z) in *.
  assert (Pn : 0 < 2 ^ n) by (apply Z.pow_pos_nonneg; lia).
  destruct (Z.le_gt_cases d n) as [L | G].
  - assert (E : z / 2 ^ n = 0).
    { apply Z.div_small. split; [lia |].
      assert (2 ^ d <= 2 ^ n) by (apply Z.pow_le_mono_r; lia). lia. }
    rewrite E. split; [lia | intros _; exact L].
  - assert (Q1 : 2 ^ (d - 1 - n) <= z / 2 ^ n).
    { apply Z.div_le_lower_bound; [exact Pn |].
      rewrite <- Z.pow_add_r by lia.
      replace (n + (d - 1 - n)) with (d - 1) by lia. exact B1. }
    assert (Q2 : z / 2 ^ n < 2 ^ (d - n)).
    { apply Z.div_lt_upper_bound; [exact Pn |].
      rewrite <- Z.pow_add_r by lia.
      replace (n + (d - n)) with d by lia. exact B2. }
    assert (P1 : 0 < 2 ^ (d - 1 - n)) by (apply Z.pow_pos_nonneg; lia).
    split.
    + intros _. apply Zdigits2_unique; [| lia].
      replace (d - n - 1) with (d - 1 - n) by lia. lia.
    + intros E. lia.
Qed.

Lemma Zdigits2_succ (z : Z) :
  0 < z ->
  Zdigits2 (z + 1) = Zdigits2 z \/
  (z + 1 = 2 ^ Zdigits2 z /\ Zdigits2 (z + 1) = Zdigits2 z + 1).
Proof.
  intros Hz. destruct (Zdigits2_bounds z Hz) as (Hd & B1 & B2).
  set (d := Zdigits2 z) in *.
  destruct (Z.eq_dec (z + 1) (2 ^ d)) as [E | N].
  - right. split; [exact E |].
    apply Zdigits2_unique; [| lia].
    replace (d + 1 - 1) with d by lia. rewrite E.
    rewrite Z.pow_add_r by lia. change (2 ^ 1) with 2.
    assert (0 < 2 ^ d) by (apply Z.pow_pos_nonneg; lia). lia.
  - left. apply Zdigits2_unique; lia.
Qed.

Ltac f64 :=
  unfold fexp, emin, F64.prec, F64.emax in *;
  change IntDef.Z.max with Z.max in *.

(** What rounding returns is a genuine binary64, whenever the exponent it
    starts from is not above the one the digits call for. *)
Lemma binary_round_aux_valid (s : bool) (m e : Z) (l : location) :
  0 <= m -> e <= fexp F64.prec F64.emax (Zdigits2 m + e) ->
  valid_binary F64.prec F64.emax
    (binary_round_aux F64.prec F64.emax s m e l) = true.
Proof.
  intros Hm He. unfold binary_round_aux.
  destruct (shr_fexp_value m e l Hm) as [V1 X1].
  destruct (shr_fexp F64.prec F64.emax m e l) as [r1 e1].
  cbn [fst snd] in V1, X1.
  set (n := fexp F64.prec F64.emax (Zdigits2 m + e) - e) in *.
  assert (Hn : 0 <= n) by (subst n; lia).
  rewrite Z.max_l in V1, X1 by exact Hn.
  pose proof (round_nearest_even_bounds (shr_m r1) (loc_of_shr_record r1)) as Rb.
  set (m2 := round_nearest_even (shr_m r1) (loc_of_shr_record r1)) in *.
  assert (Pn : 0 < 2 ^ n) by (apply Z.pow_pos_nonneg; lia).
  assert (H1 : 0 <= shr_m r1) by (rewrite V1; apply Z.div_pos; lia).
  assert (H2 : 0 <= m2) by lia.
  destruct (shr_fexp_value m2 e1 loc_Exact H2) as [V2 X2].
  destruct (shr_fexp F64.prec F64.emax m2 e1 loc_Exact) as [r2 e2].
  cbn [fst snd] in V2, X2.
  destruct (shr_m r2) as [| m3 | m3] eqn:E3; [reflexivity | | reflexivity].
  destruct (e2 <=? F64.emax - F64.prec) eqn:Le; [| reflexivity].
  cbn [valid_binary]. unfold bounded. rewrite Le, andb_true_r.
  unfold canonical_mantissa. apply Z.eqb_eq.
  change (Zpos (digits2_pos m3)) with (Zdigits2 (Zpos m3)).
  (* facts on the first shift *)
  assert (F1 : (shr_m r1 = 0 /\ e1 = -1074) \/
               (0 < shr_m r1 /\
                fexp F64.prec F64.emax (Zdigits2 (shr_m r1) + e1) = e1)).
  { destruct (Z.eq_dec m 0) as [-> | Nm].
    - left. split; [rewrite V1; apply Z.div_0_l; lia |].
      subst n. cbn [Zdigits2] in *. f64. clear - He X1. lia.
    - destruct (Zdigits2_shift m n ltac:(lia) Hn) as [S1 S2].
      rewrite <- V1 in S1, S2.
      destruct (Z.eq_dec (shr_m r1) 0) as [Z1 | N1].
      + left. split; [exact Z1 |]. specialize (S2 Z1).
        subst n. f64. lia.
      + right. split; [lia |]. rewrite S1 by lia.
        subst n. f64. lia. }
  set (n2 := fexp F64.prec F64.emax (Zdigits2 m2 + e1) - e1) in *.
  destruct F1 as [[Z1 E1] | [P1 C1]].
  - (* the first mantissa is 0: the second is 0 or 1 *)
    assert (D : m2 = 0 \/ m2 = 1) by lia.
    destruct D as [-> | ->].
    + rewrite Z.div_0_l in V2; [lia |].
      apply Z.pow_nonzero; lia.
    + subst n2. cbn [Zdigits2 digits2_pos] in *.
      assert (En : fexp F64.prec F64.emax (1 + e1) - e1 = 0) by (f64; lia).
      rewrite En in *. cbn [Z.max Z.compare] in *.
      change (2 ^ 0) with 1 in V2. rewrite Z.div_1_r in V2.
      inversion V2; subst m3. cbn [Zdigits2 digits2_pos]. f64. lia.
  - (* the first mantissa is positive and canonical *)
    destruct (Zdigits2_bounds (shr_m r1) P1) as (Hd1 & B1 & B2).
    assert (Hm0 : 0 < m).
    { destruct (Z.eq_dec m 0) as [E0 | N0]; [| lia].
      rewrite E0, Z.div_0_l in V1 by lia. lia. }
    assert (D53 : Zdigits2 (shr_m r1) <= 53).
    { destruct (Zdigits2_shift m n Hm0 Hn) as [S1 _].
      rewrite <- V1 in S1. rewrite S1 by lia. subst n. f64. lia. }
    assert (D : m2 = shr_m r1 \/ m2 = shr_m r1 + 1) by lia.
    assert (K : Zdigits2 m2 = Zdigits2 (shr_m r1) \/
                (m2 = 2 ^ Zdigits2 (shr_m r1) /\
                 Zdigits2 m2 = Zdigits2 (shr_m r1) + 1)).
    { destruct D as [-> | ->]; [left; reflexivity |].
      destruct (Zdigits2_succ (shr_m r1) P1) as [K | [K1 K2]];
        [left; exact K | right; split; assumption]. }
    destruct K as [K | [K1 K2]].
    + assert (En : n2 = 0) by (subst n2; rewrite K; lia).
      rewrite En in *. cbn [Z.max Z.compare] in *.
      change (2 ^ 0) with 1 in V2. rewrite Z.div_1_r in V2.
      rewrite V2, K. f64. lia.
    + set (d1 := Zdigits2 (shr_m r1)) in *.
      destruct (Z.eq_dec d1 53) as [E53 | N53].
      * assert (En : n2 = 1) by (subst n2; rewrite K2; f64; lia).
        rewrite En in *. cbn [Z.max Z.compare] in *.
        change (2 ^ 1) with 2 in V2.
        rewrite K1, E53 in V2. change (2 ^ 53 / 2) with (2 ^ 52) in V2.
        rewrite V2. change (Zdigits2 (2 ^ 52)) with 53. f64. lia.
      * assert (En : n2 = 0) by (subst n2; rewrite K2; f64; lia).
        rewrite En in *. cbn [Z.max Z.compare] in *.
        change (2 ^ 0) with 1 in V2. rewrite Z.div_1_r in V2.
        rewrite V2, K2. f64. lia.
Qed.

Lemma fexp_mono (a b : Z) :
  a <= b -> fexp F64.prec F64.emax a <= fexp F64.prec F64.emax b.
Proof. intros H. f64. lia. Qed.

(** A quotient is a genuine binary64, whatever the operands. *)
Lemma div_valid (x y : F64.t) : F64.valid (F64.div x y) = true.
Proof.
  destruct x as [sx | sx | | sx mx ex], y as [sy | sy | | sy my ey];
    try reflexivity.
  unfold F64.valid, F64.div, SFdiv, SFdiv_core_binary.
  set (d1 := Zdigits2 (Zpos mx)). set (d2 := Zdigits2 (Zpos my)).
  set (E := d1 + ex - (d2 + ey)).
  set (e' := Z.min (fexp F64.prec F64.emax E) (ex - ey)).
  set (m' := match ex - ey - e' with
             | Z0 => Zpos mx
             | Zpos _ => Z.shiftl (Zpos mx) (ex - ey - e')
             | Zneg _ => 0
             end).
  assert (Hs : 0 <= ex - ey - e') by (subst e'; lia).
  assert (Em : m' = Zpos mx * 2 ^ (ex - ey - e')).
  { subst m'. destruct (ex - ey - e') as [| p | p] eqn:Es.
    - simpl. lia.
    - rewrite Z.shiftl_mul_pow2 by lia. reflexivity.
    - lia. }
  clearbody m'.
  pose proof (Z_div_mod m' (Zpos my) eq_refl) as Hd.
  destruct (Z.div_eucl m' (Zpos my)) as [q r].
  destruct Hd as [Hd Hr].
  destruct (Zdigits2_bounds (Zpos mx) eq_refl) as (P1 & L1 & U1).
  destruct (Zdigits2_bounds (Zpos my) eq_refl) as (P2 & L2 & U2).
  fold d1 in P1, L1, U1. fold d2 in P2, L2, U2.
  set (sh := ex - ey - e') in *.
  assert (Psh : 0 < 2 ^ sh) by (apply Z.pow_pos_nonneg; lia).
  assert (Lm : 2 ^ (d1 - 1 + sh) <= m').
  { rewrite Em, Z.pow_add_r by lia. apply Z.mul_le_mono_nonneg_r; lia. }
  assert (Hq : 0 <= q) by nia.
  apply binary_round_aux_valid; [exact Hq |].
  assert (He' : e' <= fexp F64.prec F64.emax E) by (subst e'; lia).
  assert (EE : E = d1 + sh + e' - d2) by (subst E sh; lia).
  destruct (Z.eq_dec q 0) as [-> | Nq].
  - cbn [Zdigits2].
    assert (Hlt : 2 ^ (d1 - 1 + sh) < 2 ^ d2) by lia.
    apply Z.pow_lt_mono_r_iff in Hlt; [| lia | lia].
    clear - He' EE Hlt. f64. lia.
  - assert (Pq : 0 < q) by lia.
    destruct (Zdigits2_bounds q Pq) as (Pd & Lq & Uq).
    set (dq := Zdigits2 q) in *.
    assert (Hdq : d1 + sh - d2 <= dq).
    { destruct (Z.le_gt_cases (d1 + sh - d2) dq) as [L | G]; [exact L |].
      exfalso.
      assert (Hk : 0 <= d1 - 1 + sh - d2) by lia.
      assert (S1 : 2 ^ (d1 - 1 + sh) = 2 ^ (d1 - 1 + sh - d2) * 2 ^ d2).
      { rewrite <- Z.pow_add_r by lia. f_equal. lia. }
      assert (S2 : 2 ^ dq <= 2 ^ (d1 - 1 + sh - d2))
        by (apply Z.pow_le_mono_r; lia).
      assert (Pk : 0 < 2 ^ (d1 - 1 + sh - d2))
        by (apply Z.pow_pos_nonneg; lia).
      set (K := 2 ^ (d1 - 1 + sh - d2)) in *.
      set (D := 2 ^ d2) in *. set (M := 2 ^ (d1 - 1 + sh)) in *.
      clearbody K D M. clear - S1 S2 Pk Uq Hd Hr Lm U2. nia. }
    apply Z.le_trans with (1 := He').
    apply fexp_mono. lia.
Qed.

(** ** The order of numbers by value, and the comparisons of the code *)

Lemma value_le_refl (v : pyval) :
  isinstance_number v = true -> is_nan_value v = false -> value_le v v.
Proof.
  destruct v as [| b | z | f | | |]; try discriminate; intros _ Hn;
    unfold value_le; cbn [extent_of]; try lia.
  destruct f as [s | s | | s m e]; try discriminate Hn; try lia.
  destruct s; exact I.
Qed.

Lemma compare_swap (x y : F64.t) :
  SFcompare y x = option_map CompOpp (SFcompare x y).
Proof.
  destruct x as [sx | sx | | sx mx ex], y as [sy | sy | | sy my ey];
    cbn [SFcompare option_map CompOpp]; try reflexivity;
    try (destruct sx; reflexivity); try (destruct sy; reflexivity);
    try (destruct sx, sy; reflexivity).
  change (Pos.compare_cont Eq mx my) with (Pos.compare mx my).
  change (Pos.compare_cont Eq my mx) with (Pos.compare my mx).
  rewrite (Z.compare_antisym ex ey), (Pos.compare_antisym mx my).
  destruct sx, sy; try reflexivity;
    destruct (ex ?= ey); cbn [CompOpp]; try reflexivity;
    destruct (mx ?= my)%positive; reflexivity.
Qed.

Lemma cond_Zopp_mul (s : bool) (a b : Z) :
  cond_Zopp s (a * b) = cond_Zopp s a * b.
Proof. destruct s; cbn [cond_Zopp]; lia. Qed.

Lemma below_value_le (x y : F64.t) :
  F64.is_nan x = false -> F64.is_nan y = false ->
  below x y -> value_le (VFloat x) (VFloat y).
Proof.
  destruct x as [sx | sx | | sx mx ex], y as [sy | sy | | sy my ey];
    try discriminate; intros _ _; unfold below, value_le; cbn [extent_of];
    try contradiction;
    try (intros ->; exact I);
    try (intros [-> | ->]; [exact I | destruct sx; exact I]).
  - intros ->. cbn [cond_Zopp].
    assert (0 < 2 ^ (ey - Z.min 0 ey)) by (apply Z.pow_pos_nonneg; lia).
    nia.
  - intros ->. cbn [cond_Zopp].
    assert (0 < 2 ^ (ex - Z.min ex 0)) by (apply Z.pow_pos_nonneg; lia).
    nia.
  - rewrite !aligned_value by lia. rewrite !cond_Zopp_mul. intros H; exact H.
Qed.

Lemma compare_value (x y : F64.t) (c : comparison) :
  F64.valid x = true -> F64.valid y = true ->
  F64.compare x y = Some c ->
  match c with
  | Lt => value_le (VFloat x) (VFloat y)
  | Eq => value_le (VFloat x) (VFloat y) /\ value_le (VFloat y) (VFloat x)
  | Gt => value_le (VFloat y) (VFloat x)
  end.
Proof.
  intros Vx Vy H.
  assert (Nx : F64.is_nan x = false) by (destruct x; try reflexivity; discriminate H).
  assert (Ny : F64.is_nan y = false)
    by (destruct x, y; try reflexivity; discriminate H).
  destruct c.
  - assert (E : x = y \/ (F64.is_zero x = true /\ F64.is_zero y = true)).
    { destruct x as [sx | sx | | sx mx ex], y as [sy | sy | | sy my ey];
        cbn [F64.compare SFcompare] in H; try discriminate H;
        try (right; split; reflexivity);
        try (destruct sx; discriminate H); try (destruct sy; discriminate H).
      - destruct sx, sy; try discriminate H; left; reflexivity.
      - left. destruct sx, sy; try discriminate H;
          destruct (Z.compare_spec ex ey) as [-> | L | G]; try discriminate H;
          change (Pos.compare_cont Eq mx my) with (Pos.compare mx my) in H;
          destruct (Pos.compare_spec mx my) as [-> | L | G];
          try discriminate H; reflexivity. }
    destruct E as [<- | [Zx Zy]].
    + split; apply value_le_refl; try reflexivity; exact Nx.
    + destruct x, y; try discriminate; split; unfold value_le; simpl; lia.
  - apply below_value_le; [exact Nx | exact Ny |].
    apply compare_lt_below; assumption.
  - apply below_value_le; [exact Ny | exact Nx |].
    apply compare_lt_below; try assumption.
    unfold F64.compare in H. rewrite compare_swap, H. reflexivity.
Qed.

Ltac norm_exp :=
  cbn [Z.min Z.compare Pos.compare Pos.compare_cont];
  rewrite ?Z.sub_diag, ?Z.sub_0_r, ?Z.sub_0_l;
  cbn [Z.opp]; change (2 ^ 0) with 1; rewrite ?Z.mul_1_r.

Lemma Zcompare_value (z : Z) (f : F64.t) (c : comparison) :
  F64.Zcompare z f = Some c ->
  match c with
  | Lt => value_le (VInt z) (VFloat f)
  | Eq => value_le (VInt z) (VFloat f) /\ value_le (VFloat f) (VInt z)
  | Gt => value_le (VFloat f) (VInt z)
  end.
Proof.
  destruct f as [s | s | | s m e]; cbn [F64.Zcompare]; try discriminate;
    intros H; injection H as <-; unfold value_le; cbn [extent_of].
  - norm_exp. destruct (Z.compare_spec z 0); lia.
  - destruct s; exact I.
  - set (v := cond_Zopp s (Zpos m)).
    destruct e as [| p | p].
    + norm_exp. destruct (Z.compare_spec z v); lia.
    + norm_exp. destruct (Z.compare_spec z (v * 2 ^ Zpos p)); lia.
    + change (Z.pow_pos 2 p) with (2 ^ Zpos p). norm_exp.
      destruct (Z.compare_spec (z * 2 ^ Zpos p) v); lia.
Qed.

Lemma num_compare_value (x y : num) (c : comparison) :
  valid_num x -> valid_num y ->
  num_compare x y = Some c ->
  match c with
  | Lt => value_le (of_num x) (of_num y)
  | Eq => value_le (of_num x) (of_num y) /\ value_le (of_num y) (of_num x)
  | Gt => value_le (of_num y) (of_num x)
  end.
Proof.
  destruct x as [a | f], y as [b | g]; cbn [num_compare of_num valid_num];
    intros Vx Vy H.
  - injection H as <-. unfold value_le. cbn [extent_of]. norm_exp.
    destruct (Z.compare_spec a b); lia.
  - apply Zcompare_value, H.
  - destruct (F64.Zcompare b f) as [c' |] eqn:E; [| discriminate H].
    injection H as <-. apply Zcompare_value in E.
    destruct c'; cbn [CompOpp]; tauto.
  - apply compare_value; assumption.
Qed.

(** ** The pallet summary *)

Lemma ceil_ceiling (x : F64.t) (n : Z) :
  F64.ceil x = Some n -> ceiling_of n (VFloat x).
Proof.
  destruct x as [s | s | | s m e]; cbn [F64.ceil]; try discriminate;
    intros H; injection H as <-; unfold ceiling_of, value_le;
    cbn [extent_of].
  - norm_exp. lia.
  - set (v := cond_Zopp s (Zpos m)).
    destruct e as [| p | p].
    + norm_exp. lia.
    + norm_exp. lia.
    + change (Z.pow_pos 2 p) with (2 ^ Zpos p). norm_exp.
      assert (Hd : 0 < 2 ^ Zpos p) by (apply Z.pow_pos_nonneg; lia).
      pose proof (Z.div_mod (- v) (2 ^ Zpos p) ltac:(lia)) as E.
      pose proof (Z.mod_pos_bound (- v) (2 ^ Zpos p) Hd) as B.
      set (q := - v / 2 ^ Zpos p) in *.
      set (r := (- v) mod 2 ^ Zpos p) in *.
      change (0 - Zneg p) with (Zpos p).
      set (K := 2 ^ Zpos p) in *. clearbody K q r.
      split; [nia | intros H; nia].
Qed.

Lemma int_ceil_ceiling (v : pyval) (n : Z) :
  int_ceil v = Ok n -> ceiling_of n v.
Proof.
  destruct v as [| | z | f | | |]; cbn [int_ceil]; try discriminate.
  - intros H. injection H as <-. unfold ceiling_of, value_le.
    cbn [extent_of]. norm_exp. lia.
  - destruct (F64.ceil f) as [z |] eqn:C; [| discriminate].
    intros H. injection H as <-. apply ceil_ceiling, C.
Qed.

Lemma pallets_by_value (d s : F64.t) :
  F64.is_finite d = true -> F64.is_zero d = false ->
  pallets_by d s =
  if F64.is_zero s || F64.is_nan s then VInt 0
  else VFloat (F64.np_round 3 (F64.div s d)).
Proof.
  intros Hf Hz. unfold pallets_by, py_or. cbn [truthy].
  destruct (F64.is_zero s) eqn:Z0; cbn [negb truthy isna orb];
    [reflexivity |].
  rewrite Z0. cbn [negb isna].
  destruct (F64.is_nan s) eqn:N.
  - destruct s; try discriminate N. reflexivity.
  - rewrite np_round_not_nan; [reflexivity | reflexivity | reflexivity |].
    apply div_not_nan; assumption.
Qed.

Lemma pallets_by_number (d s : F64.t) :
  pallets_by d s = VInt 0 \/
  exists f, pallets_by d s = VFloat f /\ F64.is_nan f = false.
Proof.
  unfold pallets_by, py_or. cbn [truthy].
  destruct (F64.is_zero s) eqn:Z0; cbn [negb truthy isna];
    [left; reflexivity |].
  rewrite Z0. cbn [negb isna].
  destruct (F64.is_nan (F64.np_round 3 (F64.div s d))) eqn:N;
    [left; reflexivity | right; eauto].
Qed.

Lemma pallets_by_shown (d s : F64.t) :
  F64.is_finite d = true -> F64.is_zero d = false ->
  shown_quotient d s (pallets_by d s) /\
  valid_value (pallets_by d s) = true /\
  isinstance_number (pallets_by d s) = true /\
  is_nan_value (pallets_by d s) = false.
Proof.
  intros Hf Hz. rewrite (pallets_by_value d s Hf Hz). unfold shown_quotient.
  destruct (F64.is_zero s || F64.is_nan s) eqn:E.
  - repeat split.
  - split; [eexists; split; [apply np_round_scaled | reflexivity] |].
    split; [apply div_valid |]. split; [reflexivity |].
    cbn [is_nan_value]. apply orb_false_iff in E. destruct E as [_ N].
    apply np_round_not_nan; [reflexivity | reflexivity |].
    apply div_not_nan; assumption.
Qed.

Lemma py_lt_greater (a b : pyval) :
  isinstance_number a = true -> isinstance_number b = true ->
  valid_value a = true -> valid_value b = true ->
  is_nan_value a = false -> is_nan_value b = false ->
  exists gt, py_lt a b = Ok gt /\ greater_of a b (if gt then b else a).
Proof.
  intros Ia Ib Va Vb Na Nb.
  pose proof (value_le_refl a Ia Na) as Raa.
  pose proof (value_le_refl b Ib Nb) as Rbb.
  unfold isinstance_number in Ia, Ib.
  destruct (as_num a) as [x |] eqn:Ea; [| discriminate Ia].
  destruct (as_num b) as [y |] eqn:Eb; [| discriminate Ib].
  assert (Xa : extent_of (of_num x) = extent_of a)
    by (destruct a; try discriminate Ea; injection Ea as <-; reflexivity).
  assert (Xb : extent_of (of_num y) = extent_of b)
    by (destruct b; try discriminate Eb; injection Eb as <-; reflexivity).
  assert (Ia' : is_nan_value (of_num x) = is_nan_value a)
    by (destruct a; try discriminate Ea; injection Ea as <-; reflexivity).
  assert (Ib' : is_nan_value (of_num y) = is_nan_value b)
    by (destruct b; try discriminate Eb; injection Eb as <-; reflexivity).
  unfold py_lt, lift2. rewrite Ea, Eb. eexists. split; [reflexivity |].
  unfold num_lt, greater_of.
  destruct (num_compare x y) as [c |] eqn:C.
  - pose proof (num_compare_value x y c (valid_value_num _ _ Ea Va)
                  (valid_value_num _ _ Eb Vb) C) as H.
    unfold value_le in H. rewrite Xa, Xb in H.
    destruct c.
    + destruct H as [_ H]. split; [left; reflexivity |].
      split; [exact Raa | exact H].
    + split; [right; reflexivity |]. split; [exact H | exact Rbb].
    + split; [left; reflexivity |]. split; [exact Raa | exact H].
  - apply num_compare_none in C.
    rewrite Ia', Ib', Na, Nb in C. destruct C; discriminate.
Qed.

(** C2, as stated, fails: a quotient is not rounded to 3 decimals, it is
    scaled (multiplied by 1000 in binary64, taken to the nearest integer,
    divided by 1000), and the product by 1000 is rounded first.  For a
    total weight of 3900.65 kg the quotient by 1300 is the binary64
    [3.0005], a little above 3.0005: it is 3.001 when rounded to 3
    decimals, and the least integer not below it is 4.  Its product by
    1000 is 3000.5, of which the nearest integer is 3000: the summary
    shows 3.0 and needs 3 pallets. *)
Lemma pallets_for_3900_65_kg :
  pallet_summary (F64.dec 390065 2) (S754_zero false) =
    Ok {| pallets_by_weight := VFloat (F64.of_Z 3);
          pallets_by_volume := VInt 0;
          pallets_needed := 3 |} /\
  F64.div (F64.dec 390065 2) (F64.of_Z 1300) = F64.dec 30005 4 /\
  rounded_to 3 (F64.div (F64.dec 390065 2) (F64.of_Z 1300))
             (F64.dec 3001 3) /\
  ceiling_of 4 (VFloat (F64.dec 3001 3)) /\
  ceiling_of 4 (VFloat (F64.div (F64.dec 390065 2) (F64.of_Z 1300))).
Proof.
  split; [vm_compute; reflexivity |].
  split; [vm_compute; reflexivity |].
  split.
  { assert (E : F64.py_round 3 (F64.div (F64.dec 390065 2) (F64.of_Z 1300))
                = F64.dec 3001 3) by (vm_compute; reflexivity).
    rewrite <- E. apply py_round_rounded. }
  split; apply ceil_ceiling; vm_compute; reflexivity.
Qed.

(** C2, amended.  The pallet estimate is a function of the two column sums
    alone, and it is defined for every pair of them.  Each quotient is 0
    when its sum is zero or NaN, and otherwise the sum divided by the
    capacity (1300 kg, 1.728 m3) in binary64 and scaled to 3 decimals.
    With [m] the greater of the two quotients, Pallets Needed is
    [max(1, n)] for the least integer [n] not below [m]; when [m] is
    infinite, [int] has nothing to return and the summary raises
    [OverflowError]. *)
Theorem pallet_summary_spec (sum_weight sum_volume : F64.t) :
  exists pw pv m : pyval,
    shown_quotient (F64.of_Z 1300) sum_weight pw /\
    shown_quotient (F64.dec 1728 3) sum_volume pv /\
    greater_of pw pv m /\
    match m with
    | VFloat (S754_infinity _) =>
        pallet_summary sum_weight sum_volume = Raise OverflowError
    | _ =>
        exists n,
          ceiling_of n m /\
          pallet_summary sum_weight sum_volume =
          Ok {| pallets_by_weight := pw;
                pallets_by_volume := pv;
                pallets_needed := Z.max 1 n |}
    end.
Proof.
  set (pw := pallets_by weight_per_pallet sum_weight).
  set (pv := pallets_by volume_per_pallet sum_volume).
  destruct (pallets_by_shown weight_per_pallet sum_weight eq_refl eq_refl)
    as (Sw & Vw & Iw & Nw).
  destruct (pallets_by_shown volume_per_pallet sum_volume eq_refl eq_refl)
    as (Sv & Vv & Iv & Nv).
  fold pw in Sw, Vw, Iw, Nw. fold pv in Sv, Vv, Iv, Nv.
  destruct (py_lt_greater pw pv Iw Iv Vw Vv Nw Nv) as (gt & Hlt & Hg).
  exists pw, pv, (if gt then pv else pw).
  split; [exact Sw |]. split; [exact Sv |]. split; [exact Hg |].
  unfold pallet_summary, py_max. fold pw pv. rewrite Hlt. cbn [bind].
  assert (Hm : (if gt then pv else pw) = VInt 0 \/
               exists f, (if gt then pv else pw) = VFloat f /\
                         F64.is_nan f = false)
    by (destruct gt; apply pallets_by_number).
  destruct Hm as [-> | (f & -> & Nm)].
  - exists 0. split; [apply int_ceil_ceiling; reflexivity | reflexivity].
  - destruct f as [s | s | | s m e]; try discriminate Nm.
    + exists 0. split; [apply int_ceil_ceiling; reflexivity | reflexivity].
    + reflexivity.
    + cbn [int_ceil].
      destruct (F64.ceil (S754_finite s m e)) as [n |] eqn:C;
        [| discriminate C].
      exists n. split; [apply ceil_ceiling, C | reflexivity].
Qed.

(** The example of the specification: 2600 kg and 1.0 m3 give 2.0, 0.579
    and 2 pallets; the values follow from the statement above alone. *)
Lemma pallet_summary_spec_witness :
  pallet_summary (F64.of_Z 2600) (F64.of_Z 1) =
  Ok {| pallets_by_weight := VFloat (F64.of_Z 2);
        pallets_by_volume := VFloat (F64.dec 579 3);
        pallets_needed := 2 |}.
Proof.
  destruct (pallet_summary_spec (F64.of_Z 2600) (F64.of_Z 1))
    as (pw & pv & m & Hw & Hv & (Hm & Lw & Lv) & H).
  unfold shown_quotient in Hw, Hv.
  change (F64.is_zero (F64.of_Z 2600) || F64.is_nan (F64.of_Z 2600))
    with false in Hw.
  change (F64.is_zero (F64.of_Z 1) || F64.is_nan (F64.of_Z 1))
    with false in Hv.
  destruct Hw as (rw & Rw & ->). destruct Hv as (rv & Rv & ->).
  assert (Ew : F64.np_round 3 (F64.div (F64.of_Z 2600) (F64.of_Z 1300))
               = S754_finite false 4503599627370496 (-51))
    by (vm_compute; reflexivity).
  assert (Ev : F64.np_round 3 (F64.div (F64.of_Z 1) (F64.dec 1728 3))
               = S754_finite false 5215168368495034 (-53))
    by (vm_compute; reflexivity).
  pose proof (scaled_rounding_unique 3 _ _ _ Rw (np_round_scaled 3 _)) as Xw.
  pose proof (scaled_rounding_unique 3 _ _ _ Rv (np_round_scaled 3 _)) as Xv.
  rewrite Ew in Xw. rewrite Ev in Xv. subst rw rv.
  destruct Hm as [-> | ->].
  - cbv beta iota in H. destruct H as (n & [C1 C2] & E).
    unfold value_le in C1, C2. cbn [extent_of cond_Zopp] in C1, C2.
    change (2 ^ (-51 - Z.min (-51) 0)) with 1 in C1, C2.
    change (2 ^ (0 - Z.min (-51) 0)) with 2251799813685248 in C1, C2.
    assert (En : n = 2) by (clear - C1 C2; lia).
    subst n. rewrite E. vm_compute. reflexivity.
  - exfalso. unfold value_le in Lw. vm_compute in Lw. apply Lw. reflexivity.
Defined.

(** ** The shortage fields *)

Lemma is_nan_value_as_num (v : pyval) (n : num) :
  as_num v = Some n -> is_nan_value v = is_nan_value (of_num n).
Proof.
  destruct v; cbn; intros H; try discriminate H; injection H as <-;
    reflexivity.
Qed.

Lemma isinstance_number_as_num (v : pyval) :
  isinstance_number v = true -> exists n, as_num v = Some n.
Proof.
  unfold isinstance_number. destruct (as_num v) as [n |]; [eauto | discriminate].
Qed.

Lemma num_ge_false (a b : num) :
  num_ge a b = false <->
  num_lt a b = true \/
  is_nan_value (of_num a) = true \/ is_nan_value (of_num b) = true.
Proof.
  rewrite <- num_compare_none. unfold num_ge, num_lt.
  destruct (num_compare a b) as [[| |] |]; split; auto;
    try discriminate; intros [H | H]; discriminate H.
Qed.

Lemma py_ge_false_iff (stock units : pyval) :
  isinstance_number stock = true -> isinstance_number units = true ->
  (py_ge stock units = Ok false <->
   py_lt stock units = Ok true \/
   is_nan_value stock = true \/ is_nan_value units = true).
Proof.
  intros Hs Hu.
  apply isinstance_number_as_num in Hs. destruct Hs as [a Ea].
  apply isinstance_number_as_num in Hu. destruct Hu as [b Eb].
  unfold py_ge, py_lt, lift2. rewrite Ea, Eb.
  rewrite (is_nan_value_as_num _ _ Ea), (is_nan_value_as_num _ _ Eb).
  split; intros E.
  - injection E as E. apply num_ge_false in E.
    destruct E as [E | E]; [left; rewrite E; reflexivity | right; exact E].
  - f_equal. apply num_ge_false.
    destruct E as [E | E]; [left; injection E as E; exact E | right; exact E].
Qed.

Lemma shortage_spec (sku stock units insuf falta extra : pyval) :
  shortage sku stock units = Ok (insuf, falta, extra) ->
  isinstance_number units = true ->
  valid_value stock = true ->
  valid_value units = true ->
  (insuf = VStr "STOCK INSUFICIENTE" <->
   truthy sku = true /\ isinstance_number stock = true /\
   py_ge stock units = Ok false) /\
  (truthy sku = true -> isinstance_number stock = true ->
   py_ge stock units = Ok false ->
   py_sub units stock = Ok falta /\ extra = VInt 0) /\
  (truthy sku = true -> isinstance_number stock = true ->
   py_ge stock units = Ok true ->
   insuf = VStr "" /\ falta = VInt 0 /\ py_sub stock units = Ok extra) /\
  (truthy sku = false \/ isinstance_number stock = false ->
   insuf = VStr "" /\ falta = VInt 0 /\ extra = VInt 0).
Proof.
  intros H Hu Vs Vu.
  destruct (isinstance_number_as_num _ Hu) as [b Eb].
  unfold shortage in H.
  destruct (truthy sku) eqn:Tsku; cbn [negb orb] in H.
  2:{ injection H as <- <- <-.
      split; [split; [discriminate | intros (C & _); discriminate C] |].
      split; [intros C; discriminate C |].
      split; [intros C; discriminate C |].
      intros _. repeat split; reflexivity. }
  destruct (isinstance_number stock) eqn:Tstock; cbn [negb] in H.
  2:{ injection H as <- <- <-.
      split; [split; [discriminate | intros (_ & C & _); discriminate C] |].
      split; [intros _ C; discriminate C |].
      split; [intros _ C; discriminate C |].
      intros _. repeat split; reflexivity. }
  destruct (isinstance_number_as_num _ Tstock) as [a Ea].
  assert (Ege : py_ge stock units = Ok (num_ge a b))
    by (unfold py_ge, lift2; rewrite Ea, Eb; reflexivity).
  rewrite Ege in *. cbn [bind] in H.
  destruct (num_ge a b) eqn:Ge.
  - apply bind_ok in H. destruct H as [x [Hx H]]. injection H as <- <- <-.
    split; [split; [discriminate | intros (_ & _ & C); discriminate C] |].
    split; [intros _ _ C; discriminate C |].
    split; [intros _ _ _; repeat split; [reflexivity .. | exact Hx] |].
    intros [C | C]; discriminate C.
  - apply bind_ok in H. destruct H as [d [Hd H]].
    apply bind_ok in H. destruct H as [f [Hf H]]. injection H as <- <- <-.
    assert (Efalta : py_sub units stock = Ok f).
    { unfold py_sub, lift2 in *. rewrite Ea, Eb in *.
      apply bind_ok in Hd. destruct Hd as [d' [Hd' Hd]]. injection Hd as <-.
      unfold py_abs in Hf. rewrite as_num_of_num in Hf. injection Hf as <-.
      rewrite (num_abs_sub_swap a b d'
                 (valid_value_num _ _ Ea Vs) (valid_value_num _ _ Eb Vu)
                 Ge Hd').
      reflexivity. }
    split; [split; [intros _; repeat split; reflexivity | reflexivity] |].
    split; [intros _ _ _; split; [exact Efalta | reflexivity] |].
    split; [intros _ _ C; discriminate C |].
    intros [C | C]; discriminate C.
Qed.

(** C1, as stated, fails on a stock that is NaN: [isinstance] takes it for
    a number, [stock >= units] is false, and the line is flagged although
    [stock < units] is false as well. *)
Lemma nan_stock_is_flagged :
  exists label data,
    resolve_item ref_lib catalog_nan line_a1 = Ok (label, data) /\
    isinstance_number (get data "Units") = true /\
    truthy (get data "SKU") = true /\
    isinstance_number (get data "Stock Real") = true /\
    py_lt (get data "Stock Real") (get data "Units") = Ok false /\
    get data "Insuficiente?" = VStr "STOCK INSUFICIENTE" /\
    get data "Falta" = VFloat S754_nan.
Proof.
  eexists. eexists. split; [reflexivity |]. repeat split; reflexivity.
Qed.

(** C1, amended.  On every resolved line whose units are a number, the
    shortage flag is set if and only if the SKU is truthy, the stock is an
    [int] or a [float], and [stock >= units] is false; that is [stock <
    units], except that a NaN stock or NaN units also fail [>=].  In exactly
    that case Falta = units - stock and Extra = 0.  In every other case the
    flag is empty and Falta = 0, with Extra = stock - units when
    [stock >= units], and Extra = 0 when the SKU is falsy or the stock is
    not a number. *)
Theorem shortage_fields
  (lib : pylib) (lk : pydict dict) (item label : pyval) (data : dict) :
  resolve_item lib lk item = Ok (label, data) ->
  isinstance_number (get data "Units") = true ->
  valid_value (get data "Stock Real") = true ->
  valid_value (get data "Units") = true ->
  let sku := get data "SKU" in
  let stock := get data "Stock Real" in
  let units := get data "Units" in
  let flag := get data "Insuficiente?" in
  let falta := get data "Falta" in
  let extra := get data "Extra" in
  (flag = VStr "STOCK INSUFICIENTE" <->
   truthy sku = true /\ isinstance_number stock = true /\
   py_ge stock units = Ok false) /\
  (truthy sku = true -> isinstance_number stock = true ->
   py_ge stock units = Ok false ->
   py_sub units stock = Ok falta /\ extra = VInt 0) /\
  (truthy sku = true -> isinstance_number stock = true ->
   py_ge stock units = Ok true ->
   flag = VStr "" /\ falta = VInt 0 /\ py_sub stock units = Ok extra) /\
  (truthy sku = false \/ isinstance_number stock = false ->
   flag = VStr "" /\ falta = VInt 0 /\ extra = VInt 0) /\
  (isinstance_number stock = true ->
   (py_ge stock units = Ok false <->
    py_lt stock units = Ok true \/
    is_nan_value stock = true \/ is_nan_value units = true)).
Proof.
  intros H.
  apply resolve_item_inv in H.
  destruct H as (it & found & fl & insuf & falta & extra & tw &
                 -> & _ & _ & Hsh & _ & _ & ->).
  change (get (line_data fl (item_units it) insuf falta extra tw) "Units")
    with (item_units it).
  change (get (line_data fl (item_units it) insuf falta extra tw) "SKU")
    with (f_sku fl).
  change (get (line_data fl (item_units it) insuf falta extra tw)
              "Stock Real") with (f_stock fl).
  change (get (line_data fl (item_units it) insuf falta extra tw)
              "Insuficiente?") with insuf.
  change (get (line_data fl (item_units it) insuf falta extra tw) "Falta")
    with falta.
  change (get (line_data fl (item_units it) insuf falta extra tw) "Extra")
    with extra.
  intros Hu Vs Vu. cbv zeta.
  destruct (shortage_spec _ _ _ _ _ _ Hsh Hu Vs Vu) as (C1 & C2 & C3 & C4).
  split; [exact C1 |]. split; [exact C2 |]. split; [exact C3 |].
  split; [exact C4 |].
  intros Hs. apply py_ge_false_iff; assumption.
Qed.

Lemma shortage_fields_witness :
  resolve_item ref_lib catalog_a line_a5 = Ok (default_subcat, line_a5_data) /\
  isinstance_number (get line_a5_data "Units") = true /\
  valid_value (get line_a5_data "Stock Real") = true /\
  valid_value (get line_a5_data "Units") = true /\
  (get line_a5_data "Insuficiente?" = VStr "STOCK INSUFICIENTE" <->
   truthy (get line_a5_data "SKU") = true /\
   isinstance_number (get line_a5_data "Stock Real") = true /\
   py_ge (get line_a5_data "Stock Real") (get line_a5_data "Units")
   = Ok false) /\
  py_sub (VInt 5) (VInt 3) = Ok (VInt 2).
Proof.
  assert (Hr : resolve_item ref_lib catalog_a line_a5
               = Ok (default_subcat, line_a5_data))
    by (vm_compute; reflexivity).
  split; [exact Hr |].
  split; [reflexivity |]. split; [reflexivity |]. split; [reflexivity |].
  destruct (shortage_fields ref_lib catalog_a line_a5 _ _ Hr
              eq_refl eq_refl eq_refl) as (C1 & C2 & _).
  split; [exact C1 |].
  exact (proj1 (C2 eq_refl eq_refl eq_refl)).
Defined.

(** ** The member rows of the report are the resolved lines *)

Lemma lookup_in {V : Type} (d : pydict V) (k : pyval) (v : V) :
  lookup d k = Some v -> exists k', In (k', v) d.
Proof.
  induction d as [| [k0 v0] d IH]; simpl; [discriminate |].
  destruct (same_key k0 k).
  - intros H. injection H as <-. exists k0. left; reflexivity.
  - intros H. destruct (IH H) as [k' Hk']. exists k'. right; exact Hk'.
Qed.

Lemma store_in {V : Type} (d : pydict V) (k k' : pyval) (v v' : V) :
  In (k', v') (store d k v) -> v' = v \/ In (k', v') d.
Proof.
  induction d as [| [k0 v0] d IH]; simpl.
  - intros [H | []]. injection H as _ <-. left; reflexivity.
  - destruct (same_key k0 k); simpl.
    + intros [H | H]; [injection H as _ <-; left; reflexivity |].
      right; right; exact H.
    + intros [H | H]; [right; left; exact H |].
      destruct (IH H) as [E | E]; [left; exact E | right; right; exact E].
Qed.

Lemma group_add_members
  (grouped grouped' : pydict (list dict)) (label : pyval) (data d : dict) :
  group_add grouped label data = Ok grouped' ->
  members grouped' d -> d = data \/ members grouped d.
Proof.
  unfold group_add. destruct (hashable label); [| discriminate].
  intros H. injection H as <-. intros (l & prods & Hin & Hd).
  apply store_in in Hin. destruct Hin as [-> | Hin].
  - destruct (lookup grouped label) as [old |] eqn:L.
    + apply in_app_or in Hd. destruct Hd as [Hd | [<- | []]];
        [| left; reflexivity].
      right. destruct (lookup_in _ _ _ L) as [k' Hk'].
      exists k', old. split; assumption.
    + destruct Hd as [<- | []]. left; reflexivity.
  - right. exists l, prods. split; assumption.
Qed.

Lemma group_items_members
  (lib : pylib) (lk : pydict dict) (items : list pyval)
  (acc grouped : pydict (list dict)) (d : dict) :
  foldM (fun g item =>
           '(label, data) <- resolve_item lib lk item ;;
           group_add g label data) items acc = Ok grouped ->
  members grouped d ->
  members acc d \/
  exists item label, In item items /\ resolve_item lib lk item = Ok (label, d).
Proof.
  revert acc. induction items as [| item items IH]; intros acc H Hd; simpl in H.
  - injection H as <-. left; exact Hd.
  - apply bind_ok in H. destruct H as [g1 [H1 H]].
    apply bind_ok in H1. destruct H1 as [[label data] [Hres Hadd]].
    destruct (IH _ H Hd) as [Hm | (it & l & Hin & Hit)].
    + destruct (group_add_members _ _ _ _ _ Hadd Hm) as [-> | Hm'].
      * right. exists item, label. split; [left; reflexivity | exact Hres].
      * left; exact Hm'.
    + right. exists it, l. split; [right; exact Hin | exact Hit].
Qed.

Lemma insert_sorted_in (x d : dict) (l l' : list dict) :
  insert_sorted x l = Ok l' -> In d l' -> d = x \/ In d l.
Proof.
  revert l'. induction l as [| y l IH]; intros l' H Hd; simpl in H.
  - injection H as <-. destruct Hd as [<- | []]. left; reflexivity.
  - apply bind_ok in H. destruct H as [b [_ H]]. destruct b.
    + injection H as <-. destruct Hd as [<- | Hd];
        [left; reflexivity | right; exact Hd].
    + apply bind_ok in H. destruct H as [r [Hr H]]. injection H as <-.
      destruct Hd as [<- | Hd]; [right; left; reflexivity |].
      destruct (IH _ Hr Hd) as [E | E]; [left; exact E | right; right; exact E].
Qed.

Lemma sorted_in (l acc l' : list dict) (d : dict) :
  foldM (fun a x => insert_sorted x a) l acc = Ok l' ->
  In d l' -> In d acc \/ In d l.
Proof.
  revert acc. induction l as [| x l IH]; intros acc H Hd; simpl in H.
  - injection H as <-. left; exact Hd.
  - apply bind_ok in H. destruct H as [a1 [H1 H]].
    destruct (IH _ H Hd) as [Hin | Hin]; [| right; right; exact Hin].
    destruct (insert_sorted_in _ _ _ _ H1 Hin) as [-> | Hin'];
      [right; left; reflexivity | left; exact Hin'].
Qed.

Lemma sort_groups_members (grouped groups : pydict (list dict)) (d : dict) :
  sort_groups grouped = Ok groups -> members groups d -> members grouped d.
Proof.
  unfold sort_groups. revert groups.
  induction grouped as [| [l prods] grouped IH]; intros groups H Hd;
    simpl in H.
  - injection H as <-. destruct Hd as (l' & p' & [] & _).
  - apply bind_ok in H. destruct H as [g1 [H1 H]].
    apply bind_ok in H1. destruct H1 as [sp [Hsp H1]]. injection H1 as <-.
    apply bind_ok in H. destruct H as [gs [Hgs H]]. injection H as <-.
    destruct Hd as (l' & p' & [E | Hin] & Hd').
    + injection E as <- <-.
      destruct (sorted_in _ _ _ _ Hsp Hd') as [[] | Hin].
      exists l, prods. split; [left; reflexivity | exact Hin].
    + destruct (IH gs Hgs) as (l2 & p2 & Hin2 & Hd2).
      * exists l', p'. split; assumption.
      * exists l2, p2. split; [right; exact Hin2 | exact Hd2].
Qed.

(** Every member row of the report is the [data] of one line item of the
    document, as [resolve_item] builds it. *)
Lemma report_lines
  (lib : pylib) (cell : pyval) (lk : pydict dict) (fr : frame) :
  get_products_info_for_row lib cell lk = Ok fr ->
  exists items groups,
    line_items cell = Ok items /\
    rows fr = map final_row (flat_map (group_block lib) groups) /\
    forall d, members groups d ->
      exists item label,
        In item items /\ resolve_item lib lk item = Ok (label, d).
Proof.
  intros H. apply report_rows in H.
  destruct H as (items & grouped & groups & Hi & Hg & Hs & _ & Hrows).
  exists items, groups. split; [exact Hi |]. split; [exact Hrows |].
  intros d Hd. apply (sort_groups_members _ _ _ Hs) in Hd.
  destruct (group_items_members _ _ _ _ _ _ Hg Hd)
    as [(l & p & [] & _) | Hit].
  exact Hit.
Qed.

(** * Further properties of the code *)

(** ** The catalog index: what it holds and when it fails *)



Lemma build_from_raises (ps : list dict) (acc : pydict dict) :
  Exists (fun p => hashable (product_id p) = false) ps ->
  build_from acc ps = Raise TypeError.
Proof.
  intros H. revert acc. induction H as [p ps Hp | p ps _ IH]; intros acc.
  - rewrite build_from_cons. unfold setitem. rewrite Hp. reflexivity.
  - rewrite build_from_cons. unfold setitem.
    destruct (hashable (product_id p)); [apply IH | reflexivity].
Qed.

(** X2.  [build_product_lookup] fails exactly when the identifier of some
    record is a list or an object, which cannot be a key; the failure is a
    [TypeError], and no index is returned.  With any other list of records
    it returns an index. *)
Theorem index_build_fails_iff_unhashable (ps : list dict) :
  (build_product_lookup ps = Raise TypeError <->
   Exists (fun p => hashable (product_id p) = false) ps) /\
  ((exists L, build_product_lookup ps = Ok L) <->
   Forall (fun p => hashable (product_id p) = true) ps).
Proof.
  assert (D : Forall (fun p => hashable (product_id p) = true) ps \/
              Exists (fun p => hashable (product_id p) = false) ps).
  { induction ps as [| p ps [IH | IH]].
    - left. constructor.
    - destruct (hashable (product_id p)) eqn:E.
      + left. constructor; assumption.
      + right. left. exact E.
    - right. right. exact IH. }
  split; split.
  - intros H. destruct D as [D | D]; [| exact D].
    destruct (build_from_total ps [] D) as [L HL].
    unfold build_from in HL. unfold build_product_lookup in H.
    rewrite HL in H. discriminate H.
  - apply build_from_raises.
  - intros [L HL]. destruct D as [D | D]; [exact D |].
    pose proof (build_from_raises ps [] D) as R.
    unfold build_from in R. unfold build_product_lookup in HL.
    rewrite HL in R. discriminate R.
  - apply build_from_total.
Qed.

(** ** The join of a line with its catalog record *)

Lemma same_key_hashable (a b : pyval) :
  same_key a b = true -> hashable b = true.
Proof.
  unfold same_key. destruct (key_of a); [| discriminate].
  destruct b; simpl; try reflexivity; discriminate.
Qed.

Lemma find_product_hit (L : pydict dict) (pid : pyval) (info : dict) :
  pid <> VNone -> hashable pid = true -> lookup L pid = Some info ->
  find_product L pid = Ok (Some info).
Proof.
  intros Hn Hh Hl. unfold find_product, contains. rewrite Hh, Hl.
  destruct pid; try reflexivity. contradiction Hn. reflexivity.
Qed.

Lemma branch_a_fields (lib : pylib) (info : dict) (fl : fields) :
  branch_a lib info = Ok fl ->
  product_name fl = get info "Product" /\
  f_sku fl = get info "SKU" /\
  f_stock fl = get_default info "Stock Real" (VInt 0) /\
  net_w fl = get_default info "Weight" (VInt 0).
Proof.
  unfold branch_a. intros H.
  apply bind_ok in H. destruct H as [st [_ H]]. injection H as <-.
  repeat split.
Qed.

(** X3.  The index and the resolver compose into a join: a line whose
    identifier is that of a product record (the last one with it) shows the
    name, the SKU, the stock and the weight of that record as they are,
    [None] where the record has none.  The defaults [0] of
    [info.get("Stock Real", 0)] and [info.get("Weight", 0)] never apply,
    since the index stores all five keys. *)
Theorem catalog_fields_are_joined
  (lib : pylib) (before after : list dict) (p item : dict)
  (L : pydict dict) (label : pyval) (data : dict) :
  build_product_lookup (before ++ p :: after) = Ok L ->
  item_id item <> VNone ->
  same_key (product_id p) (item_id item) = true ->
  Forall (fun q => same_key (product_id q) (item_id item) = false) after ->
  resolve_item lib L (VDict item) = Ok (label, data) ->
  get data "Product" = get p "name" /\
  get data "SKU" = get p "sku" /\
  get data "Stock Real" = get p "stock" /\
  get data "Gross Weight (kg)" = get p "weight" /\
  get data "Units" = get_default item "units" (VInt 0).
Proof.
  intros HL Hn Hp Hafter Hres.
  assert (Hl : lookup L (item_id item) = Some (product_info p)).
  { rewrite (build_from_lookup _ _ _ (item_id item) HL).
    rewrite rev_app_distr. simpl rev. rewrite <- app_assoc.
    rewrite find_append, (find_none_forall _ _ Hafter). simpl.
    rewrite Hp. reflexivity. }
  pose proof (find_product_hit L _ _ Hn (same_key_hashable _ _ Hp) Hl) as Hf.
  apply resolve_item_inv in Hres.
  destruct Hres as (it & found & fl & insuf & falta & extra & tw &
                    E & Hfound & Hfl & _ & _ & _ & ->).
  injection E as <-. rewrite Hf in Hfound. injection Hfound as <-.
  apply branch_a_fields in Hfl. destruct Hfl as (E1 & E2 & E3 & E4).
  unfold line_data, get, get_default. simpl.
  rewrite E1, E2, E3, E4. repeat split.
Qed.

Lemma catalog_fields_are_joined_witness :
  exists L label data,
    build_product_lookup [rec_old; rec_box; rec_other] = Ok L /\
    resolve_item ref_lib L (VDict order_a5) = Ok (label, data) /\
    get data "Product" = VStr "Box" /\
    get data "Stock Real" = VInt 3.
Proof.
  destruct (build_product_lookup [rec_old; rec_box; rec_other])
    as [L | e] eqn:HL; [| discriminate HL].
  destruct (resolve_item ref_lib L (VDict order_a5))
    as [[label data] | e] eqn:HR.
  - exists L, label, data. split; [reflexivity |]. split; [exact HR |].
    destruct (catalog_fields_are_joined ref_lib [rec_old] [rec_other] rec_box
                order_a5 L label data HL)
      as (E1 & _ & E3 & _);
      [discriminate | reflexivity | repeat constructor | exact HR |].
    rewrite E1, E3. split; reflexivity.
  - exfalso. vm_compute in HL. injection HL as <-.
    vm_compute in HR. discriminate HR.
Defined.

Lemma scan_attr_subcat (lib : pylib) (st st' : scan) (a : pyval) :
  scan_attr lib st a = Ok st' ->
  subcat st' =
  if is_product_line a
  then match a with VDict d => get d "value" | _ => subcat st end
  else subcat st.
Proof.
  destruct a as [| | | | | | a]; try discriminate.
  unfold scan_attr, is_product_line. fold (attr_name a).
  destruct (str_eq (attr_name a) "Product Line"
            || str_eq (attr_name a) "3. Product Line");
    destruct (try_float lib (get a "value"));
    try (intros H; injection H as <-; reflexivity);
    destruct (str_eq (attr_name a) "Ancho [cm]");
    try (intros H; injection H as <-; reflexivity);
    destruct (str_eq (attr_name a) "Alto [cm]");
    try (intros H; injection H as <-; reflexivity);
    destruct (str_eq (attr_name a) "Fondo [cm]");
    intros H; injection H as <-; reflexivity.
Qed.

Lemma scan_subcat (lib : pylib) (attrs : list pyval) (st st' : scan) :
  foldM (scan_attr lib) attrs st = Ok st' ->
  subcat st' =
  match find is_product_line (rev attrs) with
  | Some (VDict a) => get a "value"
  | _ => subcat st
  end.
Proof.
  revert st. induction attrs as [| a attrs IH]; intros st H; simpl in H.
  - injection H as <-. reflexivity.
  - apply bind_ok in H. destruct H as [st1 [Ha H]].
    rewrite (IH _ H). simpl rev. rewrite find_append.
    destruct (find is_product_line (rev attrs)) as [b |] eqn:F.
    + apply find_some in F. destruct F as [_ Fb].
      destruct b; try discriminate Fb. reflexivity.
    + simpl. rewrite (scan_attr_subcat _ _ _ _ Ha).
      destruct (is_product_line a) eqn:Ea; [| reflexivity].
      destruct a; try discriminate Ea. reflexivity.
Qed.

(** X4.  The group of a line found in the catalog is the value of the last
    attribute of the product named "Product Line" or "3. Product Line",
    whatever that value is and whether or not [float] accepts it; it is the
    sentinel "Sin línea de productos" when the product has no such
    attribute. *)
Theorem group_label_is_last_product_line
  (lib : pylib) (lk : pydict dict) (item info : dict)
  (label : pyval) (data : dict) :
  find_product lk (item_id item) = Ok (Some info) ->
  resolve_item lib lk (VDict item) = Ok (label, data) ->
  exists attrs,
    py_or (get info "Attributes") (VList []) = VList attrs /\
    label = product_line attrs /\
    (Forall (fun a => is_product_line a = false) attrs ->
     label = default_subcat).
Proof.
  intros Hf Hres. apply resolve_item_inv in Hres.
  destruct Hres as (it & found & fl & insuf & falta & extra & tw &
                    E & Hfound & Hfl & _ & _ & -> & _).
  injection E as <-. rewrite Hf in Hfound. injection Hfound as <-.
  unfold branch_a in Hfl.
  apply bind_ok in Hfl. destruct Hfl as [st [Hst Hfl]]. injection Hfl as <-.
  simpl.
  destruct (py_or (get info "Attributes") (VList [])) as [| | | | | attrs |];
    try discriminate Hst.
  exists attrs. split; [reflexivity |].
  apply scan_subcat in Hst. simpl in Hst.
  assert (E : subcat st = product_line attrs).
  { rewrite Hst. unfold product_line.
    destruct (find is_product_line (rev attrs)) as [[] |]; reflexivity. }
  split; [exact E |].
  intros Hall. rewrite E. unfold product_line.
  rewrite find_none_forall by exact Hall. reflexivity.
Qed.

Lemma group_label_is_last_product_line_witness :
  exists label data,
    resolve_item ref_lib catalog_lines (VDict order_a5) = Ok (label, data) /\
    label = VStr "Sobres".
Proof.
  destruct (resolve_item ref_lib catalog_lines (VDict order_a5))
    as [[label data] | e] eqn:HR; [| vm_compute in HR; discriminate HR].
  exists label, data. split; [reflexivity |].
  destruct (group_label_is_last_product_line ref_lib catalog_lines order_a5
              lines_info label data eq_refl HR) as (attrs & Ha & El & _).
  vm_compute in Ha. injection Ha as <-. rewrite El. reflexivity.
Defined.

(** X5.  The comparison [stock >= units] is made without a look at
    [units]: on a product found in the catalog, with a well-formed
    attribute list, a truthy SKU and a stock that is a number, a line whose
    units are not a number (null, text, a list) raises [TypeError]. *)
Theorem units_not_a_number_raises
  (lib : pylib) (lk : pydict dict) (item info : dict) (attrs : list pyval) :
  find_product lk (item_id item) = Ok (Some info) ->
  py_or (get info "Attributes") (VList []) = VList attrs ->
  Forall (fun a => exists d, a = VDict d) attrs ->
  truthy (get info "SKU") = true ->
  isinstance_number (get_default info "Stock Real" (VInt 0)) = true ->
  isinstance_number (get_default item "units" (VInt 0)) = false ->
  resolve_item lib lk (VDict item) = Raise TypeError.
Proof.
  intros Hf Hattrs Hwf Hsku Hstock Hunits.
  unfold resolve_item. rewrite Hf. cbn [bind].
  unfold branch_a. rewrite Hattrs. unfold scan_attrs.
  destruct (scan_never_raises lib attrs scan0 Hwf) as [st Hst].
  rewrite Hst. cbn [bind f_sku f_stock].
  unfold shortage. rewrite Hsku, Hstock. cbn [negb orb].
  unfold py_ge, lift2. unfold isinstance_number in Hstock, Hunits.
  destruct (as_num (get_default info "Stock Real" (VInt 0)));
    [| discriminate Hstock].
  destruct (as_num (get_default item "units" (VInt 0)));
    [discriminate Hunits | reflexivity].
Qed.

Lemma units_not_a_number_raises_witness :
  resolve_item ref_lib catalog_a (VDict order_a_none) = Raise TypeError.
Proof.
  apply (units_not_a_number_raises ref_lib catalog_a order_a_none
           [ ("Product", VStr "Box"); ("SKU", VStr "B-1");
             ("Stock Real", VInt 3); ("Weight", VFloat (F64.dec 125 3));
             ("Attributes", VNone) ] []);
    try reflexivity.
  constructor.
Defined.

(** ** Groups: order and content *)

Lemma group_items_lines
  (lib : pylib) (lk : pydict dict) (items : list pyval)
  (acc grouped : pydict (list dict)) :
  foldM (fun g item =>
           '(label, data) <- resolve_item lib lk item ;;
           group_add g label data) items acc = Ok grouped ->
  exists lines,
    mapM (resolve_item lib lk) items = Ok lines /\
    group_lines lines acc = Ok grouped.
Proof.
  revert acc. induction items as [| item items IH]; intros acc H; simpl in H.
  - injection H as <-. exists []. split; reflexivity.
  - apply bind_ok in H. destruct H as [g1 [H1 H]].
    apply bind_ok in H1. destruct H1 as [[label data] [Hres Hadd]].
    destruct (IH _ H) as (lines & Hm & Hg).
    exists ((label, data) :: lines). split.
    + simpl. rewrite Hres, Hm. reflexivity.
    + unfold group_lines. simpl. rewrite Hadd. exact Hg.
Qed.

Lemma same_key_refl (v : pyval) :
  hashable v = true -> is_nan_value v = false -> same_key v v = true.
Proof.
  intros Hh Hn. unfold same_key.
  destruct v as [| b | z | f | s | l | d]; simpl in *;
    try discriminate Hh;
    try reflexivity; try apply Z.eqb_refl; try apply String.eqb_refl.
  destruct f as [s | s | | s m e]; simpl in *; try discriminate Hn;
    try reflexivity; try apply Bool.eqb_reflx.
  destruct e as [| p | p]; simpl; try apply Z.eqb_refl.
  destruct (_ =? 0); simpl; [apply Z.eqb_refl |].
  rewrite Bool.eqb_reflx, Pos.eqb_refl, Pos.eqb_refl. reflexivity.
Qed.

Lemma lookup_congr {V : Type} (d : pydict V) (a b : pyval) :
  same_key a b = true -> lookup d a = lookup d b.
Proof.
  intros H. induction d as [| [k v] d IH]; simpl; [reflexivity |].
  rewrite (same_key_sym k a), (same_key_sym k b), (same_key_congr _ _ k H).
  rewrite IH. reflexivity.
Qed.

Lemma lookup_existsb {V : Type} (d : pydict V) (k : pyval) :
  is_some (lookup d k) = existsb (fun a => same_key a k) (map fst d).
Proof.
  induction d as [| [k' v] d IH]; simpl; [reflexivity |].
  destruct (same_key k' k); [reflexivity | exact IH].
Qed.

Lemma store_keys {V : Type} (d : pydict V) (k : pyval) (v : V) :
  map fst (store d k v) =
  if is_some (lookup d k) then map fst d else map fst d ++ [k].
Proof.
  induction d as [| [k' v'] d IH]; simpl; [reflexivity |].
  destruct (same_key k' k); simpl; [reflexivity |].
  rewrite IH. destruct (is_some (lookup d k)); reflexivity.
Qed.

Lemma filter_filter_and {A : Type} (p q : A -> bool) (xs : list A) :
  filter p (filter q xs) = filter (fun x => q x && p x) xs.
Proof.
  induction xs as [| x xs IH]; simpl; [reflexivity |].
  destruct (q x); simpl; [| exact IH].
  destruct (p x); rewrite IH; reflexivity.
Qed.

Lemma filter_true {A : Type} (xs : list A) : filter (fun _ => true) xs = xs.
Proof.
  induction xs as [| x xs IH]; simpl; [reflexivity | rewrite IH; reflexivity].
Qed.

Lemma group_lines_keys (lines : list (pyval * dict))
  (acc grouped : pydict (list dict)) :
  group_lines lines acc = Ok grouped ->
  map fst grouped =
  map fst acc ++ filter (fresh (map fst acc)) (first_seen (map fst lines)).
Proof.
  unfold group_lines. revert acc.
  induction lines as [| [l d] lines IH]; intros acc H; simpl in H.
  - injection H as <-. simpl. rewrite app_nil_r. reflexivity.
  - apply bind_ok in H. destruct H as [g1 [Hadd H]].
    unfold group_add in Hadd. simpl in Hadd.
    destruct (hashable l); [| discriminate Hadd]. injection Hadd as <-.
    rewrite (IH _ H), store_keys. simpl map. simpl first_seen.
    cbn [filter].
    replace (fresh (map fst acc) l) with (negb (is_some (lookup acc l)))
      by (unfold fresh; rewrite lookup_existsb; reflexivity).
    destruct (is_some (lookup acc l)) eqn:E; cbn [negb].
    + f_equal. rewrite filter_filter_and. apply filter_ext_in.
      intros k _. unfold fresh.
      destruct (existsb (fun a => same_key a k) (map fst acc)) eqn:Ek;
        [rewrite andb_false_r; reflexivity |].
      rewrite andb_true_r. simpl.
      destruct (same_key l k) eqn:Elk; [| reflexivity].
      rewrite lookup_existsb in E. apply existsb_exists in E.
      destruct E as (a & Ha & Hal).
      assert (X : existsb (fun a => same_key a k) (map fst acc) = true).
      { apply existsb_exists. exists a. split; [exact Ha |].
        apply (same_key_trans _ _ _ Hal Elk). }
      rewrite X in Ek. discriminate Ek.
    + rewrite <- app_assoc. simpl. f_equal. f_equal.
      rewrite filter_filter_and. apply filter_ext.
      intros k. unfold fresh. rewrite existsb_app. simpl.
      rewrite orb_false_r, negb_orb. apply andb_comm.
Qed.

Lemma group_lines_hashable (lines : list (pyval * dict))
  (acc grouped : pydict (list dict)) :
  group_lines lines acc = Ok grouped ->
  Forall (fun ld => hashable (fst ld) = true) lines.
Proof.
  unfold group_lines. revert acc.
  induction lines as [| [l d] lines IH]; intros acc H; simpl in H.
  - constructor.
  - apply bind_ok in H. destruct H as [g1 [Hadd H]].
    unfold group_add in Hadd. simpl in Hadd.
    destruct (hashable l) eqn:E; [| discriminate Hadd].
    constructor; [exact E | exact (IH _ H)].
Qed.

Lemma group_lines_lookup (lines : list (pyval * dict))
  (acc grouped : pydict (list dict)) (k : pyval) :
  group_lines lines acc = Ok grouped ->
  lookup grouped k = extended (lookup acc k) (lines_of k lines).
Proof.
  unfold group_lines. revert acc.
  induction lines as [| [l d] lines IH]; intros acc H; simpl in H.
  - injection H as <-. unfold lines_of. simpl.
    destruct (lookup acc k); simpl; [rewrite app_nil_r |]; reflexivity.
  - apply bind_ok in H. destruct H as [g1 [Hadd H]].
    unfold group_add in Hadd. simpl in Hadd.
    destruct (hashable l); [| discriminate Hadd]. injection Hadd as <-.
    rewrite (IH _ H), lookup_store. unfold lines_of. simpl.
    rewrite (same_key_sym k l).
    destruct (same_key l k) eqn:E; simpl; [| reflexivity].
    rewrite (lookup_congr acc l k E).
    destruct (lookup acc k) as [p |]; simpl.
    + rewrite <- app_assoc. reflexivity.
    + reflexivity.
Qed.

Lemma distinct_filter (p : pyval -> bool) (ks : list pyval) :
  distinct_keys ks -> distinct_keys (filter p ks).
Proof.
  induction 1 as [| k ks Hk _ IH]; simpl; [constructor |].
  destruct (p k); [| exact IH].
  constructor; [| exact IH].
  apply Forall_forall. intros x Hx. apply filter_In in Hx.
  rewrite Forall_forall in Hk. apply Hk. apply Hx.
Qed.

Lemma first_seen_distinct (ls : list pyval) : distinct_keys (first_seen ls).
Proof.
  induction ls as [| l ls IH]; simpl; [constructor |].
  constructor; [| apply distinct_filter, IH].
  apply Forall_forall. intros x Hx. apply filter_In in Hx.
  destruct Hx as [_ Hx]. apply negb_true_iff in Hx. exact Hx.
Qed.

Lemma lookup_entry {V : Type} (d : pydict V) (k : pyval) (v : V) :
  distinct_keys (map fst d) -> same_key k k = true ->
  In (k, v) d -> lookup d k = Some v.
Proof.
  intros Hd Hk. induction d as [| [k' v'] d IH]; simpl; [intros [] |].
  inversion Hd as [| a l Ha Hl]; subst.
  intros [E | Hin].
  - injection E as -> ->. rewrite Hk. reflexivity.
  - destruct (same_key k' k) eqn:E; [| apply IH; assumption].
    rewrite Forall_forall in Ha.
    rewrite (Ha k) in E; [discriminate E |].
    apply in_map_iff. exists (k, v). split; [reflexivity | exact Hin].
Qed.

Lemma first_seen_in (ls : list pyval) (k : pyval) :
  In k (first_seen ls) -> In k ls.
Proof.
  induction ls as [| l ls IH]; simpl; [intros [] |].
  intros [E | H]; [left; exact E |].
  right. apply IH. apply filter_In in H. apply H.
Qed.

(** X6.  The groups come in the order in which their labels first occur
    among the line items of the document (the order of insertion into
    [grouped]), not in alphabetical order; a label that occurs again opens
    no second group.  (A label that is NaN is left aside: whether two NaN
    are one key depends on their being one object.) *)
Theorem groups_in_first_seen_order
  (lib : pylib) (lk : pydict dict) (items : list pyval)
  (grouped : pydict (list dict)) :
  group_items lib lk items = Ok grouped ->
  exists lines,
    mapM (resolve_item lib lk) items = Ok lines /\
    (Forall (fun ld => is_nan_value (fst ld) = false) lines ->
     map fst grouped = first_seen (map fst lines) /\
     distinct_keys (map fst grouped)).
Proof.
  intros H. destruct (group_items_lines _ _ _ _ _ H) as (lines & Hm & Hg).
  exists lines. split; [exact Hm |]. intros _.
  assert (E : map fst grouped = first_seen (map fst lines)).
  { rewrite (group_lines_keys _ _ _ Hg). simpl. apply filter_true. }
  split; [exact E |]. rewrite E. apply first_seen_distinct.
Qed.

Lemma groups_in_first_seen_order_witness :
  exists grouped,
    group_items ref_lib catalog_two three_lines = Ok grouped /\
    map fst grouped = [VStr "B"; VStr "A"].
Proof.
  destruct (group_items ref_lib catalog_two three_lines)
    as [grouped | e] eqn:HG; [| vm_compute in HG; discriminate HG].
  exists grouped. split; [reflexivity |].
  destruct (groups_in_first_seen_order ref_lib catalog_two three_lines
              grouped HG) as (lines & Hm & Hord).
  vm_compute in Hm. injection Hm as <-.
  destruct Hord as [E _]; [repeat constructor |].
  rewrite E. reflexivity.
Defined.

(** X7.  A group holds the [data] of exactly the lines that carry its
    label, in the order of the document (before the sort by SKU), and no
    group is empty: grouping loses no line and moves none to another
    group. *)
Theorem group_holds_the_lines_of_its_label
  (lib : pylib) (lk : pydict dict) (items : list pyval)
  (grouped : pydict (list dict)) :
  group_items lib lk items = Ok grouped ->
  exists lines,
    mapM (resolve_item lib lk) items = Ok lines /\
    (Forall (fun ld => is_nan_value (fst ld) = false) lines ->
     forall k prods, In (k, prods) grouped ->
       prods = lines_of k lines /\ prods <> []).
Proof.
  intros H. destruct (group_items_lines _ _ _ _ _ H) as (lines & Hm & Hg).
  exists lines. split; [exact Hm |].
  intros Hnan k prods Hin.
  pose proof (group_lines_keys _ _ _ Hg) as Hk. simpl in Hk.
  rewrite filter_true in Hk.
  assert (Hkk : same_key k k = true).
  { assert (Hl : In k (map fst lines)).
    { apply first_seen_in. rewrite <- Hk.
      apply in_map_iff. exists (k, prods). split; [reflexivity | exact Hin]. }
    apply in_map_iff in Hl. destruct Hl as ([k' d] & E & Hl).
    simpl in E. subst k'.
    pose proof (group_lines_hashable _ _ _ Hg) as Hh.
    rewrite Forall_forall in Hh, Hnan.
    apply same_key_refl; [apply (Hh _ Hl) | apply (Hnan _ Hl)]. }
  assert (Hd : distinct_keys (map fst grouped)).
  { rewrite Hk. apply first_seen_distinct. }
  pose proof (lookup_entry _ _ _ Hd Hkk Hin) as Hl.
  rewrite (group_lines_lookup _ _ _ k Hg) in Hl. simpl in Hl.
  destruct (lines_of k lines) as [| d ds]; [discriminate Hl |].
  injection Hl as <-. split; [reflexivity | discriminate].
Qed.

Lemma group_holds_the_lines_of_its_label_witness :
  exists grouped prods,
    group_items ref_lib catalog_two three_lines = Ok grouped /\
    In (VStr "B", prods) grouped /\
    prods <> [].
Proof.
  destruct (group_items ref_lib catalog_two three_lines)
    as [grouped | e] eqn:HG; [| vm_compute in HG; discriminate HG].
  destruct (group_holds_the_lines_of_its_label ref_lib catalog_two
              three_lines grouped HG) as (lines & Hm & Hall).
  vm_compute in Hm. injection Hm as <-.
  vm_compute in HG. injection HG as <-.
  eexists. eexists. split; [reflexivity |].
  split; [left; reflexivity |].
  exact (proj2 (Hall ltac:(repeat constructor) _ _ (or_introl eq_refl))).
Defined.

(** ** The sort by SKU *)

Lemma insert_sorted_perm (x : dict) (l l' : list dict) :
  insert_sorted x l = Ok l' -> Permutation (x :: l) l'.
Proof.
  revert l'. induction l as [| y l IH]; intros l' H; simpl in H.
  - injection H as <-. apply Permutation_refl.
  - apply bind_ok in H. destruct H as [b [_ H]]. destruct b.
    + injection H as <-. apply Permutation_refl.
    + apply bind_ok in H. destruct H as [r [Hr H]]. injection H as <-.
      eapply perm_trans; [apply perm_swap |].
      apply perm_skip. apply IH. exact Hr.
Qed.

Lemma sorted_from_perm (l acc l' : list dict) :
  foldM (fun a x => insert_sorted x a) l acc = Ok l' ->
  Permutation (acc ++ l) l'.
Proof.
  revert acc. induction l as [| x l IH]; intros acc H; simpl in H.
  - injection H as <-. rewrite app_nil_r. apply Permutation_refl.
  - apply bind_ok in H. destruct H as [a1 [H1 H]].
    eapply perm_trans; [| apply (IH _ H)].
    apply insert_sorted_perm in H1.
    eapply perm_trans; [apply Permutation_sym, Permutation_middle |].
    apply (Permutation_app_tail l H1).
Qed.

(** X8.  When [sorted] returns, what it returns is a rearrangement of the
    rows it was given: the sort of a group by SKU drops no row and repeats
    none, whatever the SKUs are. *)
Theorem sorting_keeps_every_row (l l' : list dict) :
  sorted l = Ok l' -> Permutation l l'.
Proof.
  intros H. unfold sorted in H.
  apply (sorted_from_perm l [] l' H).
Qed.

Lemma sorting_keeps_every_row_witness :
  exists l', sorted shelf = Ok l' /\ Permutation shelf l'.
Proof.
  destruct (sorted shelf) as [l' | e] eqn:HS;
    [| vm_compute in HS; discriminate HS].
  exists l'. split; [reflexivity |].
  apply (sorting_keeps_every_row shelf l' HS).
Defined.

Lemma ltb_leb (s t : string) : String.ltb s t = true -> String.leb s t = true.
Proof.
  unfold String.ltb, String.leb. destruct (String.compare s t); congruence.
Qed.

Lemma not_ltb_leb (s t : string) :
  String.ltb s t = false -> String.leb t s = true.
Proof.
  unfold String.ltb, String.leb. rewrite (String.compare_antisym s t).
  destruct (String.compare t s); simpl; congruence.
Qed.

Lemma ltb_leb_trans (s t u : string) :
  String.ltb s t = true -> String.leb t u = true -> String.ltb s u = true.
Proof.
  unfold String.ltb, String.leb. intros H1 H2.
  destruct (String.compare s t) eqn:E1; try discriminate H1.
  destruct (String.compare t u) eqn:E2; try discriminate H2.
  - apply String.compare_eq_iff in E2. subst u. rewrite E1. reflexivity.
  - apply String_as_OT.cmp_lt in E1. apply String_as_OT.cmp_lt in E2.
    pose proof (String_as_OT.lt_trans _ _ _ E1 E2) as E.
    apply String_as_OT.cmp_lt in E. unfold String_as_OT.cmp in E.
    rewrite E. reflexivity.
Qed.

Lemma ltb_irrefl (s : string) : String.ltb s s = false.
Proof.
  unfold String.ltb.
  destruct (String.compare s s) eqn:E; try reflexivity.
  pose proof (String.compare_antisym s s) as A. rewrite E in A.
  discriminate A.
Qed.

Lemma text_key_inv (x : dict) :
  text_key x = true -> exists s, sort_key x = VStr s.
Proof.
  unfold text_key. destruct (sort_key x); try discriminate.
  intros _. eexists. reflexivity.
Qed.

Lemma insert_sorted_text (x : dict) (l : list dict) :
  text_key x = true ->
  Forall (fun y => text_key y = true) l ->
  StronglySorted (fun a b => sku_leb a b = true) l ->
  exists l',
    insert_sorted x l = Ok l' /\
    StronglySorted (fun a b => sku_leb a b = true) l' /\
    forall s,
      filter (has_sku s) l' = filter (has_sku s) l ++ filter (has_sku s) [x].
Proof.
  intros Hx Hl Hs. destruct (text_key_inv _ Hx) as [sx Ex].
  induction l as [| y l IH].
  - exists [x]. split; [reflexivity |]. split; [| reflexivity].
    constructor; constructor.
  - inversion Hl as [| ? ? Hy Hl']; subst.
    inversion Hs as [| ? ? Hs' Hyl]; subst.
    destruct (text_key_inv _ Hy) as [sy Ey].
    simpl. rewrite Ex, Ey. simpl.
    destruct (String.ltb sx sy) eqn:E.
    + exists (x :: y :: l). split; [reflexivity |].
      assert (Hlt : Forall (fun z => exists sz, sort_key z = VStr sz /\
                                      String.ltb sx sz = true) (y :: l)).
      { constructor; [exists sy; split; assumption |].
        rewrite Forall_forall in Hyl, Hl'. apply Forall_forall.
        intros z Hz. destruct (text_key_inv _ (Hl' _ Hz)) as [sz Ez].
        exists sz. split; [exact Ez |].
        pose proof (Hyl _ Hz) as L. unfold sku_leb in L.
        rewrite Ey, Ez in L. apply (ltb_leb_trans _ _ _ E L). }
      split.
      * constructor; [exact Hs |].
        apply Forall_forall. intros z Hz. rewrite Forall_forall in Hlt.
        destruct (Hlt _ Hz) as (sz & Ez & Lz).
        unfold sku_leb. rewrite Ex, Ez. apply ltb_leb, Lz.
      * intros s.
        change (filter (has_sku s) (x :: y :: l))
          with (if has_sku s x then x :: filter (has_sku s) (y :: l)
                else filter (has_sku s) (y :: l)).
        change (filter (has_sku s) [x])
          with (if has_sku s x then [x] else []).
        destruct (has_sku s x) eqn:Hsx; [| rewrite app_nil_r; reflexivity].
        unfold has_sku in Hsx. rewrite Ex in Hsx. simpl in Hsx.
        apply String.eqb_eq in Hsx. subst s.
        assert (N : filter (has_sku sx) (y :: l) = []).
        { clear - Hlt. induction Hlt as [| z zs (sz & Ez & Lz) _ IHz];
            [reflexivity |].
          simpl. unfold has_sku at 1. rewrite Ez. simpl.
          destruct (String.eqb_spec sz sx) as [-> |]; [| exact IHz].
          rewrite ltb_irrefl in Lz. discriminate Lz. }
        cbn [filter] in N |- *. rewrite N. reflexivity.
    + destruct (IH Hl' Hs') as (r & Hr & Sr & Fr).
      rewrite Hr. simpl. exists (y :: r). split; [reflexivity |]. split.
      * constructor; [exact Sr |].
        apply Forall_forall. intros z Hz.
        apply insert_sorted_perm in Hr.
        apply (Permutation_in _ (Permutation_sym Hr)) in Hz.
        destruct Hz as [<- | Hz].
        -- unfold sku_leb. rewrite Ey, Ex. apply not_ltb_leb, E.
        -- rewrite Forall_forall in Hyl. apply Hyl, Hz.
      * intros s. simpl. rewrite Fr. simpl.
        destruct (has_sku s y); reflexivity.
Qed.

Lemma insert_sorted_keeps (P : dict -> Prop) (x : dict) (l l' : list dict) :
  insert_sorted x l = Ok l' -> P x -> Forall P l -> Forall P l'.
Proof.
  intros H Hx Hl. apply insert_sorted_perm in H.
  apply (Permutation_Forall H). constructor; assumption.
Qed.

Lemma sorted_from_text (l acc : list dict) :
  Forall (fun y => text_key y = true) l ->
  Forall (fun y => text_key y = true) acc ->
  StronglySorted (fun a b => sku_leb a b = true) acc ->
  exists l',
    foldM (fun a x => insert_sorted x a) l acc = Ok l' /\
    StronglySorted (fun a b => sku_leb a b = true) l' /\
    forall s, filter (has_sku s) l' = filter (has_sku s) (acc ++ l).
Proof.
  intros Hl. revert acc. induction Hl as [| x l Hx _ IH]; intros acc Ha Hs.
  - exists acc. split; [reflexivity |]. split; [exact Hs |].
    intros s. rewrite app_nil_r. reflexivity.
  - destruct (insert_sorted_text x acc Hx Ha Hs) as (a1 & H1 & S1 & F1).
    destruct (IH a1 (insert_sorted_keeps _ _ _ _ H1 Hx Ha) S1)
      as (l' & H' & S' & F').
    exists l'. split; [simpl; rewrite H1; exact H' |].
    split; [exact S' |].
    intros s. rewrite F', !filter_app, F1, <- app_assoc.
    f_equal. simpl. destruct (has_sku s x); reflexivity.
Qed.

(** X9.  When every SKU of a group is a [str] or is falsy (a missing or
    empty SKU counts as the empty string), the sort never fails and is the
    stable sort by SKU: the rows come out in ascending order of SKU, the
    empty one first, and rows of equal SKU keep the order they had in the
    document. *)
Theorem sorted_by_sku_is_a_stable_sort (l : list dict) :
  Forall (fun x => text_key x = true) l ->
  exists l',
    sorted l = Ok l' /\
    StronglySorted (fun a b => sku_leb a b = true) l' /\
    forall s, filter (has_sku s) l' = filter (has_sku s) l.
Proof.
  intros H.
  destruct (sorted_from_text l [] H (Forall_nil _) (SSorted_nil _))
    as (l' & H' & S' & F').
  exists l'. split; [exact H' |]. split; [exact S' | exact F'].
Qed.

Lemma sorted_by_sku_is_a_stable_sort_witness :
  exists l',
    sorted shelf = Ok l' /\
    map (fun d => get d "SKU") l' = [VNone; VStr "A-1"; VStr "B-2"].
Proof.
  destruct (sorted_by_sku_is_a_stable_sort shelf) as (l' & HS & _ & _);
    [repeat constructor |].
  exists l'. split; [exact HS |].
  vm_compute in HS. injection HS as <-. reflexivity.
Defined.

Lemma key_lt_same_kind (c : bool) (x y : dict) :
  same_kind c x = true -> same_kind c y = true ->
  exists b, key_lt (sort_key x) (sort_key y) = Ok b.
Proof.
  unfold same_kind, text_key, number_key, isinstance_number, key_lt.
  destruct c; intros Hx Hy.
  - destruct (sort_key x); try discriminate Hx.
    destruct (sort_key y); try discriminate Hy.
    eexists. reflexivity.
  - unfold py_lt, lift2.
    destruct (sort_key x) eqn:Ex; simpl in Hx; try discriminate Hx;
      destruct (sort_key y) eqn:Ey; simpl in Hy; try discriminate Hy;
      simpl; eexists; reflexivity.
Qed.

Lemma key_lt_other_kind (c : bool) (x y : dict) :
  same_kind (negb c) x = true -> same_kind c y = true ->
  key_lt (sort_key x) (sort_key y) = Raise TypeError.
Proof.
  unfold same_kind, text_key, number_key, isinstance_number, key_lt.
  destruct c; simpl; intros Hx Hy.
  - destruct (sort_key y); try discriminate Hy.
    unfold py_lt, lift2.
    destruct (sort_key x); simpl in Hx; try discriminate Hx; reflexivity.
  - destruct (sort_key x); try discriminate Hx.
    unfold py_lt, lift2.
    destruct (sort_key y); simpl in Hy; try discriminate Hy; reflexivity.
Qed.

Lemma insert_sorted_same_kind (c : bool) (x : dict) (l : list dict) :
  same_kind c x = true -> Forall (fun y => same_kind c y = true) l ->
  exists l', insert_sorted x l = Ok l'.
Proof.
  intros Hx Hl. induction Hl as [| y l Hy _ [r Hr]].
  - eexists. reflexivity.
  - simpl. destruct (key_lt_same_kind c x y Hx Hy) as [b ->]. simpl.
    destruct b; [eexists; reflexivity |].
    rewrite Hr. eexists. reflexivity.
Qed.

Lemma sorted_from_mixed (c : bool) (l acc : list dict) :
  acc <> [] ->
  Forall (fun y => same_kind c y = true) acc ->
  Forall (fun y => same_kind c y = true \/ same_kind (negb c) y = true) l ->
  Exists (fun y => same_kind (negb c) y = true) l ->
  foldM (fun a x => insert_sorted x a) l acc = Raise TypeError.
Proof.
  intros Hne Ha Hl Hex. revert acc Hne Ha.
  induction Hl as [| x l Hx Hl IH]; intros acc Hne Ha.
  - inversion Hex.
  - simpl. destruct (same_kind (negb c) x) eqn:Ex.
    + destruct acc as [| y acc]; [contradiction Hne; reflexivity |].
      inversion Ha as [| ? ? Hy _]; subst.
      simpl. rewrite (key_lt_other_kind c x y Ex Hy). reflexivity.
    + destruct Hx as [Hx | Hx]; [| discriminate Hx].
      destruct (insert_sorted_same_kind c x acc Hx Ha) as [a1 H1].
      rewrite H1. simpl. apply IH.
      * inversion Hex as [? ? E | ? ? E]; subst;
          [rewrite E in Ex; discriminate Ex | exact E].
      * intros ->. apply insert_sorted_perm in H1.
        apply Permutation_sym, Permutation_nil in H1. discriminate H1.
      * apply (insert_sorted_keeps _ _ _ _ H1 Hx Ha).
Qed.

(** X10.  A group in which one SKU is text (or missing) and another is a
    number cannot be sorted: [<] between a [str] and a number raises
    [TypeError], and the whole report fails with it. *)
Theorem mixed_sku_types_cannot_be_sorted (l : list dict) :
  Forall (fun x => text_key x = true \/ number_key x = true) l ->
  Exists (fun x => text_key x = true) l ->
  Exists (fun x => number_key x = true) l ->
  sorted l = Raise TypeError.
Proof.
  intros Hall Ht Hn. unfold sorted.
  destruct l as [| x l]; [inversion Ht |].
  inversion Hall as [| ? ? Hx Hl]; subst.
  simpl.
  assert (K : forall c, same_kind c x = true ->
                        Exists (fun y => same_kind (negb c) y = true) (x :: l) ->
                        foldM (fun a y => insert_sorted y a) l [x]
                        = Raise TypeError).
  { intros c Hc Hex. apply (sorted_from_mixed c).
    - discriminate.
    - constructor; [exact Hc | constructor].
    - apply Forall_forall. intros y Hy. rewrite Forall_forall in Hl.
      destruct c; simpl; destruct (Hl _ Hy); auto.
    - inversion Hex as [? ? E | ? ? E]; subst; [| exact E].
      exfalso. clear - Hc E. unfold same_kind, text_key, number_key,
        isinstance_number in *.
      destruct c; simpl in *; destruct (sort_key x); simpl in *;
        discriminate. }
  destruct Hx as [Hx | Hx].
  - apply (K true Hx). exact Hn.
  - apply (K false Hx). exact Ht.
Qed.

Lemma mixed_sku_types_cannot_be_sorted_witness :
  sorted mixed_shelf = Raise TypeError.
Proof.
  apply (mixed_sku_types_cannot_be_sorted mixed_shelf).
  - constructor; [left; reflexivity |].
    constructor; [right; reflexivity | constructor].
  - left. reflexivity.
  - right. left. reflexivity.
Defined.

(** ** The rows of the report *)

Lemma store_members_new {V : Type} (d : pydict (list V)) (k : pyval) (x : V) :
  lookup d k = None ->
  flat_map snd (store d k [x]) = flat_map snd d ++ [x].
Proof.
  induction d as [| [k' v'] d IH]; simpl; [reflexivity |].
  destruct (same_key k' k); [discriminate |].
  intros H. simpl. rewrite (IH H), app_assoc. reflexivity.
Qed.

Lemma store_members_old {V : Type} (d : pydict (list V)) (k : pyval)
  (old : list V) (x : V) :
  lookup d k = Some old ->
  Permutation (flat_map snd (store d k (old ++ [x]))) (x :: flat_map snd d).
Proof.
  induction d as [| [k' v'] d IH]; simpl; [discriminate |].
  destruct (same_key k' k); simpl.
  - intros H. injection H as ->. rewrite <- app_assoc.
    apply Permutation_sym.
    apply (Permutation_middle old (flat_map snd d) x).
  - intros H. eapply perm_trans; [apply Permutation_app_head, (IH H) |].
    apply Permutation_sym, Permutation_middle.
Qed.

Lemma group_lines_members (lines : list (pyval * dict))
  (acc grouped : pydict (list dict)) :
  group_lines lines acc = Ok grouped ->
  Permutation (all_members grouped) (all_members acc ++ map snd lines).
Proof.
  unfold group_lines, all_members. revert acc.
  induction lines as [| [l d] lines IH]; intros acc H; simpl in H.
  - injection H as <-. simpl. rewrite app_nil_r. apply Permutation_refl.
  - apply bind_ok in H. destruct H as [g1 [Hadd H]].
    unfold group_add in Hadd. simpl in Hadd.
    destruct (hashable l); [| discriminate Hadd]. injection Hadd as <-.
    eapply perm_trans; [apply (IH _ H) |]. simpl.
    eapply perm_trans; [| apply Permutation_middle].
    change (d :: flat_map snd acc ++ map snd lines)
      with ((d :: flat_map snd acc) ++ map snd lines).
    apply Permutation_app_tail.
    destruct (lookup acc l) as [old |] eqn:E.
    + apply (store_members_old _ _ _ _ E).
    + rewrite (store_members_new _ _ _ E).
      apply Permutation_sym, Permutation_cons_append.
Qed.

Lemma sort_groups_inv (grouped groups : pydict (list dict)) :
  sort_groups grouped = Ok groups ->
  Forall2 (fun g g' => fst g' = fst g /\ sorted (snd g) = Ok (snd g'))
          grouped groups.
Proof.
  unfold sort_groups. revert groups.
  induction grouped as [| [l prods] grouped IH]; intros groups H; simpl in H.
  - injection H as <-. constructor.
  - apply bind_ok in H. destruct H as [g1 [H1 H]].
    apply bind_ok in H1. destruct H1 as [sp [Hsp H1]]. injection H1 as <-.
    apply bind_ok in H. destruct H as [gs [Hgs H]]. injection H as <-.
    constructor; [split; [reflexivity | exact Hsp] | apply IH, Hgs].
Qed.

Lemma sort_groups_members_perm (grouped groups : pydict (list dict)) :
  sort_groups grouped = Ok groups ->
  Permutation (all_members groups) (all_members grouped).
Proof.
  intros H. apply sort_groups_inv in H. unfold all_members.
  induction H as [| g g' gs gs' [_ Hs] _ IH]; simpl.
  - apply Permutation_refl.
  - apply Permutation_app; [| exact IH].
    apply Permutation_sym. apply (sorted_from_perm _ [] _ Hs).
Qed.

Lemma sort_groups_labels (grouped groups : pydict (list dict)) :
  sort_groups grouped = Ok groups -> map fst groups = map fst grouped.
Proof.
  intros H. apply sort_groups_inv in H.
  induction H as [| g g' gs gs' [E _] _ IH]; simpl;
    [reflexivity | rewrite E, IH; reflexivity].
Qed.

Lemma mapM_length {A B : Type} (f : A -> result B) (xs : list A) (ys : list B) :
  mapM f xs = Ok ys -> List.length ys = List.length xs.
Proof.
  revert ys. induction xs as [| x xs IH]; intros ys H; simpl in H.
  - injection H as <-. reflexivity.
  - apply bind_ok in H. destruct H as [y [_ H]].
    apply bind_ok in H. destruct H as [ys' [H' H]]. injection H as <-.
    simpl. rewrite (IH _ H'). reflexivity.
Qed.

Lemma report_structure
  (lib : pylib) (cell : pyval) (lk : pydict dict) (fr : frame) :
  get_products_info_for_row lib cell lk = Ok fr ->
  exists items lines grouped groups,
    line_items cell = Ok items /\
    mapM (resolve_item lib lk) items = Ok lines /\
    group_lines lines [] = Ok grouped /\
    sort_groups grouped = Ok groups /\
    rows fr = map final_row (flat_map (group_block lib) groups).
Proof.
  intros H. apply report_rows in H.
  destruct H as (items & grouped & groups & Hi & Hg & Hs & _ & Hrows).
  destruct (group_items_lines _ _ _ _ _ Hg) as (lines & Hm & Hgl).
  exists items, lines, grouped, groups. repeat split; assumption.
Qed.

(** X11.  The member rows of a report are the [data] of the line items of
    the document, each of them exactly once: every line of the document
    resolved, and its row is in one block of the report. *)
Theorem member_rows_are_the_lines
  (lib : pylib) (cell : pyval) (lk : pydict dict) (fr : frame) :
  get_products_info_for_row lib cell lk = Ok fr ->
  exists items lines groups,
    line_items cell = Ok items /\
    mapM (resolve_item lib lk) items = Ok lines /\
    rows fr = map final_row (flat_map (group_block lib) groups) /\
    Permutation (all_members groups) (map snd lines).
Proof.
  intros H. apply report_structure in H.
  destruct H as (items & lines & grouped & groups & Hi & Hm & Hg & Hs & Hr).
  exists items, lines, groups. repeat split; try assumption.
  eapply perm_trans; [apply (sort_groups_members_perm _ _ Hs) |].
  apply (group_lines_members _ _ _ Hg).
Qed.

Lemma member_rows_are_the_lines_witness :
  exists fr items lines groups,
    get_products_info_for_row ref_lib two_lines [] = Ok fr /\
    line_items two_lines = Ok items /\
    mapM (resolve_item ref_lib []) items = Ok lines /\
    rows fr = map final_row (flat_map (group_block ref_lib) groups) /\
    Permutation (all_members groups) (map snd lines).
Proof.
  destruct (get_products_info_for_row ref_lib two_lines [])
    as [fr | e] eqn:HR; [| vm_compute in HR; discriminate HR].
  destruct (member_rows_are_the_lines ref_lib two_lines [] fr HR)
    as (items & lines & groups & H).
  exists fr, items, lines, groups. split; [reflexivity | exact H].
Defined.

Lemma blocks_length (lib : pylib) (groups : pydict (list dict)) :
  List.length (flat_map (group_block lib) groups) =
  (List.length (all_members groups) + 2 * List.length groups)%nat.
Proof.
  unfold all_members.
  induction groups as [| [l prods] groups IH]; simpl; [reflexivity |].
  rewrite !length_app, IH. simpl. lia.
Qed.

(** X12.  A report of [n] line items in [g] groups has [n + 2 g] rows, a
    header and a subtotal row around the member rows of each group, with
    at most as many groups as lines; it has no row exactly when the
    document has no line item. *)
Theorem report_row_count
  (lib : pylib) (cell : pyval) (lk : pydict dict) (fr : frame) :
  get_products_info_for_row lib cell lk = Ok fr ->
  exists items groups,
    line_items cell = Ok items /\
    rows fr = map final_row (flat_map (group_block lib) groups) /\
    List.length (rows fr) =
      (List.length items + 2 * List.length groups)%nat /\
    (List.length groups <= List.length items)%nat /\
    (rows fr = [] <-> items = []).
Proof.
  intros H. apply report_structure in H.
  destruct H as (items & lines & grouped & groups & Hi & Hm & Hg & Hs & Hr).
  exists items, groups. split; [exact Hi |]. split; [exact Hr |].
  assert (Hn : List.length (all_members groups) = List.length items).
  { rewrite (Permutation_length (sort_groups_members_perm _ _ Hs)).
    rewrite (Permutation_length (group_lines_members _ _ _ Hg)).
    simpl. rewrite length_map. apply (mapM_length _ _ _ Hm). }
  assert (Hk : (List.length groups <= List.length items)%nat).
  { rewrite <- (length_map fst groups), (sort_groups_labels _ _ Hs).
    pose proof (group_lines_keys _ _ _ Hg) as K. simpl in K.
    rewrite K, filter_true, <- (mapM_length _ _ _ Hm),
      <- (length_map fst lines).
    generalize (map fst lines). intros ls.
    induction ls as [| l ls IH]; simpl; [lia |].
    pose proof (filter_length_le (fun k => negb (same_key l k))
                                 (first_seen ls)).
    lia. }
  assert (Hlen : List.length (rows fr) =
                 (List.length items + 2 * List.length groups)%nat).
  { rewrite Hr, length_map, blocks_length, Hn. reflexivity. }
  split; [exact Hlen |]. split; [exact Hk |].
  split.
  - intros E. rewrite E in Hlen. simpl in Hlen.
    destruct items; [reflexivity | simpl in Hlen; lia].
  - intros E. rewrite E in Hlen, Hk. simpl in Hlen, Hk.
    destruct (rows fr); [reflexivity | simpl in Hlen; lia].
Qed.

Lemma report_row_count_witness :
  exists fr,
    get_products_info_for_row ref_lib two_lines [] = Ok fr /\
    List.length (rows fr) = 4%nat.
Proof.
  destruct (get_products_info_for_row ref_lib two_lines [])
    as [fr | e] eqn:HR; [| vm_compute in HR; discriminate HR].
  exists fr. split; [reflexivity |].
  destruct (report_row_count ref_lib two_lines [] fr HR)
    as (items & groups & _ & _ & _ & _ & _).
  vm_compute in HR. injection HR as <-. reflexivity.
Defined.

Lemma member_subtotal_cell
  (lib : pylib) (lk : pydict dict) (item label : pyval) (data : dict)
  (c : string) :
  resolve_item lib lk item = Ok (label, data) ->
  In c subtotal_cols ->
  get (final_row data) c =
  if is_subtotal_label (get data "Product") then VInt 0 else nan.
Proof.
  intros H Hc. apply resolve_item_inv in H.
  destruct H as (it & found & fl & insuf & falta & extra & tw &
                 _ & _ & _ & _ & _ & _ & ->).
  unfold final_row, fill_row, line_data.
  change (get (frame_row _) "Product") with (product_name fl).
  change (get [("Product", product_name fl); _; _; _; _; _; _; _; _; _]
              "Product")
    with (product_name fl).
  destruct (is_subtotal_label (product_name fl));
    simpl in Hc;
    repeat (destruct Hc as [<- | Hc]; [reflexivity |]); contradiction Hc.
Qed.

Lemma member_data_cell
  (lib : pylib) (lk : pydict dict) (item label : pyval) (data : dict)
  (c : string) :
  resolve_item lib lk item = Ok (label, data) ->
  In c data_cols ->
  get (final_row data) c = get data c.
Proof.
  intros H Hc. apply resolve_item_inv in H.
  destruct H as (it & found & fl & insuf & falta & extra & tw &
                 _ & _ & _ & _ & _ & _ & ->).
  unfold final_row, fill_row, line_data.
  change (get (frame_row _) "Product") with (product_name fl).
  destruct (is_subtotal_label (product_name fl));
    simpl in Hc;
    repeat (destruct Hc as [<- | Hc]; [reflexivity |]); contradiction Hc.
Qed.

(** X13.  In the table, the row of a line item shows its ten cells as they
    were computed, and a null in each of the four subtotal columns; but
    the rows that [fillna(0)] reaches are picked by the word "Subtotal" in
    the Product cell, so the row of a product whose name holds that word
    shows 0 there. *)
Theorem member_row_cells
  (lib : pylib) (lk : pydict dict) (item label : pyval) (data : dict) :
  resolve_item lib lk item = Ok (label, data) ->
  (forall c, In c data_cols -> get (final_row data) c = get data c) /\
  (forall c, In c subtotal_cols ->
     get (final_row data) c =
     if is_subtotal_label (get data "Product") then VInt 0 else nan).
Proof.
  intros H. split; intros c Hc.
  - apply (member_data_cell _ _ _ _ _ _ H Hc).
  - apply (member_subtotal_cell _ _ _ _ _ _ H Hc).
Qed.

Lemma member_row_cells_witness :
  exists label data,
    resolve_item ref_lib [] subtotal_box = Ok (label, data) /\
    get (final_row data) "Subtotal > Units" = VInt 0 /\
    get (final_row data) "Units" = VInt 1.
Proof.
  destruct (resolve_item ref_lib [] subtotal_box)
    as [[label data] | e] eqn:HR; [| vm_compute in HR; discriminate HR].
  exists label, data. split; [reflexivity |].
  destruct (member_row_cells ref_lib [] subtotal_box label data HR)
    as [Hd Hs].
  rewrite (Hs "Subtotal > Units") by (left; reflexivity).
  rewrite (Hd "Units") by (right; right; left; reflexivity).
  vm_compute in HR. injection HR as _ <-. split; reflexivity.
Defined.

Lemma group_items_app (lib : pylib) (lk : pydict dict)
  (xs ys : list pyval) :
  group_items lib lk (xs ++ ys) =
  (g <- group_items lib lk xs ;;
   foldM (fun grouped item =>
            '(label, data) <- resolve_item lib lk item ;;
            group_add grouped label data) ys g).
Proof. unfold group_items. apply foldM_app. Qed.

(** X14.  A report is all or nothing: when a line item raises (it is no
    object, its units are no number, an attribute is no object), the lines
    before it having gone through, [get_products_info_for_row] raises that
    exception, whatever the lines after it are; no partial report is
    returned. *)
Theorem failing_line_fails_the_report
  (lib : pylib) (cell : pyval) (lk : pydict dict)
  (before after : list pyval) (item : pyval) (e : exn)
  (grouped : pydict (list dict)) :
  line_items cell = Ok (before ++ item :: after) ->
  group_items lib lk before = Ok grouped ->
  resolve_item lib lk item = Raise e ->
  get_products_info_for_row lib cell lk = Raise e.
Proof.
  intros Hi Hg He. unfold get_products_info_for_row.
  rewrite Hi. cbn [bind]. rewrite group_items_app, Hg. cbn [bind foldM].
  rewrite He. reflexivity.
Qed.

Lemma failing_line_fails_the_report_witness :
  get_products_info_for_row ref_lib broken_lines catalog_a
  = Raise AttributeError.
Proof.
  destruct (group_items ref_lib catalog_a [line_a5])
    as [grouped | e] eqn:HG; [| vm_compute in HG; discriminate HG].
  apply (failing_line_fails_the_report ref_lib broken_lines catalog_a
           [line_a5] [] (VStr "oops") AttributeError grouped);
    [reflexivity | exact HG | reflexivity].
Defined.

(** ** The pallet summary, when it fails *)

(** X15.  The pallet summary raises nothing but [OverflowError], and it
    raises it exactly when the larger of the two quotients is infinite
    (there [int(np.ceil(...))] has no value); otherwise it returns an
    estimate of at least one pallet. *)
Theorem pallet_summary_fails_on_infinite_quotient
  (sum_weight sum_volume : F64.t) :
  let pw := pallets_by weight_per_pallet sum_weight in
  let pv := pallets_by volume_per_pallet sum_volume in
  exists gt : bool,
    py_lt pw pv = Ok gt /\
    (finite_value (if gt then pv else pw) = false ->
     pallet_summary sum_weight sum_volume = Raise OverflowError) /\
    (finite_value (if gt then pv else pw) = true ->
     exists est,
       pallet_summary sum_weight sum_volume = Ok est /\
       1 <= pallets_needed est).
Proof.
  intros pw pv.
  assert (Hlt : exists gt, py_lt pw pv = Ok gt).
  { destruct (pallets_by_number weight_per_pallet sum_weight)
      as [E | (f & E & _)];
      destruct (pallets_by_number volume_per_pallet sum_volume)
        as [E' | (f' & E' & _)];
      subst pw pv; rewrite E, E'; eexists; reflexivity. }
  destruct Hlt as [gt Hlt]. exists gt. split; [exact Hlt |].
  assert (Hm : (if gt then pv else pw) = VInt 0 \/
               exists f, (if gt then pv else pw) = VFloat f /\
                         F64.is_nan f = false).
  { destruct gt; [apply pallets_by_number | apply pallets_by_number]. }
  unfold pallet_summary, py_max. fold pw pv. rewrite Hlt. cbn [bind].
  destruct Hm as [-> | (f & -> & Hn)].
  - split; [discriminate |]. intros _. eexists. split; [reflexivity |].
    simpl. lia.
  - split.
    + intros Hf. destruct f; try discriminate Hf; try discriminate Hn.
      reflexivity.
    + intros Hf. destruct f as [s | s | | s m e]; try discriminate Hf;
        (eexists; split; [reflexivity | simpl; lia]).
Qed.

(** ** The TOTAL row and the sums behind the pallet estimate *)

Lemma final_header_row (lib : pylib) (label : pyval) :
  final_row (header_row lib label) = header_row lib label.
Proof.
  unfold final_row, fill_row.
  destruct (is_subtotal_label _); reflexivity.
Qed.

Lemma cells_blocks (lib : pylib) (c : string) (groups : pydict (list dict)) :
  cells c (map final_row (flat_map (group_block lib) groups)) =
  flat_map (fun g =>
              get (header_row lib (fst g)) c
              :: map (fun d => get (final_row d) c) (snd g)
              ++ [get (final_row (subtotal_row lib (fst g) (snd g))) c])
           groups.
Proof.
  unfold cells. induction groups as [| [l prods] groups IH]; [reflexivity |].
  change (flat_map (group_block lib) ((l, prods) :: groups))
    with ((header_row lib l :: prods ++ [subtotal_row lib l prods])
          ++ flat_map (group_block lib) groups).
  rewrite (map_app final_row), (map_app (fun d => get d c)), IH.
  cbn [flat_map fst snd]. f_equal.
  change (map final_row
            (header_row lib l :: prods ++ [subtotal_row lib l prods]))
    with (final_row (header_row lib l)
          :: map final_row (prods ++ [subtotal_row lib l prods])).
  rewrite final_header_row, map_app. cbn [map].
  rewrite map_app, map_map. reflexivity.
Qed.

Lemma term_zero_cases (lib : pylib) (b : bool) :
  term lib (if b then VInt 0 else nan) = zero.
Proof. destruct b; reflexivity. Qed.

Lemma filled_subtotal_number (lib : pylib) (k : nat) (cs : list pyval) :
  exists n, cell_num lib (filled (subtotal lib k cs)) = Some n.
Proof.
  unfold filled, subtotal.
  destruct (column_sum lib _) as [[z | f] |]; simpl;
    try (eexists; reflexivity).
  destruct (F64.is_zero f); simpl; [eexists; reflexivity |].
  destruct (F64.is_nan (F64.np_round k f)) eqn:N; simpl;
    [eexists; reflexivity |].
  rewrite N. eexists. reflexivity.
Qed.

Lemma subtotal_cell_number (lib : pylib) (label : pyval) (prods : list dict)
  (c : string) :
  In c subtotal_cols ->
  exists n,
    cell_num lib (get (final_row (subtotal_row lib label prods)) c) = Some n.
Proof.
  intros Hc. rewrite final_subtotal_row. simpl in Hc.
  repeat (destruct Hc as [<- | Hc]; [apply filled_subtotal_number |]).
  contradiction Hc.
Qed.

Lemma header_cell_blank (lib : pylib) (label : pyval) (c : string) :
  In c cols -> c <> "Product" -> get (header_row lib label) c = VStr "".
Proof.
  intros Hc Hn. simpl in Hc.
  repeat (destruct Hc as [<- | Hc];
          [try reflexivity; contradiction Hn; reflexivity |]).
  contradiction Hc.
Qed.

Lemma float_column (lib : pylib) (cs : list pyval) (v : pyval) :
  cell_num lib v = None ->
  to_numeric lib (v :: cs) =
  FloatCol (map float_cell (map (cell_num lib) (v :: cs))).
Proof.
  intros H. unfold to_numeric. simpl. rewrite H. reflexivity.
Qed.

Lemma report_members_resolved
  (lib : pylib) (cell : pyval) (lk : pydict dict) (fr : frame) :
  get_products_info_for_row lib cell lk = Ok fr ->
  exists groups,
    rows fr = map final_row (flat_map (group_block lib) groups) /\
    Forall (fun g => Forall (resolved lib lk) (snd g)) groups.
Proof.
  intros H. apply report_lines in H.
  destruct H as (items & groups & _ & Hr & Hall).
  exists groups. split; [exact Hr |].
  apply Forall_forall. intros [l prods] Hg.
  apply Forall_forall. intros d Hd.
  destruct (Hall d) as (item & label & _ & Hres).
  - exists l, prods. split; assumption.
  - exists item, label. exact Hres.
Qed.

Lemma subtotal_col_is_col (c : string) :
  In c subtotal_cols -> In c cols /\ c <> "Product".
Proof.
  intros Hc. simpl in Hc.
  repeat (destruct Hc as [<- | Hc]; [split; [simpl; tauto | discriminate] |]).
  contradiction Hc.
Qed.

Lemma subtotal_column_terms
  (lib : pylib) (lk : pydict dict) (c : string)
  (groups : pydict (list dict)) :
  to_numeric_str lib "" = None ->
  In c subtotal_cols ->
  Forall (fun g => Forall (resolved lib lk) (snd g)) groups ->
  map (term lib) (cells c (map final_row (flat_map (group_block lib) groups)))
  = flat_map (subtotal_terms lib c) groups.
Proof.
  intros Hblank Hc Hall. rewrite cells_blocks.
  destruct (subtotal_col_is_col c Hc) as [Hcol Hnp].
  induction Hall as [| [l prods] groups Hg _ IH]; [reflexivity |].
  cbn [flat_map fst snd]. rewrite map_app, IH. f_equal.
  unfold subtotal_terms. cbn [fst snd map].
  rewrite (header_cell_blank lib l c Hcol Hnp).
  f_equal; [unfold term; simpl; rewrite Hblank; reflexivity |].
  rewrite map_app, map_map. cbn [map]. f_equal.
  apply map_ext_in. intros d Hd. rewrite Forall_forall in Hg.
  destruct (Hg _ Hd) as (item & label & Hres).
  rewrite (member_subtotal_cell _ _ _ _ _ _ Hres Hc).
  apply term_zero_cases.
Qed.

(** X16.  In the TOTAL row, each of the four totals is a float64 sum of its
    subtotal column over the rows of the report, where a header row and a
    member row count [0.0] and the subtotal row of a group counts its
    subtotal: the grand total adds up the subtotals of the groups as they
    are shown, that is, rounded.  This is for a library whose float64
    reduction is a summation, and for a report without an integer beyond
    the binary64 range. *)
Theorem grand_total_sums_the_subtotals
  (lib : pylib) (cell : pyval) (lk : pydict dict) (fr : frame) (c : string) :
  sums lib ->
  get_products_info_for_row lib cell lk = Ok fr ->
  float_range (rows fr) = true ->
  rows fr <> [] ->
  to_numeric_str lib "" = None ->
  In c subtotal_cols ->
  exists groups s,
    rows fr = map final_row (flat_map (group_block lib) groups) /\
    summation (flat_map (subtotal_terms lib c) groups) s /\
    get (totals lib (rows fr)) c = VFloat s.
Proof.
  intros Hsums H _ Hne Hblank Hc.
  destruct (report_members_resolved _ _ _ _ H) as (groups & Hr & Hall).
  exists groups, (float_sum lib (flat_map (subtotal_terms lib c) groups)).
  split; [exact Hr |]. split; [apply Hsums |].
  destruct (subtotal_col_is_col c Hc) as [Hcol Hnp].
  assert (Ht : get (totals lib (rows fr)) c = column_total lib c (rows fr)).
  { simpl in Hc.
    repeat (destruct Hc as [<- | Hc]; [reflexivity |]). contradiction Hc. }
  rewrite Ht. unfold column_total.
  rewrite <- (subtotal_column_terms lib lk c groups Hblank Hc Hall).
  rewrite <- Hr.
  destruct groups as [| [l prods] groups];
    [rewrite Hr in Hne; contradiction Hne; reflexivity |].
  assert (Hcells : exists cs, cells c (rows fr) = VStr "" :: cs /\
            existsb is_some (map float_cell (map (cell_num lib) cs)) = true).
  { rewrite Hr, cells_blocks. cbn [flat_map fst snd].
    rewrite (header_cell_blank lib l c Hcol Hnp).
    set (rest := flat_map _ groups).
    set (blk := map _ prods ++ [_]).
    exists (blk ++ rest). split; [reflexivity |]. subst blk.
    rewrite <- app_assoc, !map_app, existsb_app.
    apply orb_true_iff. right. cbn [app map existsb].
    destruct (subtotal_cell_number lib l prods c Hc) as [n ->].
    destruct n; reflexivity. }
  destruct Hcells as (cs & -> & Hex).
  rewrite float_column by exact Hblank.
  unfold column_sum. cbn [map existsb]. rewrite Hex, orb_true_r.
  cbn [of_num]. unfold term. rewrite !map_map. reflexivity.
Qed.

Lemma grand_total_sums_the_subtotals_witness :
  sums ref_lib /\
  exists fr,
    get_products_info_for_row ref_lib (VList three_lines) catalog_two
      = Ok fr /\
    float_range (rows fr) = true /\
    map (fun r => get r "Subtotal > Units") (rows fr) =
      [VStr ""; nan; nan; VInt 5; VStr ""; nan; VInt 2] /\
    exists groups s,
      rows fr = map final_row (flat_map (group_block ref_lib) groups) /\
      summation (flat_map (subtotal_terms ref_lib "Subtotal > Units") groups)
                s /\
      get (totals ref_lib (rows fr)) "Subtotal > Units" = VFloat s /\
      s = F64.of_Z 7.
Proof.
  split; [exact left_sum_sums |].
  destruct (get_products_info_for_row ref_lib (VList three_lines) catalog_two)
    as [fr | e] eqn:HR; [| vm_compute in HR; discriminate HR].
  exists fr. split; [reflexivity |].
  assert (Hf : float_range (rows fr) = true).
  { pose proof HR as HR'. vm_compute in HR'. injection HR' as <-.
    vm_compute. reflexivity. }
  assert (Hne : rows fr <> []).
  { pose proof HR as HR'. vm_compute in HR'. injection HR' as <-.
    discriminate. }
  split; [exact Hf |].
  destruct (grand_total_sums_the_subtotals ref_lib (VList three_lines)
              catalog_two fr "Subtotal > Units" left_sum_sums HR Hf Hne
              eq_refl (or_introl eq_refl))
    as (groups & s & Hr & Hs & Ht).
  assert (Ec : map (fun r => get r "Subtotal > Units") (rows fr) =
               [VStr ""; nan; nan; VInt 5; VStr ""; nan; VInt 2]).
  { pose proof HR as HR'. vm_compute in HR'. injection HR' as <-.
    vm_compute. reflexivity. }
  assert (E7 : get (totals ref_lib (rows fr)) "Subtotal > Units"
               = VFloat (F64.of_Z 7)).
  { pose proof HR as HR'. vm_compute in HR'. injection HR' as <-.
    vm_compute. reflexivity. }
  split; [exact Ec |].
  exists groups, s. split; [exact Hr |]. split; [exact Hs |].
  split; [exact Ht |].
  rewrite E7 in Ht. injection Ht as <-. reflexivity.
Defined.

Lemma all_none_float_cells (lib : pylib) (cs : list pyval) :
  Forall (fun v => cell_num lib v = None) cs ->
  map float_cell (map (cell_num lib) cs) = map (fun _ => None) cs.
Proof.
  induction 1 as [| v cs Hv _ IH]; [reflexivity |].
  simpl. rewrite Hv, IH. reflexivity.
Qed.

Lemma numeric_all_none (lib : pylib) (cs : list pyval) :
  Forall (fun v => cell_num lib v = None) cs ->
  numeric lib cs = map (fun _ => nan) cs.
Proof.
  intros H. unfold numeric, to_numeric.
  destruct cs as [| v cs]; [reflexivity |].
  inversion H as [| ? ? Hv Hcs]; subst.
  cbn [map]. rewrite Hv. cbn [all_int64 all_uint64].
  rewrite (all_none_float_cells lib cs Hcs). cbn [float_cell map].
  rewrite map_map. reflexivity.
Qed.

Lemma column_sum_all_none (lib : pylib) (cs : list pyval) :
  cs <> [] ->
  Forall (fun v => cell_num lib v = None) cs ->
  column_sum lib (to_numeric lib cs) = None.
Proof.
  intros Hne H. unfold to_numeric.
  destruct cs as [| v cs]; [contradiction Hne; reflexivity |].
  inversion H as [| ? ? Hv Hcs]; subst.
  cbn [map]. rewrite Hv.
  cbn [all_int64 all_uint64 column_sum float_cell map existsb is_some].
  rewrite (all_none_float_cells lib cs Hcs).
  replace (existsb is_some (map (fun _ : pyval => @None F64.t) cs))
    with false; [reflexivity |].
  clear. induction cs as [| v cs IH]; [reflexivity | exact IH].
Qed.

Lemma is_some_float_cell (n : option num) :
  is_some (float_cell n) = is_some n.
Proof. destruct n as [[z | f] |]; reflexivity. Qed.

Lemma existsb_map {A B : Type} (f : A -> B) (p : B -> bool) (l : list A) :
  existsb p (map f l) = existsb (fun x => p (f x)) l.
Proof.
  induction l as [| x l IH]; [reflexivity |]. simpl. rewrite IH. reflexivity.
Qed.

Lemma existsb_has_number (lib : pylib) (c : string) (prods : list dict) :
  existsb (fun d => is_some (float_cell (cell_num lib (get d c)))) prods =
  existsb (has_number lib c) prods.
Proof.
  induction prods as [| d prods IH]; [reflexivity |].
  simpl. rewrite IH, is_some_float_cell. reflexivity.
Qed.

Lemma settled_not_str (lib : pylib) (v : pyval) :
  is_str v = false -> settled lib v.
Proof.
  unfold settled. destruct v as [| b | z | f | s | l | d]; simpl;
    try reflexivity; try discriminate; intros _.
  - destruct b; reflexivity.
  - pose proof (binary_normalize_not_nan z 0) as N.
    fold (F64.of_Z z) in N. rewrite N. reflexivity.
  - destruct (F64.is_nan f) eqn:N; [reflexivity |]. simpl. rewrite N.
    reflexivity.
Qed.

Lemma settled_blank (lib : pylib) :
  to_numeric_str lib "" = None -> settled lib (VStr "").
Proof. intros H. unfold settled. simpl. rewrite H. reflexivity. Qed.

Lemma settled_cells (lib : pylib) (cs : list pyval) :
  Forall (settled lib) cs ->
  map float_cell (map (cell_num lib)
    (map opt_value (map float_cell (map (cell_num lib) cs)))) =
  map float_cell (map (cell_num lib) cs).
Proof.
  induction 1 as [| v cs Hv _ IH]; [reflexivity |].
  cbn [map]. rewrite IH. f_equal. exact Hv.
Qed.

(** The weight and the volume of a line are numbers or [None], never
    text. *)
Lemma resolved_measures (lib : pylib) (lk : pydict dict) (d : dict)
  (c : string) :
  resolved lib lk d -> In c measure_cols -> is_str (get d c) = false.
Proof.
  intros (item & label & H) Hc. apply resolve_item_inv in H.
  destruct H as (it & found & fl & insuf & falta & extra & tw &
                 _ & _ & _ & _ & Htw & _ & ->).
  destruct Hc as [<- | [<- | []]].
  - change (get (line_data _ _ _ _ _ _) "Total Weight (kg)") with tw.
    unfold total_weight in Htw.
    destruct (truthy (net_w fl) && truthy (item_units it)).
    + apply bind_ok in Htw. destruct Htw as (p & _ & Hr).
      unfold py_round in Hr. destruct (as_num p) as [n |]; [| discriminate Hr].
      injection Hr as <-. destruct (num_round 3 n); reflexivity.
    + injection Htw as <-. reflexivity.
  - change (get (line_data _ _ _ _ _ _) "Volume (m³)")
      with (volume_of (f_scan fl)).
    unfold volume_of.
    destruct (ancho (f_scan fl)), (alto (f_scan fl)), (fondo (f_scan fl));
      reflexivity.
Qed.

Lemma measure_col_is_col (c : string) :
  In c measure_cols -> In c cols /\ c <> "Product" /\ In c data_cols.
Proof.
  intros [<- | [<- | []]]; (split; [simpl; tauto |]);
    (split; [discriminate | simpl; tauto]).
Qed.

Lemma measure_column
  (lib : pylib) (lk : pydict dict) (c : string)
  (groups : pydict (list dict)) :
  to_numeric_str lib "" = None ->
  In c measure_cols ->
  Forall (fun g => Forall (resolved lib lk) (snd g)) groups ->
  let cs := cells c (map final_row (flat_map (group_block lib) groups)) in
  Forall (settled lib) cs /\
  map (term lib) cs = flat_map (member_terms lib c) groups /\
  existsb is_some (map float_cell (map (cell_num lib) cs)) =
  existsb (has_number lib c) (all_members groups).
Proof.
  intros Hblank Hc Hall cs. subst cs. rewrite cells_blocks.
  destruct (measure_col_is_col c Hc) as (Hcol & Hnp & Hdata).
  assert (Hsub : forall l prods,
             get (final_row (subtotal_row lib l prods)) c = VStr "").
  { intros l prods. rewrite final_subtotal_row.
    destruct Hc as [<- | [<- | []]]; reflexivity. }
  assert (Hz : term lib (VStr "") = zero).
  { unfold term. simpl. rewrite Hblank. reflexivity. }
  assert (Hn : cell_num lib (VStr "") = None) by exact Hblank.
  unfold all_members.
  induction Hall as [| [l prods] groups Hg _ (IH1 & IH2 & IH3)].
  - repeat split. constructor.
  - cbn [flat_map fst snd].
    rewrite (header_cell_blank lib l c Hcol Hnp), Hsub.
    assert (Hm : map (fun d => get (final_row d) c) prods =
                 map (fun d => get d c) prods).
    { apply map_ext_in. intros d Hd. rewrite Forall_forall in Hg.
      destruct (Hg _ Hd) as (item & label & Hres).
      apply (member_data_cell _ _ _ _ _ _ Hres Hdata). }
    rewrite Hm. split; [| split].
    + apply Forall_app. split; [| exact IH1].
      constructor; [apply settled_blank, Hblank |].
      apply Forall_app. split.
      * apply Forall_map. apply Forall_forall. intros d Hd.
        rewrite Forall_forall in Hg.
        apply settled_not_str, (resolved_measures lib lk d c (Hg _ Hd) Hc).
      * constructor; [apply settled_blank, Hblank | constructor].
    + rewrite map_app, IH2. f_equal. unfold member_terms.
      cbn [map fst snd]. rewrite Hz, map_app, map_map. cbn [map].
      rewrite Hz. reflexivity.
    + rewrite !map_app, !existsb_app, IH3. f_equal.
      cbn [map existsb]. rewrite Hn. cbn [float_cell is_some orb].
      rewrite !map_app, existsb_app. cbn [map existsb].
      rewrite Hn. cbn [float_cell is_some orb]. rewrite orb_false_r.
      rewrite !existsb_map. apply existsb_has_number.
Qed.

Lemma second_conversion (lib : pylib) (cs : list pyval) :
  to_numeric_str lib "" = None ->
  Forall (settled lib) cs ->
  to_numeric lib
    (map opt_value (map float_cell (map (cell_num lib) (VStr "" :: cs)))
     ++ [VStr ""]) =
  FloatCol (map float_cell (map (cell_num lib) (VStr "" :: cs)) ++ [None]).
Proof.
  intros Hblank Hs.
  assert (Hn : cell_num lib (VStr "") = None) by exact Hblank.
  cbn [map]. rewrite Hn. cbn [float_cell opt_value app].
  rewrite float_column by reflexivity.
  cbn [map]. rewrite !map_app, (settled_cells lib cs Hs).
  cbn [map]. rewrite Hn. reflexivity.
Qed.

(** X17.  The total weight and the total volume that the pallet estimate
    divides are sums over the line items alone: a float64 sum of the column
    in which a member row counts its cell ([0.0] when it has none) and the
    header, subtotal and TOTAL rows count [0.0].  When no line has a number
    in the column the sum is NaN, for which the quotient is 0.  This is for
    a library whose float64 reduction is a summation, and for a report
    without an integer beyond the binary64 range. *)
Theorem pallet_inputs_sum_the_member_rows
  (lib : pylib) (cell : pyval) (lk : pydict dict) (fr : frame) (c : string) :
  sums lib ->
  get_products_info_for_row lib cell lk = Ok fr ->
  float_range (rows fr) = true ->
  rows fr <> [] ->
  to_numeric_str lib "" = None ->
  In c measure_cols ->
  exists groups,
    rows fr = map final_row (flat_map (group_block lib) groups) /\
    if existsb (has_number lib c) (all_members groups)
    then exists s,
           summation (flat_map (member_terms lib c) groups ++ [zero]) s /\
           summary_sum lib c (rows fr) = s
    else summary_sum lib c (rows fr) = S754_nan.
Proof.
  intros Hsums H _ Hne Hblank Hc.
  destruct (report_members_resolved _ _ _ _ H) as (groups & Hr & Hall).
  exists groups. split; [exact Hr |].
  assert (E : summary_sum lib c (rows fr) =
              if existsb (has_number lib c) (all_members groups)
              then float_sum lib
                     (flat_map (member_terms lib c) groups ++ [zero])
              else S754_nan).
  { destruct (measure_column lib lk c groups Hblank Hc Hall)
      as (Hs & Ht & Hex).
    rewrite <- Hr in Hs, Ht, Hex.
    destruct (measure_col_is_col c Hc) as (Hcol & Hnp & _).
    assert (Hhead : exists cs, cells c (rows fr) = VStr "" :: cs).
    { rewrite Hr, cells_blocks.
      destruct groups as [| [l prods] groups];
        [rewrite Hr in Hne; contradiction Hne; reflexivity |].
      cbn [flat_map fst snd]. rewrite (header_cell_blank lib l c Hcol Hnp).
      eexists. reflexivity. }
    destruct Hhead as (cs & Ecs).
    unfold summary_sum, final_column.
    assert (Et : get_default (totals lib (rows fr)) c nan = VStr "").
    { destruct Hc as [<- | [<- | []]]; reflexivity. }
    rewrite Et.
    assert (En : numeric lib (cells c (rows fr)) =
                 map opt_value
                   (map float_cell (map (cell_num lib) (cells c (rows fr))))).
    { unfold numeric. rewrite Ecs, float_column by exact Hblank.
      reflexivity. }
    rewrite En.
    rewrite Ecs in Hs. inversion Hs as [| ? ? _ Hs']; subst.
    rewrite Ecs at 1. rewrite (second_conversion lib cs Hblank Hs').
    rewrite <- Ecs. unfold column_sum.
    rewrite existsb_app, Hex. cbn [existsb is_some orb].
    rewrite orb_false_r.
    destruct (existsb (has_number lib c) (all_members groups));
      [| reflexivity].
    rewrite map_app. cbn [map fill0]. rewrite <- Ht.
    unfold term. rewrite !map_map. reflexivity. }
  rewrite E.
  destruct (existsb (has_number lib c) (all_members groups));
    [| reflexivity].
  eexists. split; [apply Hsums | reflexivity].
Qed.

Lemma pallet_inputs_sum_the_member_rows_witness :
  sums ref_lib /\
  exists fr,
    get_products_info_for_row ref_lib two_weights [] = Ok fr /\
    float_range (rows fr) = true /\
    map (fun r => get r "Total Weight (kg)") (rows fr) =
      [VStr ""; VFloat (F64.dec 75 2); VFloat (F64.dec 15 1); VStr ""] /\
    exists groups s,
      rows fr = map final_row (flat_map (group_block ref_lib) groups) /\
      summation
        (flat_map (member_terms ref_lib "Total Weight (kg)") groups ++ [zero])
        s /\
      summary_sum ref_lib "Total Weight (kg)" (rows fr) = s /\
      s = F64.dec 225 2.
Proof.
  split; [exact left_sum_sums |].
  destruct (get_products_info_for_row ref_lib two_weights [])
    as [fr | e] eqn:HR; [| vm_compute in HR; discriminate HR].
  exists fr. split; [reflexivity |].
  assert (Hf : float_range (rows fr) = true).
  { pose proof HR as HR'. vm_compute in HR'. injection HR' as <-.
    vm_compute. reflexivity. }
  assert (Hne : rows fr <> []).
  { pose proof HR as HR'. vm_compute in HR'. injection HR' as <-.
    discriminate. }
  split; [exact Hf |].
  assert (Ec : map (fun r => get r "Total Weight (kg)") (rows fr) =
               [VStr ""; VFloat (F64.dec 75 2); VFloat (F64.dec 15 1);
                VStr ""]).
  { pose proof HR as HR'. vm_compute in HR'. injection HR' as <-.
    vm_compute. reflexivity. }
  split; [exact Ec |].
  destruct (pallet_inputs_sum_the_member_rows ref_lib two_weights [] fr
              "Total Weight (kg)" left_sum_sums HR Hf Hne eq_refl
              (or_introl eq_refl))
    as (groups & Hr & Hsum).
  assert (Ex : existsb (has_number ref_lib "Total Weight (kg)")
                 (all_members groups) = true).
  { destruct (existsb (has_number ref_lib "Total Weight (kg)")
                (all_members groups)) eqn:E; [reflexivity |].
    exfalso.
    assert (E2 : summary_sum ref_lib "Total Weight (kg)" (rows fr)
                 = F64.dec 225 2).
    { pose proof HR as HR'. vm_compute in HR'. injection HR' as <-.
      vm_compute. reflexivity. }
    rewrite E2 in Hsum. vm_compute in Hsum. discriminate Hsum. }
  rewrite Ex in Hsum. destruct Hsum as (s & Hs & Es).
  exists groups, s. split; [exact Hr |]. split; [exact Hs |].
  split; [exact Es |].
  rewrite <- Es.
  pose proof HR as HR'. vm_compute in HR'. injection HR' as <-.
  vm_compute. reflexivity.
Defined.

(** X18.  [int(total_units)] has no value when no row of the report shows
    a number of units: the sum of the column is NaN, [NaN or 0] is NaN,
    and the pallet summary ends in [ValueError] although the pallet count
    itself was computed. *)
Theorem units_without_a_number_fail_the_summary
  (lib : pylib) (fixed : nat -> pyval -> string) (rows : list dict)
  (est : pallet_estimate) :
  to_numeric_str lib "" = None ->
  Forall (fun r => cell_num lib (get r "Units") = None) rows ->
  pallet_summary (summary_sum lib "Total Weight (kg)" rows)
                 (summary_sum lib "Volume (m³)" rows) = Ok est ->
  pallet_summary_of lib fixed rows = Failed ValueError.
Proof.
  intros Hblank Hall Hest. unfold pallet_summary_of. rewrite Hest.
  assert (E : summary_total lib "Units" rows = nan).
  { unfold summary_total, final_column.
    assert (Hc : Forall (fun v => cell_num lib v = None) (cells "Units" rows)).
    { unfold cells. apply Forall_map. exact Hall. }
    rewrite (numeric_all_none lib _ Hc).
    change (get_default (totals lib rows) "Units" nan) with (VStr "").
    rewrite column_sum_all_none; [reflexivity | |].
    - destruct (map _ (cells "Units" rows)); discriminate.
    - apply Forall_app. split.
      + apply Forall_map. apply Forall_forall. intros; reflexivity.
      + constructor; [exact Hblank | constructor]. }
  rewrite E. reflexivity.
Qed.

Lemma units_without_a_number_fail_the_summary_witness :
  exists fr,
    get_products_info_for_row ref_lib loose_lines [] = Ok fr /\
    pallet_summary_of ref_lib (fun _ _ => "") (rows fr) = Failed ValueError.
Proof.
  destruct (get_products_info_for_row ref_lib loose_lines [])
    as [fr | e] eqn:HR; [| vm_compute in HR; discriminate HR].
  exists fr. split; [reflexivity |].
  vm_compute in HR. injection HR as <-.
  apply (units_without_a_number_fail_the_summary ref_lib (fun _ _ => "") _
           {| pallets_by_weight := VInt 0; pallets_by_volume := VInt 0;
              pallets_needed := 1 |}).
  - reflexivity.
  - repeat constructor.
  - vm_compute. reflexivity.
Defined.

(** ** The paginated fetch *)

Lemma fetch_all_products_unfold (srv : server) (fuel : nat) :
  fetch_all_products srv fuel = fetch_documents srv fuel PRODUCTS_URL.
Proof. reflexivity. Qed.

Lemma fetch_full_pages (get_page : Z -> option pyval)
  (pages : list (list pyval)) (fuel : nat) (page : Z) (all : list pyval) :
  Forall full_page pages ->
  serves get_page page pages ->
  fetch_pages get_page (List.length pages + fuel) page all =
  fetch_pages get_page fuel (page + Z.of_nat (List.length pages))
              (all ++ List.concat pages).
Proof.
  intros Hfull. revert page all.
  induction Hfull as [| p ps Hp _ IH]; intros page all Hs.
  - simpl. rewrite Z.add_0_r, app_nil_r. reflexivity.
  - destruct Hs as [(data & Hd & Hc) Hs].
    change (List.length (p :: ps) + fuel)%nat
      with (S (List.length ps + fuel)).
    cbn [fetch_pages]. rewrite Hd. cbv zeta. rewrite Hc.
    unfold full_page, PAGE_SIZE in Hp.
    assert (Ht : truthy (VList p) = true).
    { destruct p; [simpl in Hp; lia | reflexivity]. }
    rewrite Ht. cbn [negb elements].
    assert (Hl : (Z.of_nat (List.length p) <? PAGE_SIZE) = false).
    { apply Z.ltb_ge. exact Hp. }
    rewrite Hl, (IH _ _ Hs). cbn [List.concat List.length].
    rewrite <- app_assoc. f_equal. lia.
Qed.

Lemma serves_app (get_page : Z -> option pyval) (page : Z)
  (pages rest : list (list pyval)) :
  serves get_page page (pages ++ rest) ->
  serves get_page page pages /\
  serves get_page (page + Z.of_nat (List.length pages)) rest.
Proof.
  revert page. induction pages as [| p ps IH]; intros z Hs.
  - simpl in *. rewrite Z.add_0_r. split; [exact I | exact Hs].
  - destruct Hs as [Hp Hs]. destruct (IH _ Hs) as [H1 H2].
    split; [split; assumption |].
    replace (z + Z.of_nat (List.length (p :: ps)))
      with (z + 1 + Z.of_nat (List.length ps)) by (simpl List.length; lia).
    exact H2.
Qed.

Lemma fetch_pages_short (get_page : Z -> option pyval)
  (pages : list (list pyval)) (last : list pyval) (fuel : nat) :
  Forall full_page pages ->
  short_page last ->
  serves get_page 1 (pages ++ [last]) ->
  (List.length pages < fuel)%nat ->
  fetch_pages get_page fuel 1 [] = Some (Done (List.concat pages ++ last)).
Proof.
  intros Hfull Hshort Hs Hfuel.
  destruct (serves_app _ _ _ _ Hs) as [Hs1 [(data & Hd & Hc) _]].
  replace fuel with (List.length pages + S (fuel - List.length pages - 1))%nat
    by lia.
  rewrite (fetch_full_pages _ _ _ _ _ Hfull Hs1).
  cbn [fetch_pages]. rewrite Hd. cbv zeta. rewrite Hc.
  unfold short_page in Hshort.
  destruct last as [| x last].
  - simpl. rewrite app_nil_r. reflexivity.
  - cbn [truthy negb elements].
    apply Z.ltb_lt in Hshort. rewrite Hshort. reflexivity.
Qed.

(** X19.  The fetch gathers the records of the pages in order and stops at
    the first page that holds fewer than [PAGE_SIZE] records (an empty
    page included): it returns the records of the full pages followed by
    those of that page, and asks for no page after it.  The same loop
    fetches the documents of an address and the products. *)
Theorem fetch_stops_at_the_first_short_page
  (srv : server) (url : string) (pages : list (list pyval))
  (last : list pyval) (fuel : nat) :
  Forall full_page pages ->
  short_page last ->
  serves (srv url) 1 (pages ++ [last]) ->
  (List.length pages < fuel)%nat ->
  fetch_documents srv fuel url = Some (Done (List.concat pages ++ last)) /\
  (url = PRODUCTS_URL ->
   fetch_all_products srv fuel = Some (Done (List.concat pages ++ last))).
Proof.
  intros Hfull Hshort Hs Hfuel.
  pose proof (fetch_pages_short _ _ _ _ Hfull Hshort Hs Hfuel) as H.
  split; [exact H |]. intros ->. exact H.
Qed.

Lemma fetch_stops_at_the_first_short_page_witness :
  fetch_documents two_page_server 2 "estimates"
  = Some (Done (repeat one_record 100 ++ [one_record])).
Proof.
  destruct (fetch_stops_at_the_first_short_page two_page_server "estimates"
              [repeat one_record 100] [one_record] 2) as [H _].
  - constructor; [| constructor]. unfold full_page. vm_compute. discriminate.
  - unfold short_page. vm_compute. reflexivity.
  - split; [eexists; split; reflexivity |].
    split; [eexists; split; reflexivity | exact I].
  - repeat constructor.
  - rewrite H. reflexivity.
Defined.

(** X20.  The loop has no bound of its own: against a service that
    answers every request with a full page, it never returns, however many
    requests it is allowed. *)
Theorem fetch_never_ends_on_full_pages (srv : server) (url : string) :
  (forall page, 1 <= page ->
     exists data p, srv url page = Some data /\ chunk_of data = VList p /\
                    full_page p) ->
  forall fuel,
    fetch_documents srv fuel url = None /\
    (url = PRODUCTS_URL -> fetch_all_products srv fuel = None).
Proof.
  intros Hall fuel.
  assert (H : fetch_pages (srv url) fuel 1 [] = None).
  { generalize (@nil pyval). generalize (Z.le_refl 1).
    generalize 1 at 2 3. induction fuel as [| fuel IH]; intros page Hp all.
    - reflexivity.
    - destruct (Hall page Hp) as (data & p & Hd & Hc & Hf).
      cbn [fetch_pages]. rewrite Hd. cbv zeta. rewrite Hc.
      unfold full_page, PAGE_SIZE in Hf.
      assert (Ht : truthy (VList p) = true).
      { destruct p; [simpl in Hf; lia | reflexivity]. }
      rewrite Ht. cbn [negb elements].
      assert (Hl : (Z.of_nat (List.length p) <? PAGE_SIZE) = false).
      { apply Z.ltb_ge. exact Hf. }
      rewrite Hl. apply IH. lia. }
  split; [exact H |]. intros ->. exact H.
Qed.

Lemma fetch_never_ends_on_full_pages_witness :
  fetch_documents endless_server 7 "estimates" = None.
Proof.
  apply (fetch_never_ends_on_full_pages endless_server "estimates").
  intros page _. exists (VList (repeat one_record 100)), (repeat one_record 100).
  split; [reflexivity |]. split; [reflexivity |].
  unfold full_page. vm_compute. discriminate.
Defined.

(** X21.  A request that fails ends the fetch with that failure: the
    records of the pages fetched before it are not returned. *)
Theorem failed_request_discards_the_pages
  (srv : server) (url : string) (pages : list (list pyval)) (fuel : nat) :
  Forall full_page pages ->
  serves (srv url) 1 pages ->
  srv url (1 + Z.of_nat (List.length pages)) = None ->
  (List.length pages < fuel)%nat ->
  fetch_documents srv fuel url = Some (Failed RequestFailed) /\
  (url = PRODUCTS_URL ->
   fetch_all_products srv fuel = Some (Failed RequestFailed)).
Proof.
  intros Hfull Hs Hfail Hfuel.
  assert (H : fetch_pages (srv url) fuel 1 [] = Some (Failed RequestFailed)).
  { replace fuel
      with (List.length pages + S (fuel - List.length pages - 1))%nat by lia.
    rewrite (fetch_full_pages _ _ _ _ _ Hfull Hs).
    cbn [fetch_pages]. rewrite Hfail. reflexivity. }
  split; [exact H |]. intros ->. exact H.
Qed.

Lemma failed_request_discards_the_pages_witness :
  Forall full_page [repeat one_record 100] /\
  serves (failing_server PRODUCTS_URL) 1 [repeat one_record 100] /\
  failing_server PRODUCTS_URL 2 = None /\
  fetch_all_products failing_server 3 = Some (Failed RequestFailed).
Proof.
  assert (Hf : Forall full_page [repeat one_record 100]).
  { repeat constructor. unfold full_page. vm_compute. discriminate. }
  assert (Hs : serves (failing_server PRODUCTS_URL) 1
                 [repeat one_record 100]).
  { split; [| exact I]. eexists. split; reflexivity. }
  split; [exact Hf |]. split; [exact Hs |]. split; [reflexivity |].
  apply (failed_request_discards_the_pages failing_server PRODUCTS_URL
           [repeat one_record 100] 3 Hf Hs);
    [reflexivity | repeat constructor | reflexivity].
Defined.

(** ** Finding the document *)

Lemma first_index_spec {A : Type} (p : A -> bool) (before after : list A)
  (x : A) (i : Z) :
  Forall (fun y => p y = false) before -> p x = true ->
  first_index p (before ++ x :: after) i =
  Some (i + Z.of_nat (List.length before)).
Proof.
  intros Hb Hx. revert i. induction Hb as [| y before Hy _ IH]; intros i.
  - simpl. rewrite Hx, Z.add_0_r. reflexivity.
  - simpl first_index. rewrite Hy, IH. f_equal. simpl List.length. lia.
Qed.

Lemma first_index_none {A : Type} (p : A -> bool) (l : list A) (i : Z) :
  first_index p l i = None -> Forall (fun y => p y = false) l.
Proof.
  revert i. induction l as [| x l IH]; intros i H; [constructor |].
  simpl in H. destruct (p x) eqn:E; [discriminate H |].
  constructor; [exact E | apply (IH _ H)].
Qed.

Lemma first_index_all_false {A : Type} (p : A -> bool) (l : list A) (i : Z) :
  Forall (fun y => p y = false) l -> first_index p l i = None.
Proof.
  intros H. revert i. induction H as [| x l Hx _ IH]; intros i;
    [reflexivity |].
  simpl. rewrite Hx. apply IH.
Qed.

Lemma doc_matches_carries (lib : doclib) (n : string) (d : dict) :
  doc_matches lib (lower lib n) (get_default d "docNumber" nan) = true <->
  carries lib n d.
Proof.
  unfold carries, get_default. split.
  - destruct (get_opt d "docNumber") as [v |]; [| discriminate].
    destruct v; try discriminate. simpl. intros H.
    apply String.eqb_eq in H. eexists. split; [reflexivity | exact H].
  - intros (s & -> & E). simpl. apply String.eqb_eq. exact E.
Qed.

Lemma carrier_column (lib : doclib) (n : string) (df : list dict) (d : dict) :
  carries lib n d -> In d df ->
  has_column "docNumber" df = true /\
  existsb is_str (map (fun d => get_default d "docNumber" nan) df) = true.
Proof.
  intros (s & E & _) Hin. split.
  - apply existsb_exists. exists d. split; [exact Hin |].
    rewrite E. reflexivity.
  - apply existsb_exists. exists (get_default d "docNumber" nan).
    split; [apply (in_map (fun d => get_default d "docNumber" nan)), Hin |].
    unfold get_default. rewrite E. reflexivity.
Qed.

Lemma carrier_first_index
  (lib : doclib) (before after : list dict) (d : dict) (n : string) :
  carries lib n d ->
  Forall (fun d' => ~ carries lib n d') before ->
  first_index (doc_matches lib (lower lib n))
    (map (fun d => get_default d "docNumber" nan) (before ++ d :: after)) 0 =
  Some (Z.of_nat (List.length before)).
Proof.
  intros Hd Hb. rewrite map_app. cbn [map].
  rewrite first_index_spec.
  - rewrite length_map. reflexivity.
  - apply Forall_map. apply Forall_forall. intros d' Hin.
    rewrite Forall_forall in Hb.
    destruct (doc_matches lib (lower lib n) (get_default d' "docNumber" nan))
      eqn:E; [| reflexivity].
    apply doc_matches_carries in E. contradiction (Hb _ Hin).
  - apply doc_matches_carries. exact Hd.
Qed.

(** X22.  [get_row_index_by_docnumber] compares the numbers without regard
    to the case of letters, and when several documents carry the number it
    returns the position of the first of them. *)
Theorem first_matching_document_is_found
  (lib : doclib) (before after : list dict) (d : dict) (n : string) :
  carries lib n d ->
  Forall (fun d' => ~ carries lib n d') before ->
  get_row_index_by_docnumber lib (before ++ d :: after) n =
  Done (Some (Z.of_nat (List.length before))).
Proof.
  intros Hd Hb. unfold get_row_index_by_docnumber.
  destruct (carrier_column lib n (before ++ d :: after) d Hd (in_elt _ _ _))
    as [Hc Hs].
  rewrite Hc, Hs. cbn [orb].
  rewrite (carrier_first_index lib before after d n Hd Hb).
  reflexivity.
Qed.

Lemma first_matching_document_is_found_witness :
  get_row_index_by_docnumber ref_doclib three_docs "pre-002" = Done (Some 1).
Proof.
  apply (first_matching_document_is_found ref_doclib
           [[("docNumber", VStr "PRE-001")]]
           [[("docNumber", VStr "PRE-002")]]
           [("docNumber", VStr "Pre-002")] "pre-002").
  - exists "Pre-002". split; reflexivity.
  - constructor; [| constructor].
    intros (s & E & L). injection E as <-. discriminate L.
Defined.

(** X23.  [get_row_index_by_docnumber] returns [None] only when no document
    carries the number; and it does return [None], not an error, when no
    document carries it and some document has a number that is text. *)
Theorem unmatched_number_gives_none
  (lib : doclib) (df : list dict) (n : string) :
  (get_row_index_by_docnumber lib df n = Done None ->
   Forall (fun d => ~ carries lib n d) df) /\
  (Forall (fun d => ~ carries lib n d) df ->
   Exists (fun d => exists s, get_opt d "docNumber" = Some (VStr s)) df ->
   get_row_index_by_docnumber lib df n = Done None).
Proof.
  unfold get_row_index_by_docnumber. split.
  - destruct (has_column "docNumber" df); [| discriminate].
    destruct (_ || _); [| discriminate].
    intros H. injection H as H. apply first_index_none in H.
    rewrite Forall_map in H. apply Forall_forall. intros d Hin Hc.
    rewrite Forall_forall in H. apply doc_matches_carries in Hc.
    rewrite (H _ Hin) in Hc. discriminate Hc.
  - intros Hnone Hex. apply Exists_exists in Hex.
    destruct Hex as (d & Hin & s & Hs).
    assert (Hc : has_column "docNumber" df = true).
    { apply existsb_exists. exists d. split; [exact Hin |].
      rewrite Hs. reflexivity. }
    rewrite Hc.
    assert (Hstr : existsb is_str
                     (map (fun d => get_default d "docNumber" nan) df) = true).
    { apply existsb_exists. exists (get_default d "docNumber" nan).
      split;
        [apply (in_map (fun d => get_default d "docNumber" nan)), Hin |].
      unfold get_default. rewrite Hs. reflexivity. }
    rewrite Hstr. cbn [orb]. f_equal.
    apply first_index_all_false. apply Forall_map.
    apply Forall_forall. intros d' Hin'. rewrite Forall_forall in Hnone.
    destruct (doc_matches lib (lower lib n) (get_default d' "docNumber" nan))
      eqn:M; [| reflexivity].
    apply doc_matches_carries in M. contradiction (Hnone _ Hin').
Qed.

Lemma search_app (lib : doclib) (srv : server) (fuel : nat) (n : string)
  (before rest : list (string * string)) :
  search lib srv fuel n before = Some (Done None) ->
  search lib srv fuel n (before ++ rest) = search lib srv fuel n rest.
Proof.
  induction before as [| [t u] before IH]; intros H; [reflexivity |].
  simpl in *.
  destruct (fetch_documents srv fuel u) as [[docs | f] |];
    try discriminate H.
  destruct (data_frame lib docs) as [df | f]; try discriminate H.
  destruct (get_row_index_by_docnumber lib df n) as [[i |] | f];
    try discriminate H.
  apply IH, H.
Qed.

(** X24.  The search gives up at the first kind of document of which the
    service holds none (or none with a number): the frame of that kind has
    no column "docNumber", the lookup raises [KeyError], and the kinds
    after it are not looked at. *)
Theorem endpoint_without_documents_aborts_the_search
  (lib : doclib) (srv : server) (fuel : nat) (n : string)
  (before after : list (string * string)) (doc_type url : string)
  (all_docs : list pyval) (df : list dict) :
  ENDPOINTS = before ++ (doc_type, url) :: after ->
  search lib srv fuel n before = Some (Done None) ->
  fetch_documents srv fuel url = Some (Done all_docs) ->
  records all_docs = Some df ->
  has_column "docNumber" df = false ->
  find_document_in_all lib srv fuel n = Some (Failed KeyError).
Proof.
  intros HE Hb Hf Hr Hc. unfold find_document_in_all.
  rewrite HE, (search_app _ _ _ _ _ _ Hb). simpl.
  rewrite Hf. unfold data_frame. rewrite Hr.
  unfold get_row_index_by_docnumber. rewrite Hc. reflexivity.
Qed.

Lemma endpoint_without_documents_aborts_the_search_witness :
  find_document_in_all ref_doclib no_estimates 1 "PRO-7"
  = Some (Failed KeyError).
Proof.
  apply (endpoint_without_documents_aborts_the_search ref_doclib no_estimates
           1 "PRO-7" []
           [ ("Proforma",
              "https://api.holded.com/api/invoicing/v1/documents/proform");
             ("Pedido",
              "https://api.holded.com/api/invoicing/v1/documents/salesorder") ]
           "Presupuesto"
           "https://api.holded.com/api/invoicing/v1/documents/estimate"
           [] []);
    reflexivity.
Defined.

(** X25.  The search looks at the kinds of documents in the order
    Presupuesto, Proforma, Pedido and returns the first document that
    carries the number, in the first kind that has one, with the name of
    the kind and the frame of its documents; the kinds after it are not
    fetched. *)
Theorem search_stops_at_the_first_endpoint_that_matches
  (lib : doclib) (srv : server) (fuel : nat) (n : string)
  (before after : list (string * string)) (doc_type url : string)
  (all_docs : list pyval) (above below : list dict) (d : dict) :
  ENDPOINTS = before ++ (doc_type, url) :: after ->
  search lib srv fuel n before = Some (Done None) ->
  fetch_documents srv fuel url = Some (Done all_docs) ->
  records all_docs = Some (above ++ d :: below) ->
  carries lib n d ->
  Forall (fun d' => ~ carries lib n d') above ->
  find_document_in_all lib srv fuel n =
  Some (Done (Some (doc_type, above ++ d :: below,
                    Z.of_nat (List.length above)))).
Proof.
  intros HE Hb Hf Hr Hd Ha. unfold find_document_in_all.
  rewrite HE, (search_app _ _ _ _ _ _ Hb). simpl.
  rewrite Hf. unfold data_frame. rewrite Hr.
  unfold get_row_index_by_docnumber.
  destruct (carrier_column lib n (above ++ d :: below) d Hd (in_elt _ _ _))
    as [Hc Hs].
  rewrite Hc, Hs. cbn [orb].
  rewrite (carrier_first_index lib above below d n Hd Ha).
  reflexivity.
Qed.

Lemma search_stops_at_the_first_endpoint_that_matches_witness :
  find_document_in_all ref_doclib proforma_server 1 "pro-7"
  = Some (Done (Some ("Proforma", [[("docNumber", VStr "PRO-7")]], 0))).
Proof.
  apply (search_stops_at_the_first_endpoint_that_matches ref_doclib
           proforma_server 1 "pro-7"
           [ ("Presupuesto",
              "https://api.holded.com/api/invoicing/v1/documents/estimate") ]
           [ ("Pedido",
              "https://api.holded.com/api/invoicing/v1/documents/salesorder") ]
           "Proforma"
           "https://api.holded.com/api/invoicing/v1/documents/proform"
           [VDict [("docNumber", VStr "PRO-7")]]
           [] [] [("docNumber", VStr "PRO-7")]).
  - reflexivity.
  - vm_compute. reflexivity.
  - reflexivity.
  - reflexivity.
  - exists "PRO-7". split; reflexivity.
  - constructor.
Defined.

(** ** The line items of the document found *)

(** X26.  A document that has no "products" field at all does not give an
    empty report, as one whose field is null or an empty list does: its
    cell in the frame is NaN, which is truthy and no list, so that
    [get_products_info_for_row] raises [TypeError]; and when no document of
    the frame has the field, the lookup of the column raises [KeyError]. *)
Theorem document_without_products_field
  (lib : pylib) (dl : doclib) (row_idx : Z) (df_docs : list dict)
  (lk : pydict dict) (d : dict) :
  0 <= row_idx ->
  nth_error df_docs (Z.to_nat row_idx) = Some d ->
  get_opt d "products" = None ->
  report_of_row lib dl row_idx df_docs lk =
  Failed (if has_column "products" df_docs then Raised TypeError
          else KeyError).
Proof.
  intros H0 Hd Hp. unfold report_of_row, products_cell.
  assert (Hneg : (row_idx <? 0) = false) by (apply Z.ltb_ge; exact H0).
  rewrite Hneg, Hd, Hp.
  destruct (has_column "products" df_docs); reflexivity.
Qed.

Lemma document_without_products_field_witness :
  report_of_row ref_lib ref_doclib 1 two_docs catalog_a
  = Failed (Raised TypeError).
Proof.
  apply (document_without_products_field ref_lib ref_doclib 1 two_docs
           catalog_a [("docNumber", VStr "PRE-002")]).
  - discriminate.
  - reflexivity.
  - reflexivity.
Defined.
